(** * Saffron cross-chain transfer: a shallow embedding of the CCTP modules

    The development follows the TypeScript sources of the two runtimes
    of the repository:

    - the mobile runtime, [Saffron/api/cross-chain/]
      ([base-sender.ts], [circle-attestation.ts], [aptos-receiver.ts],
      [index.ts]);
    - the script runtime, [Saffron-contract/corss/src/]
      ([base-sender.ts], [circle-attestation.ts], [aptos-receiver.ts]),
      with its transfer script [examples/test-cctp-flow.ts];
    - the handler of the screen that starts the transfer in the mobile
      runtime, [components/PreviewModal.tsx].

    JavaScript values are modelled as follows: strings of the sources are
    [string]; integers of the bit operations are [Z]; a thrown [Error] is a
    [JsError] carrying its [message] and optional [code]; an [async]
    function is a state-and-exception computation over a [World] that holds
    the wall clock and the log of the calls made to the outside. Time
    passes while the code sleeps and while the attestation authority
    answers; the progress callback of the orchestrator returns normally.
    [console.log] and its kin are left out. *)

From Stdlib Require Import ZArith String Ascii List Bool Lia Floats.
From Stdlib Require Import DecimalString.
Import ListNotations.

Open Scope string_scope.
Open Scope list_scope.
Open Scope Z_scope.

(** ** JavaScript values and exceptions *)

Module Js.

Record JsError : Type := mkError {
  message : string;
  code : option string
}.

(** [new Error(msg)] *)
Definition Error (msg : string) : JsError := mkError msg None.

Inductive Outcome (A : Type) : Type :=
| Ret (a : A)
| Threw (e : JsError).

Arguments Ret {A} a.
Arguments Threw {A} e.

Definition is_ret {A} (o : Outcome A) : bool :=
  match o with Ret _ => true | Threw _ => false end.

(** [s.startsWith(p)] *)
Definition startsWith (s p : string) : bool := String.prefix p s.

(** [s.slice(n)] for [0 <= n] *)
Fixpoint drop (n : nat) (s : string) : string :=
  match n, s with
  | O, _ => s
  | S _, EmptyString => EmptyString
  | S n', String _ s' => drop n' s'
  end.

(** [s.replace(pat, rep)] with a string pattern: only the first
    occurrence of [pat], wherever it stands, is replaced. *)
Fixpoint replace_first (pat rep s : string) : string :=
  if String.prefix pat s then (rep ++ drop (String.length pat) s)%string
  else match s with
       | EmptyString => EmptyString
       | String c s' => String c (replace_first pat rep s')
       end.

(** [s.charAt(i)]: the one-character string at [i], or the empty string
    when [i] is out of range. *)
Definition charAt (s : string) (i : nat) : string :=
  match String.get i s with
  | Some c => String c EmptyString
  | None => EmptyString
  end.

(** [s.indexOf(pat)]: position of the first occurrence, [-1] when there is
    none; the empty pattern is found at position [0]. *)
Fixpoint indexOf_from (i : Z) (s pat : string) : Z :=
  if String.prefix pat s then i
  else match s with
       | EmptyString => -1
       | String _ s' => indexOf_from (i + 1) s' pat
       end.

Definition indexOf (s pat : string) : Z := indexOf_from 0 s pat.

(** Truthiness of a string: [!s] holds of the empty string only. *)
Definition truthy (s : string) : bool :=
  match s with EmptyString => false | _ => true end.

(** [a || b] on strings *)
Definition or_else (a b : string) : string := if truthy a then a else b.

(** [a === b] on strings *)
Definition str_eqb (a b : string) : bool := String.eqb a b.

(** An integer inside a template literal, and [n.toString()] of a
    [bigint]: decimal digits, with a minus sign when negative. *)
Definition Z_toString (n : Z) : string := NilZero.string_of_int (Z.to_int n).

(** White space of the language among the code units below 256. *)
Definition is_whitespace (c : ascii) : bool :=
  let n := nat_of_ascii c in
  ((n =? 9) || (n =? 10) || (n =? 11) || (n =? 12) || (n =? 13) || (n =? 32)
   || (n =? 160))%nat%bool.

(** Value of a digit in a radix up to 16. *)
Definition digit_value (radix : Z) (c : ascii) : option Z :=
  let n := Z.of_nat (nat_of_ascii c) in
  let v := if (48 <=? n) && (n <=? 57) then n - 48
           else if (97 <=? n) && (n <=? 102) then n - 87
           else if (65 <=? n) && (n <=? 70) then n - 55
           else 16 in
  if v <? radix then Some v else None.

(** The digits of a whole string, most significant first. *)
Fixpoint digits_value (radix : Z) (acc : Z) (l : list ascii) : option Z :=
  match l with
  | [] => Some acc
  | c :: l' =>
      match digit_value radix c with
      | Some v => digits_value radix (acc * radix + v) l'
      | None => None
      end
  end.

Definition nonempty_digits (radix : Z) (l : list ascii) : option Z :=
  match l with [] => None | _ => digits_value radix 0 l end.

Fixpoint trim_left (l : list ascii) : list ascii :=
  match l with
  | c :: l' => if is_whitespace c then trim_left l' else l
  | [] => []
  end.

Definition trim (l : list ascii) : list ascii :=
  rev (trim_left (rev (trim_left l))).

(** [BigInt(s)] on a string: white space around the literal is dropped,
    the empty literal is zero, a decimal literal may carry a sign, and the
    prefixes [0x], [0o] and [0b] (in either case) select another radix.
    Anything else raises a [SyntaxError]. *)
Definition BigInt (s : string) : Outcome Z :=
  let fail := Threw (Error ("Cannot convert " ++ s ++ " to a BigInt")%string) in
  let of_option (o : option Z) :=
    match o with Some v => Ret v | None => fail end in
  match trim (list_ascii_of_string s) with
  | [] => Ret 0
  | "0"%char :: p :: l =>
      if Ascii.eqb p "x" || Ascii.eqb p "X" then of_option (nonempty_digits 16 l)
      else if Ascii.eqb p "o" || Ascii.eqb p "O" then of_option (nonempty_digits 8 l)
      else if Ascii.eqb p "b" || Ascii.eqb p "B" then of_option (nonempty_digits 2 l)
      else of_option (nonempty_digits 10 ("0"%char :: p :: l))
  | "-"%char :: l => of_option (option_map Z.opp (nonempty_digits 10 l))
  | "+"%char :: l => of_option (nonempty_digits 10 l)
  | l => of_option (nonempty_digits 10 l)
  end.

(** [s.repeat(count)] for an integer [count]: the copies of [s] one after
    the other, and a [RangeError] when [count] is negative (the message
    is that of V8). *)
Fixpoint copies (s : string) (n : nat) : string :=
  match n with
  | O => EmptyString
  | S n' => (s ++ copies s n')%string
  end.

Definition String_repeat (s : string) (count : Z) : Outcome string :=
  if count <? 0 then
    Threw (Error ("Invalid count value: " ++ Z_toString count)%string)
  else Ret (copies s (Z.to_nat count)).

End Js.

Import Js.

(** ** Address codec ([base-sender.ts], both runtimes) *)

Module Codec.

(** [aptosAddressToBytes32]: the same text in both runtimes. *)
Definition aptosAddressToBytes32 (aptosAddress : string) : Outcome string :=
  let cleanAddress := replace_first "0x" "" aptosAddress in
  if negb (Nat.eqb (String.length cleanAddress) 64) then
    Threw (Error "Invalid Aptos address length")
  else Ret ("0x" ++ cleanAddress)%string.

(** Hexadecimal digits, in either case. *)
Definition is_hex_char (c : ascii) : bool :=
  let n := nat_of_ascii c in
  ((48 <=? n) && (n <=? 57) || (97 <=? n) && (n <=? 102)
   || (65 <=? n) && (n <=? 70))%nat%bool.

Fixpoint is_hex (s : string) : bool :=
  match s with
  | EmptyString => true
  | String c s' => is_hex_char c && is_hex s'
  end.

(** An address as callers write it: the hex part, with or without the
    [0x] prefix. *)
Definition with_prefix (p : bool) (h : string) : string :=
  if p then ("0x" ++ h)%string else h.

(** [evmToAptosAddress] of the script runtime: the address without its
    [0x], padded on the left with zeros to 64 characters. *)
Definition evmToAptosAddress (evmAddress : string) : Outcome string :=
  let cleanAddress := replace_first "0x" "" evmAddress in
  match String_repeat "0" (64 - Z.of_nat (String.length cleanAddress)) with
  | Threw e => Threw e
  | Ret zeros =>
      let paddedAddress := (zeros ++ cleanAddress)%string in
      Ret ("0x" ++ paddedAddress)%string
  end.

End Codec.

(** ** Base64 decoding of the precompiled script ([aptos-receiver.ts]) *)

Module Base64.

(** The precompiled Move script of the mobile receiver. *)
Definition CCTP_SCRIPT_BASE64 : string :=
  "oRzrCwcAAAoGAQAEAgQEAwgMBRQWBypTCH1AAAABAQACAAAAAwIDAAEBBAMEAAEDBgwKAgoCAAMGDAYKAgYKAgEIAAEBE21lc3NhZ2VfdHJhbnNtaXR0ZXIPdG9rZW5fbWVzc2VuZ2VyB1JlY2VpcHQPcmVjZWl2ZV9tZXNzYWdlFmhhbmRsZV9yZWNlaXZlX21lc3NhZ2UIHobOv0V6DGAE81vWSKJ5Rpj1Lg3eCaSGGdzT1Mwj2V+bk3QZ3akKoGwYNreEf2W7vj8SF1Z3WNwkiL4xpHe5AAABBwsADgEOAhEAEQEBAg==".

(** The lookup table of the fallback decoder; ['='] stands at index 64. *)
Definition chars : string :=
  "ABCDEFGHIJKLMNOPQRSTUVWXYZabcdefghijklmnopqrstuvwxyz0123456789+/=".

Definition is_eq_sign (c : ascii) : bool := Ascii.eqb c "="%char.

(** [base64.replace(/=+$/, '')]: the run of ['='] that ends the string is
    removed. *)
Fixpoint strip_trailing_eq (s : string) : string :=
  match s with
  | EmptyString => EmptyString
  | String c s' =>
      let r := strip_trailing_eq s' in
      if is_eq_sign c && negb (truthy r) then EmptyString else String c r
  end.

(** [String.fromCharCode(n)]: the code unit [ToUint16(n)]. A JavaScript
    string is kept as the list of its code units. *)
Definition fromCharCode (n : Z) : Z := n mod 65536.

(** The body of the [for] loop of the fallback. The operands stay between
    [-1] and [64], far from the 32-bit bounds, so that [<<], [>>], [|] and
    [&] are [Z.shiftl], [Z.shiftr], [Z.lor] and [Z.land]. *)
Definition decode_quad (str : string) (i : nat) (output : list Z) : list Z :=
  let enc1 := indexOf chars (charAt str i) in
  let enc2 := indexOf chars (charAt str (i + 1)) in
  let enc3 := indexOf chars (charAt str (i + 2)) in
  let enc4 := indexOf chars (charAt str (i + 3)) in
  let chr1 := Z.lor (Z.shiftl enc1 2) (Z.shiftr enc2 4) in
  let chr2 := Z.lor (Z.shiftl (Z.land enc2 15) 4) (Z.shiftr enc3 2) in
  let chr3 := Z.lor (Z.shiftl (Z.land enc3 3) 6) enc4 in
  let output := output ++ [fromCharCode chr1] in
  let output :=
    if negb (enc3 =? 64) then output ++ [fromCharCode chr2] else output in
  if negb (enc4 =? 64) then output ++ [fromCharCode chr3] else output.

(** [for (let i = 0; i < str.length; i += 4)]; [fuel] bounds the number of
    iterations, and [String.length str] of them are always enough. *)
Fixpoint decode_loop (fuel : nat) (str : string) (i : nat) (output : list Z)
  : list Z :=
  match fuel with
  | O => output
  | S fuel' =>
      if (i <? String.length str)%nat then
        decode_loop fuel' str (i + 4) (decode_quad str i output)
      else output
  end.

(** The [else] branch of [base64ToBytes]. *)
Definition manual_decode (base64 : string) : list Z :=
  let str := strip_trailing_eq base64 in
  decode_loop (String.length str) str 0 [].

(** *** The host's [atob]

    [atob] is a builtin of the host and not code of the repository. It is
    modelled after the forgiving-base64 decode algorithm of the WHATWG
    Infra standard, which the HTML standard prescribes for [atob]:
    ASCII whitespace is removed; when the length is a multiple of four,
    one or two final ['='] are removed; a length of one modulo four and
    any character outside the alphabet fail; every character contributes
    six bits and the bits left over at the end are discarded. *)

Definition is_ascii_whitespace (c : ascii) : bool :=
  let n := nat_of_ascii c in
  ((n =? 9) || (n =? 10) || (n =? 12) || (n =? 13) || (n =? 32))%nat%bool.

Definition alphabet_value (c : ascii) : option Z :=
  let n := Z.of_nat (nat_of_ascii c) in
  if (65 <=? n) && (n <=? 90) then Some (n - 65)
  else if (97 <=? n) && (n <=? 122) then Some (n - 71)
  else if (48 <=? n) && (n <=? 57) then Some (n + 4)
  else if n =? 43 then Some 62
  else if n =? 47 then Some 63
  else None.

Definition remove_whitespace (l : list ascii) : list ascii :=
  filter (fun c => negb (is_ascii_whitespace c)) l.

(** One or two ['='] that end the data, seen from its reversal. *)
Definition drop_padding_rev (r : list ascii) : list ascii :=
  match r with
  | c1 :: c2 :: r' =>
      if is_eq_sign c1 then if is_eq_sign c2 then r' else c2 :: r' else r
  | [c1] => if is_eq_sign c1 then [] else r
  | [] => []
  end.

Definition strip_padding (l : list ascii) : list ascii :=
  if (Nat.modulo (List.length l) 4 =? 0)%nat
  then rev (drop_padding_rev (rev l)) else l.

Fixpoint sextets (l : list ascii) : option (list Z) :=
  match l with
  | [] => Some []
  | c :: l' =>
      match alphabet_value c, sextets l' with
      | Some v, Some vs => Some (v :: vs)
      | _, _ => None
      end
  end.

Fixpoint octets (l : list Z) : list Z :=
  match l with
  | a :: b :: c :: d :: l' =>
      (a * 4 + b / 16) :: ((b mod 16) * 16 + c / 4) :: ((c mod 4) * 64 + d)
      :: octets l'
  | [a; b; c] => [a * 4 + b / 16; (b mod 16) * 16 + c / 4]
  | [a; b] => [a * 4 + b / 16]
  | _ => []
  end.

(** [atob(data)]: the code units of the binary string, or [None] for the
    [InvalidCharacterError] exception. *)
Definition atob (data : string) : option (list Z) :=
  let l := strip_padding (remove_whitespace (list_ascii_of_string data)) in
  if (Nat.modulo (List.length l) 4 =? 1)%nat then None
  else option_map octets (sextets l).

(** [bytes[i] = binaryString.charCodeAt(i)] on a [Uint8Array]: every code
    unit is stored modulo 256. *)
Definition to_Uint8Array (binaryString : list Z) : list Z :=
  map (fun c => c mod 256) binaryString.

(** [base64ToBytes]; [atob_defined] is [typeof atob !== 'undefined']. *)
Definition base64ToBytes (atob_defined : bool) (base64 : string)
  : Outcome (list Z) :=
  if atob_defined then
    match atob base64 with
    | Some binaryString => Ret (to_Uint8Array binaryString)
    | None => Threw (Error "The string to be decoded is not correctly encoded.")
    end
  else Ret (to_Uint8Array (manual_decode base64)).

End Base64.

(** ** Asynchronous code: state and exceptions over the outside world *)

Module Run.

(** A computation over a state [S] that returns or throws. [await] is
    sequencing: the sources never start two calls at once. *)
Definition M (S A : Type) : Type := S -> Outcome A * S.

Definition ret {S A} (a : A) : M S A := fun s => (Ret a, s).

Definition throw {S A} (e : JsError) : M S A := fun s => (Threw e, s).

Definition bind {S A B} (m : M S A) (k : A -> M S B) : M S B :=
  fun s =>
    match m s with
    | (Ret a, s') => k a s'
    | (Threw e, s') => (Threw e, s')
    end.

(** [try { m } catch (error) { h error }] *)
Definition try_catch {S A} (m : M S A) (h : JsError -> M S A) : M S A :=
  fun s =>
    match m s with
    | (Ret a, s') => (Ret a, s')
    | (Threw e, s') => h e s'
    end.

(** The value of an expression that may throw. *)
Definition lift_outcome {S A} (o : Outcome A) : M S A := fun s => (o, s).

Declare Scope run_scope.
Delimit Scope run_scope with run.

Notation "x <- m ;; k" := (bind m (fun x => k))
  (at level 61, m at next level, right associativity) : run_scope.
Notation "m ;; k" := (bind m (fun _ => k))
  (at level 61, right associativity) : run_scope.

(** *** What the chains and the authority answer *)

Record Log : Type := mkLog {
  address : string;
  topics : list string;
  data : string
}.

Record Receipt : Type := mkReceipt {
  receipt_status : option Z;
  logs : list Log;
  from : string
}.

(** A sent transaction: its hash and what [tx.wait()] gives. The wait is
    an answer of the transaction and not a call of the log, and the time
    that the confirmation takes is not counted in the clock. *)
Record TxResponse : Type := mkTx {
  hash : string;
  wait : Outcome Receipt
}.

(** The JSON body of the attestation authority; an absent field is
    [None]. *)
Record AttestationBody : Type := mkBody {
  body_status : option string;
  body_message : option string;
  body_attestation : option string
}.

Record HttpResponse : Type := mkResponse {
  status : Z;
  statusText : string;
  json : Outcome AttestationBody
}.

(** [response.ok] *)
Definition ok (r : HttpResponse) : bool :=
  (200 <=? status r) && (status r <=? 299).

(** The [data] of an account resource of the destination chain:
    [data.balance] and [data.coin.value]. *)
Record ResourceData : Type := mkResource {
  balance : option string;
  coin_value : option string
}.

Record TxnResult : Type := mkTxnResult {
  success : bool;
  vm_status : string
}.

(** *** The log of the calls to the outside *)

Inductive Event : Type :=
| EvSleep (ms : Z)
| EvFetch (url : string)
| EvGetTransactionReceipt (txHash : string)
| EvGetAddress
| EvGetNonce (blockTag : option string)
| EvBalanceOf (account : string)
| EvDecimals
| EvApprove (spender : string) (amount : Z) (nonce : option Z)
| EvDepositForBurn (amount : Z) (destinationDomain : Z)
    (mintRecipient burnToken : string) (nonce : option Z)
| EvGetAccountResource (accountAddress resourceType : string)
| EvReadFile (path : string)
| EvBuild (sender : string) (bytecode : list Z)
    (functionArguments : list (list Z))
| EvSignAndSubmit (signer : string)
| EvWaitForTransaction (transactionHash : string).

Inductive Op : Type :=
| OpSleep | OpFetch | OpGetTransactionReceipt | OpGetAddress | OpGetNonce
| OpBalanceOf | OpDecimals | OpApprove | OpDepositForBurn
| OpGetAccountResource | OpReadFile | OpBuild | OpSignAndSubmit
| OpWaitForTransaction.

Definition op_of (ev : Event) : Op :=
  match ev with
  | EvSleep _ => OpSleep
  | EvFetch _ => OpFetch
  | EvGetTransactionReceipt _ => OpGetTransactionReceipt
  | EvGetAddress => OpGetAddress
  | EvGetNonce _ => OpGetNonce
  | EvBalanceOf _ => OpBalanceOf
  | EvDecimals => OpDecimals
  | EvApprove _ _ _ => OpApprove
  | EvDepositForBurn _ _ _ _ _ => OpDepositForBurn
  | EvGetAccountResource _ _ => OpGetAccountResource
  | EvReadFile _ => OpReadFile
  | EvBuild _ _ _ => OpBuild
  | EvSignAndSubmit _ => OpSignAndSubmit
  | EvWaitForTransaction _ => OpWaitForTransaction
  end.

Definition Op_eqb (a b : Op) : bool :=
  match a, b with
  | OpSleep, OpSleep | OpFetch, OpFetch
  | OpGetTransactionReceipt, OpGetTransactionReceipt
  | OpGetAddress, OpGetAddress | OpGetNonce, OpGetNonce
  | OpBalanceOf, OpBalanceOf | OpDecimals, OpDecimals
  | OpApprove, OpApprove | OpDepositForBurn, OpDepositForBurn
  | OpGetAccountResource, OpGetAccountResource | OpReadFile, OpReadFile
  | OpBuild, OpBuild | OpSignAndSubmit, OpSignAndSubmit
  | OpWaitForTransaction, OpWaitForTransaction => true
  | _, _ => false
  end.

Definition is_op (op : Op) (ev : Event) : bool := Op_eqb (op_of ev) op.

(** How many calls of one kind a log holds. *)
Definition count_op (op : Op) (l : list Event) : nat :=
  List.length (filter (is_op op) l).

(** The world outside: the wall clock in milliseconds and the calls made
    so far, oldest first. *)
Record World : Type := mkWorld {
  now : Z;
  calls : list Event
}.

(** What the collaborators answer. Every answer may depend on how many
    calls of the same kind came before (the first argument) and on the
    arguments of the call; the library functions are pure. *)
Record Env : Type := mkEnv {
  (* ethers and the language *)
  ethers_id : string -> string;
  ethers_keccak256 : string -> Outcome string;
  abi_decode_bytes : string -> Outcome string;
  ethers_parseUnits : string -> Z -> Outcome Z;
  ethers_formatUnits : Z -> Z -> string;
  parseFloat : string -> float;
  ethers_Wallet : string -> Outcome unit;
  (* the signer and the contracts of the source chain *)
  signer_getAddress : nat -> Outcome string;
  signer_getNonce : nat -> Outcome Z;
  usdc_balanceOf : nat -> string -> Outcome Z;
  usdc_decimals : nat -> Outcome Z;
  usdc_approve : nat -> string -> Z -> option Z -> Outcome TxResponse;
  tokenMessenger_depositForBurn :
    nat -> Z -> Z -> string -> string -> option Z -> Outcome TxResponse;
  provider_getTransactionReceipt : nat -> string -> Outcome (option Receipt);
  (* the attestation authority *)
  fetch_response : nat -> string -> Outcome HttpResponse;
  fetch_latency : nat -> Z;
  (* the destination chain and the host *)
  atob_defined : bool;
  account_fromPrivateKey : string -> Outcome string;
  aptos_getAccountResource : nat -> string -> string -> Outcome ResourceData;
  fs_readFileSync : nat -> string -> Outcome (list Z);
  aptos_build_simple : nat -> string -> list Z -> list (list Z) -> Outcome unit;
  aptos_signAndSubmitTransaction : nat -> string -> Outcome string;
  aptos_waitForTransaction : nat -> string -> Outcome TxnResult
}.

(** A call to the outside: it is logged, and answered according to the
    number of earlier calls of its kind. *)
Definition call {A} (ev : Event) (answer : nat -> Outcome A) : M World A :=
  fun w =>
    (answer (count_op (op_of ev) (calls w)),
     mkWorld (now w) (calls w ++ [ev])).

(** Time passes. *)
Definition elapse (ms : Z) : M World unit :=
  fun w => (Ret tt, mkWorld (now w + ms) (calls w)).

(** [Date.now()] *)
Definition Date_now : M World Z := fun w => (Ret (now w), w).

Open Scope run_scope.

(** [sleep(ms)], and [new Promise(resolve => setTimeout(resolve, ms))] *)
Definition sleep (ms : Z) : M World unit :=
  call (EvSleep ms) (fun _ => Ret tt) ;; elapse ms.

(** [fetch(url, { method: 'GET', ... })]: the answer arrives after the
    latency of the query. *)
Definition fetch (env : Env) (url : string) : M World HttpResponse :=
  fun w =>
    let k := count_op OpFetch (calls w) in
    (fetch_response env k url,
     mkWorld (now w + fetch_latency env k) (calls w ++ [EvFetch url])).

(** The events that a run added to the log. *)
Definition added (w w' : World) : list Event :=
  skipn (List.length (calls w)) (calls w').

End Run.

Import Run.
Open Scope run_scope.

(** ** What both runtimes share *)

Module Common.

(** [ethers.MaxUint256] *)
Definition MaxUint256 : Z := 2 ^ 256 - 1.

Definition messageSentSignature : string := "MessageSent(bytes)".

Definition depositForBurnSignature : string :=
  "DepositForBurn(uint64,address,uint256,address,bytes32,uint32,bytes32,bytes32)".

(** [log.topics[0] === topic] *)
Definition topic0_is (topic : string) (log : Log) : bool :=
  match nth_error (topics log) 0 with
  | Some t => str_eqb t topic
  | None => false
  end.

(** [error.code === c] *)
Definition code_is (error : JsError) (c : string) : bool :=
  match code error with
  | Some c' => str_eqb c' c
  | None => false
  end.

(** [parseInt(s, 16)] of the at most two characters that
    [substring(i, i + 2)] gives, as the [Uint8Array] stores it: [NaN] is
    stored as [0] and a negative value modulo 256. Leading white space, a
    sign and the prefix [0x] are read as [parseInt] reads them. *)
Definition parseInt16_byte (c1 c2 : ascii) : Z :=
  match digit_value 16 c1 with
  | Some v1 =>
      if Ascii.eqb c1 "0" && (Ascii.eqb c2 "x" || Ascii.eqb c2 "X") then 0
      else match digit_value 16 c2 with
           | Some v2 => 16 * v1 + v2
           | None => v1
           end
  | None =>
      match digit_value 16 c2 with
      | Some v2 =>
          if is_whitespace c1 || Ascii.eqb c1 "+" then v2
          else if Ascii.eqb c1 "-" then (- v2) mod 256
          else 0
      | None => 0
      end
  end.

(** The loop of [hexToBytes]: the array has [cleanHex.length / 2] cells,
    and a write past its end (the last character of an odd length) is
    dropped. *)
Fixpoint hex_pairs (l : list ascii) : list Z :=
  match l with
  | c1 :: c2 :: l' => parseInt16_byte c1 c2 :: hex_pairs l'
  | _ => []
  end.

(** [hexToBytes]: the same text in both receivers. *)
Definition hexToBytes (hex : string) : list Z :=
  let cleanHex := replace_first "0x" "" hex in
  hex_pairs (list_ascii_of_string cleanHex).

Record AttestationData : Type := mkAttestationData {
  att_status : string;
  messageHash : string;
  messageBytes : string;
  attestation : string
}.

(** [BaseSendResult] and [CrossChainResult] of the senders; an absent or
    [undefined] field is [None]. *)
Record BaseSendResult : Type := mkSend {
  txHash : string;
  nonce : option string;
  send_messageBytes : option string
}.

Record AptosReceiveResult : Type := mkReceive {
  recv_txHash : string;
  recv_success : bool;
  usdcAmount : option string
}.

(** How an iteration of a polling loop ends when it does not throw:
    [retries++] and the next iteration, or [return]. *)
Inductive Step (A : Type) : Type :=
| Continue (retries : nat)
| Return (a : A).

Arguments Continue {A} retries.
Arguments Return {A} a.

Record CircleApi : Type := mkCircleApi {
  baseUrl : string;
  pollInterval : Z;
  maxRetries : nat;
  maxWaitTime : Z
}.

(** [`${baseUrl}/v1/attestations/${messageHash}`] *)
Definition attestation_url (cfg : CircleApi) (messageHash : string) : string :=
  (baseUrl cfg ++ "/v1/attestations/" ++ messageHash)%string.

(** [data.status === 'complete' && data.attestation] *)
Definition is_complete (data : AttestationBody) : bool :=
  match body_status data, body_attestation data with
  | Some st, Some a => str_eqb st "complete" && truthy a
  | _, _ => false
  end.

Definition opt_string (o : option string) : string :=
  match o with Some s => s | None => EmptyString end.

End Common.

Import Common.

(** ** The mobile runtime ([Saffron/api/cross-chain]) *)

Module Mobile.

(** *** [config.ts] *)

Module Config.

Definition USDC_AMOUNT : string := "1.0".

Definition tokenMessengerV2 : string :=
  "0x9f3B8679c73C2Fef8b59B4f3444d4e156fb70AA5".

Definition usdc : string := "0x036CbD53842c5426634e7929541eC2318f3dCF7e".

(** [APTOS_TESTNET.domainId] *)
Definition domainId : Z := 9.

Definition CIRCLE_API : CircleApi :=
  mkCircleApi "https://iris-api-sandbox.circle.com" 2000 150 300000.

Record Credentials : Type := mkCredentials {
  BASE_PRIVATE_KEY : string;
  APTOS_PRIVATE_KEY : string;
  APTOS_RECIPIENT : string
}.

End Config.

(** *** [base-sender.ts] *)

Module Sender.

Import Config.

(** [nonce === undefined ? await signer.getNonce('latest') : nonce] *)
Definition nonce_or_latest (env : Env) (nonce : option Z) : M World Z :=
  match nonce with
  | None => call (EvGetNonce (Some "latest")) (signer_getNonce env)
  | Some n => ret n
  end.

Definition approveUSDC (env : Env) (amount : string) (nonce : option Z)
  : M World string :=
  decimals <- call EvDecimals (usdc_decimals env) ;;
  nonce <- nonce_or_latest env nonce ;;
  approveTx <- call (EvApprove tokenMessengerV2 MaxUint256 (Some nonce))
    (fun k => usdc_approve env k tokenMessengerV2 MaxUint256 (Some nonce)) ;;
  _ <- lift_outcome (wait approveTx) ;;
  ret (hash approveTx).

Definition depositForBurn (env : Env) (amount recipientAddress : string)
  (nonce : option Z) : M World BaseSendResult :=
  decimals <- call EvDecimals (usdc_decimals env) ;;
  amountWei <- lift_outcome (ethers_parseUnits env amount decimals) ;;
  mintRecipient <- lift_outcome (Codec.aptosAddressToBytes32 recipientAddress) ;;
  nonce <- nonce_or_latest env nonce ;;
  tx <- call (EvDepositForBurn amountWei domainId mintRecipient usdc (Some nonce))
    (fun k => tokenMessenger_depositForBurn env k amountWei domainId
                mintRecipient usdc (Some nonce)) ;;
  receipt <- lift_outcome (wait tx) ;;
  let messageSentTopic := ethers_id env messageSentSignature in
  match find (topic0_is messageSentTopic) (logs receipt) with
  | None => throw (Error "MessageSent event not found")
  | Some messageSentLog =>
      messageBytes <- lift_outcome (abi_decode_bytes env (data messageSentLog)) ;;
      let depositForBurnTopic := ethers_id env depositForBurnSignature in
      let eventNonce :=
        match find (topic0_is depositForBurnTopic) (logs receipt) with
        | Some depositLog => nth_error (topics depositLog) 1
        | None => Some "0"
        end in
      ret (mkSend (hash tx) eventNonce (Some messageBytes))
  end.

(** No balance is read here: the nonce is fetched once, then comes the
    approval, then the burn with the next nonce. *)
Definition executeFullCrossChain (env : Env) (amount recipientAddress : string)
  : M World BaseSendResult :=
  initialNonce <- call (EvGetNonce (Some "latest")) (signer_getNonce env) ;;
  _ <- approveUSDC env amount (Some initialNonce) ;;
  result <- depositForBurn env amount recipientAddress (Some (initialNonce + 1)) ;;
  ret result.

End Sender.

(** *** [circle-attestation.ts] *)

Module Attestation.

(** The [for] loop of [extractMessageHash]: up to [n] lookups of the
    receipt, two seconds apart. *)
Fixpoint receipt_loop (env : Env) (txHash : string) (n : nat)
  : M World (option Receipt) :=
  match n with
  | O => ret None
  | S n' =>
      receipt <- call (EvGetTransactionReceipt txHash)
        (fun k => provider_getTransactionReceipt env k txHash) ;;
      match receipt with
      | Some r => ret (Some r)
      | None => sleep 2000 ;; receipt_loop env txHash n'
      end
  end.

Definition extractMessageHash (env : Env) (txHash : string)
  : M World (string * string) :=
  let maxRetries := 15%nat in
  receipt <- receipt_loop env txHash maxRetries ;;
  match receipt with
  | None => throw (Error "Unable to get transaction receipt, please try again later")
  | Some receipt =>
      if match receipt_status receipt with Some 0 => true | _ => false end
      then throw (Error "Transaction execution failed")
      else
        let messageSentTopic := ethers_id env messageSentSignature in
        match find (topic0_is messageSentTopic) (logs receipt) with
        | None => throw (Error "MessageSent event not found")
        | Some messageSentLog =>
            messageBytes <-
              lift_outcome (abi_decode_bytes env (data messageSentLog)) ;;
            messageHash <- lift_outcome (ethers_keccak256 env messageBytes) ;;
            ret (messageHash, messageBytes)
        end
  end.

(** [Math.round(elapsed / 1000)] of a whole number of milliseconds *)
Definition round_seconds (elapsed : Z) : Z := (elapsed + 500) / 1000.

(** The [try] block of one iteration of [getAttestation]. *)
Definition poll_try (env : Env) (cfg : CircleApi) (messageHash : string)
  (retries : nat) : M World (Step AttestationData) :=
  let url := attestation_url cfg messageHash in
  response <- fetch env url ;;
  if negb (ok response) then
    if status response =? 404 then
      sleep (pollInterval cfg) ;; ret (Continue (retries + 1)%nat)
    else throw (Error ("Circle API error: " ++ Z_toString (status response))%string)
  else
    data <- lift_outcome (json response) ;;
    if is_complete data then
      ret (Return (mkAttestationData "complete" messageHash
                     (or_else (opt_string (body_message data)) "")
                     (opt_string (body_attestation data))))
    else sleep (pollInterval cfg) ;; ret (Continue (retries + 1)%nat).

(** The [catch] block of one iteration. *)
Definition poll_catch (cfg : CircleApi) (retries : nat) (error : JsError)
  : M World (Step AttestationData) :=
  if (retries =? maxRetries cfg - 1)%nat then throw error
  else sleep (pollInterval cfg) ;; ret (Continue (retries + 1)%nat).

(** [while (retries < maxRetries)]: every iteration that neither returns
    nor throws adds one to [retries], so that [n], the number of
    iterations left, is [maxRetries - retries]. The deadline is tested
    before the [try] block. *)
Fixpoint poll_loop (env : Env) (cfg : CircleApi) (messageHash : string)
  (startTime : Z) (n : nat) (retries : nat) : M World AttestationData :=
  match n with
  | O => throw (Error "Getting attestation exceeded maximum retry attempts")
  | S n' =>
      t <- Date_now ;;
      let elapsed := t - startTime in
      if elapsed >? maxWaitTime cfg then
        throw (Error ("Getting attestation timeout (waited "
                      ++ Z_toString (round_seconds elapsed) ++ " seconds)")%string)
      else
        step <- try_catch (poll_try env cfg messageHash retries)
                  (poll_catch cfg retries) ;;
        match step with
        | Return a => ret a
        | Continue retries' => poll_loop env cfg messageHash startTime n' retries'
        end
  end.

Definition getAttestation_with (cfg : CircleApi) (env : Env)
  (messageHash : string) : M World AttestationData :=
  startTime <- Date_now ;;
  poll_loop env cfg messageHash startTime (maxRetries cfg) 0.

Definition getAttestation : Env -> string -> M World AttestationData :=
  getAttestation_with Config.CIRCLE_API.

Definition getAttestationFromTransaction (env : Env) (txHash : string)
  : M World AttestationData :=
  extracted <- extractMessageHash env txHash ;;
  let (messageHash, messageBytes) := extracted in
  attestationData <- getAttestation env messageHash ;;
  if negb (truthy (Common.messageBytes attestationData)) then
    ret (mkAttestationData (att_status attestationData)
           (Common.messageHash attestationData) messageBytes
           (attestation attestationData))
  else ret attestationData.

End Attestation.

(** *** [aptos-receiver.ts] *)

Module Receiver.

Definition FungibleStore : string := "0x1::fungible_asset::FungibleStore".

Definition checkUSDCBalance (env : Env) (address : string) : M World string :=
  try_catch
    (faResource <- call (EvGetAccountResource address FungibleStore)
       (fun k => aptos_getAccountResource env k address FungibleStore) ;;
     let balance := or_else (opt_string (balance faResource)) "0" in
     ret balance)
    (fun _ => ret "0").

(** The [try] block of [receiveCCTPUSDC]. *)
Definition receive_try (env : Env) (messageBytes attestation privateKey : string)
  : M World AptosReceiveResult :=
    (if negb (truthy messageBytes) || negb (startsWith messageBytes "0x") then
       throw (Error "Invalid message bytes format")
     else if negb (truthy attestation) || negb (startsWith attestation "0x") then
       throw (Error "Invalid attestation format")
     else
       accountAddress <- lift_outcome (account_fromPrivateKey env privateKey) ;;
       balanceBefore <- checkUSDCBalance env accountAddress ;;
       bytecode <- lift_outcome
         (Base64.base64ToBytes (atob_defined env) Base64.CCTP_SCRIPT_BASE64) ;;
       let functionArguments := [hexToBytes messageBytes; hexToBytes attestation] in
       _ <- call (EvBuild accountAddress bytecode functionArguments)
         (fun k => aptos_build_simple env k accountAddress bytecode functionArguments) ;;
       pendingTxn_hash <- call (EvSignAndSubmit accountAddress)
         (fun k => aptos_signAndSubmitTransaction env k accountAddress) ;;
       txnResult <- call (EvWaitForTransaction pendingTxn_hash)
         (fun k => aptos_waitForTransaction env k pendingTxn_hash) ;;
       if negb (success txnResult) then
         throw (Error ("Transaction failed: " ++ vm_status txnResult)%string)
       else
         balanceAfter <- checkUSDCBalance env accountAddress ;;
         after <- lift_outcome (BigInt balanceAfter) ;;
         before <- lift_outcome (BigInt balanceBefore) ;;
         let receivedAmount := Z_toString (after - before) in
         ret (mkReceive pendingTxn_hash true (Some receivedAmount))).

(** Whatever the [try] block throws is caught, and a failure is
    returned in its place. *)
Definition receiveCCTPUSDC (env : Env) (messageBytes attestation privateKey : string)
  : M World AptosReceiveResult :=
  try_catch (receive_try env messageBytes attestation privateKey)
    (fun _ => ret (mkReceive "" false (Some "0"))).

End Receiver.

(** *** [index.ts]: the orchestrator *)

Module Orchestrator.

Import Config.

Inductive ProgressStatus : Type := processing | completed | failed.

Record CrossChainProgress : Type := mkProgress {
  step : Z;
  totalSteps : Z;
  progress_status : ProgressStatus;
  progress_message : string;
  progress_txHash : option string;
  details : option string;
  percentage : option Z
}.

Record CrossChainResult : Type := mkResult {
  result_success : bool;
  baseTxHash : option string;
  aptosTxHash : option string;
  result_usdcAmount : option string;
  error : option string
}.

(** One run of the orchestrator: the world outside, and the values that
    the progress callback has received so far, oldest first. The callback
    belongs to the caller; the collaborators cannot reach it. *)
Record Session : Type := mkSession {
  world : World;
  emitted : list CrossChainProgress
}.

Definition onProgress (p : CrossChainProgress) : M Session unit :=
  fun s => (Ret tt, mkSession (world s) (emitted s ++ [p])).

(** A call of a collaborator. *)
Definition collaborator {A} (m : M World A) : M Session A :=
  fun s => let (o, w) := m (world s) in (o, mkSession w (emitted s)).

Section Steps.

(** The three collaborators and the construction of the services, as the
    orchestrator sees them. *)
Variable initialize : M World unit.
Variable executeFullCrossChain : string -> string -> M World BaseSendResult.
Variable getAttestationFromTransaction : string -> M World AttestationData.
Variable receiveCCTPUSDC : string -> string -> string -> M World AptosReceiveResult.
Variable CREDENTIALS : Credentials.

Definition executeCrossChain_steps : M Session CrossChainResult :=
  try_catch
    (collaborator initialize ;;
     (* Step 1/3 *)
     onProgress (mkProgress 1 3 processing "Burning USDC on Base chain..."
                   None None (Some 10)) ;;
     sendResult <- collaborator
       (executeFullCrossChain USDC_AMOUNT (APTOS_RECIPIENT CREDENTIALS)) ;;
     onProgress (mkProgress 1 3 completed "Base chain transaction successful"
                   (Some (txHash sendResult)) None (Some 33)) ;;
     (* Step 2/3 *)
     onProgress (mkProgress 2 3 processing "Waiting for Circle signature..."
                   None None (Some 40)) ;;
     attestationData <- collaborator
       (getAttestationFromTransaction (txHash sendResult)) ;;
     onProgress (mkProgress 2 3 completed "Circle signature retrieved successfully"
                   None None (Some 66)) ;;
     (* Step 3/3 *)
     onProgress (mkProgress 3 3 processing "Receiving USDC on Aptos chain..."
                   None None (Some 75)) ;;
     receiveResult <- collaborator
       (receiveCCTPUSDC (messageBytes attestationData)
          (attestation attestationData) (APTOS_PRIVATE_KEY CREDENTIALS)) ;;
     if negb (recv_success receiveResult) then
       throw (Error "Aptos receive failed")
     else
       onProgress (mkProgress 3 3 completed "Cross-chain completed!"
                     (Some (recv_txHash receiveResult)) None (Some 100)) ;;
       ret (mkResult true (Some (txHash sendResult))
              (Some (recv_txHash receiveResult)) (Some USDC_AMOUNT) None))
    (fun error =>
       onProgress (mkProgress 0 3 failed "Cross-chain failed"
                     None (Some (message error)) (Some 0)) ;;
       ret (mkResult false None None None (Some (message error)))).

End Steps.

(** [new ethers.JsonRpcProvider(...)], [new ethers.Wallet(...)] and the
    three services. *)
Definition initialize (env : Env) (CREDENTIALS : Credentials) : M World unit :=
  lift_outcome (ethers_Wallet env (BASE_PRIVATE_KEY CREDENTIALS)).

(** [executeCrossChain(onProgress)] with the services of this runtime. *)
Definition executeCrossChain (env : Env) (CREDENTIALS : Credentials)
  : M Session CrossChainResult :=
  executeCrossChain_steps (initialize env CREDENTIALS)
    (Sender.executeFullCrossChain env)
    (Attestation.getAttestationFromTransaction env)
    (Receiver.receiveCCTPUSDC env) CREDENTIALS.

End Orchestrator.

End Mobile.

(** ** The screen that starts the transfer ([components/PreviewModal.tsx]) *)

Module PreviewModal.

Import Mobile.Orchestrator.

(** What [handleBridgeConfirm] reads and writes: the two pieces of state
    of the component, the alerts shown so far (title and text, oldest
    first), the number of calls of [onConfirm], and the session of the
    orchestrator. [Alert.alert] belongs to the host and [onConfirm] to
    the parent component: both return normally. *)
Record Screen : Type := mkScreen {
  isBridging : bool;
  bridgeProgress : option CrossChainProgress;
  alerts : list (string * string);
  confirmations : nat;
  session : Session
}.

Definition setIsBridging (b : bool) : M Screen unit :=
  fun sc =>
    (Ret tt, mkScreen b (bridgeProgress sc) (alerts sc) (confirmations sc)
               (session sc)).

Definition setBridgeProgress (p : option CrossChainProgress) : M Screen unit :=
  fun sc =>
    (Ret tt, mkScreen (isBridging sc) p (alerts sc) (confirmations sc)
               (session sc)).

(** [Alert.alert(title, text)] *)
Definition Alert_alert (title text : string) : M Screen unit :=
  fun sc =>
    (Ret tt, mkScreen (isBridging sc) (bridgeProgress sc)
               (alerts sc ++ [(title, text)]) (confirmations sc) (session sc)).

(** [onConfirm()] of the parent component. *)
Definition onConfirm : M Screen unit :=
  fun sc =>
    (Ret tt, mkScreen (isBridging sc) (bridgeProgress sc) (alerts sc)
               (S (confirmations sc)) (session sc)).

(** [executeCrossChain((progress) => setBridgeProgress(progress))]: the
    state holds the last value that the callback received. *)
Definition bridge (executeCrossChain : M Session CrossChainResult)
  : M Screen CrossChainResult :=
  fun sc =>
    let (o, s') := executeCrossChain (session sc) in
    let new := skipn (List.length (emitted (session sc))) (emitted s') in
    (o, mkScreen (isBridging sc)
          (last (map Some new) (bridgeProgress sc))
          (alerts sc) (confirmations sc) s').

(** [try { m } finally { f }] *)
Definition try_finally {S A} (m : M S A) (f : M S unit) : M S A :=
  fun s =>
    let (o, s1) := m s in
    match f s1 with
    | (Ret _, s2) => (o, s2)
    | (Threw e, s2) => (Threw e, s2)
    end.

(** A value inside a template literal; one that is [undefined] reads
    [undefined]. *)
Definition shown (o : option string) : string :=
  match o with Some s => s | None => "undefined" end.

(** [hash?.substring(0, 10)] *)
Definition first_ten (o : option string) : option string :=
  option_map (substring 0 10) o.

Definition newline : string := String (ascii_of_nat 10) EmptyString.

Definition success_text (result : CrossChainResult) : string :=
  ("Successfully bridged " ++ shown (result_usdcAmount result) ++ " USDC"
   ++ newline ++ newline
   ++ "Base TxHash: " ++ shown (first_ten (baseTxHash result)) ++ "..."
   ++ newline
   ++ "Aptos TxHash: " ++ shown (first_ten (aptosTxHash result)) ++ "...")%string.

Definition handleBridgeConfirm (executeCrossChain : M Session CrossChainResult)
  : M Screen unit :=
  setIsBridging true ;;
  try_finally
    (try_catch
       (result <- bridge executeCrossChain ;;
        if result_success result then
          Alert_alert "Cross-chain successful!" (success_text result) ;;
          onConfirm
        else
          Alert_alert "Cross-chain failed"
            (or_else (opt_string (error result)) "Unknown error"))
       (fun error => Alert_alert "Error" (message error)))
    (setIsBridging false ;;
     setBridgeProgress None).

End PreviewModal.

(** ** The script runtime ([Saffron-contract/corss/src]) *)

Module Script.

Module Config.

Definition tokenMessengerV2 : string :=
  "0x9f3B8679c73C2Fef8b59B4f3444d4e156fb70AA5".

Definition usdc : string := "0x036CbD53842c5426634e7929541eC2318f3dCF7e".

Definition APTOS_DOMAIN_ID : Z := 9.

Definition CIRCLE_API_CONFIG : CircleApi :=
  mkCircleApi "https://iris-api-sandbox.circle.com" 2000 150 (5 * 60 * 1000).

End Config.

(** *** [circle-attestation.ts] *)

Module Attestation.

Record MessageSentEvent : Type := mkMessageSent {
  ev_messageHash : string;
  ev_messageBytes : option string;
  ev_nonce : string;
  ev_sender : string;
  ev_recipient : string;
  ev_destinationDomain : Z
}.

(** The outer [try]/[catch] only logs and throws the error again. *)
Definition extractMessageFromTransaction (env : Env) (txHash : string)
  : M World MessageSentEvent :=
  receipt <- call (EvGetTransactionReceipt txHash)
    (fun k => provider_getTransactionReceipt env k txHash) ;;
  match receipt with
  | None => throw (Error "Unable to get transaction receipt")
  | Some receipt =>
      let messageSentTopic := ethers_id env messageSentSignature in
      match find (topic0_is messageSentTopic) (logs receipt) with
      | None =>
          throw (Error "MessageSent event not found. Please confirm the transaction successfully called depositForBurn")
      | Some messageSentLog =>
          messageBytes <-
            lift_outcome (abi_decode_bytes env (data messageSentLog)) ;;
          if negb (startsWith messageBytes "0x") then
            throw (Error "Message bytes format error, should be hexadecimal string")
          else
            messageHash <- lift_outcome (ethers_keccak256 env messageBytes) ;;
            let depositForBurnTopic := ethers_id env depositForBurnSignature in
            let nonce :=
              match find (topic0_is depositForBurnTopic) (logs receipt) with
              | Some depositLog =>
                  match nth_error (topics depositLog) 1 with
                  | Some t => t
                  | None => "0"
                  end
              | None => "0"
              end in
            ret (mkMessageSent messageHash (Some messageBytes) nonce
                   (from receipt) "" 9)
      end
  end.

(** The message bytes of a complete answer: [data.message || ''], looked
    up again in the transaction when empty and when [txHash] and
    [provider] were given; a failure of that lookup is only logged. *)
Definition complete_messageBytes (env : Env) (data : AttestationBody)
  (txHash : option string) (provider : bool) : M World string :=
  let messageBytes := or_else (opt_string (body_message data)) "" in
  if negb (truthy messageBytes) && truthy (opt_string txHash) && provider then
    try_catch
      (messageEvent <- extractMessageFromTransaction env (opt_string txHash) ;;
       ret (or_else (opt_string (ev_messageBytes messageEvent)) ""))
      (fun _ => ret messageBytes)
  else ret messageBytes.

(** The [try] block of one iteration of [getAttestation]: here the
    deadline is tested inside it. *)
Definition poll_try (env : Env) (cfg : CircleApi) (messageHash : string)
  (txHash : option string) (provider : bool) (startTime : Z) (retries : nat)
  : M World (Step AttestationData) :=
  t <- Date_now ;;
  if t - startTime >? maxWaitTime cfg then
    throw (Error "Getting attestation timeout")
  else
    response <- fetch env (attestation_url cfg messageHash) ;;
    if negb (ok response) then
      if status response =? 404 then
        sleep (pollInterval cfg) ;; ret (Continue (retries + 1)%nat)
      else
        throw (Error ("Circle API error: " ++ Z_toString (status response)
                      ++ " " ++ statusText response)%string)
    else
      data <- lift_outcome (json response) ;;
      if is_complete data then
        messageBytes <- complete_messageBytes env data txHash provider ;;
        ret (Return (mkAttestationData "complete" messageHash messageBytes
                       (opt_string (body_attestation data))))
      else if match body_status data with
              | Some st => str_eqb st "failed"
              | None => false
              end
      then throw (Error "Circle signature failed")
      else sleep (pollInterval cfg) ;; ret (Continue (retries + 1)%nat).

Definition poll_catch (cfg : CircleApi) (retries : nat) (error : JsError)
  : M World (Step AttestationData) :=
  if (retries =? maxRetries cfg - 1)%nat then throw error
  else sleep (pollInterval cfg) ;; ret (Continue (retries + 1)%nat).

(** [while (retries < maxRetries)], with [n = maxRetries - retries]
    iterations left. *)
Fixpoint poll_loop (env : Env) (cfg : CircleApi) (messageHash : string)
  (txHash : option string) (provider : bool) (startTime : Z)
  (n : nat) (retries : nat) : M World AttestationData :=
  match n with
  | O => throw (Error "Getting attestation exceeded maximum retry attempts")
  | S n' =>
      step <- try_catch
                (poll_try env cfg messageHash txHash provider startTime retries)
                (poll_catch cfg retries) ;;
      match step with
      | Return a => ret a
      | Continue retries' =>
          poll_loop env cfg messageHash txHash provider startTime n' retries'
      end
  end.

Definition getAttestation_with (cfg : CircleApi) (env : Env)
  (messageHash : string) (txHash : option string) (provider : bool)
  : M World AttestationData :=
  startTime <- Date_now ;;
  poll_loop env cfg messageHash txHash provider startTime (maxRetries cfg) 0.

Definition getAttestation
  : Env -> string -> option string -> bool -> M World AttestationData :=
  getAttestation_with Config.CIRCLE_API_CONFIG.

Definition getAttestationFromTransaction (env : Env) (txHash : string)
  : M World AttestationData :=
  messageEvent <- extractMessageFromTransaction env txHash ;;
  attestationData <-
    getAttestation env (ev_messageHash messageEvent) (Some txHash) true ;;
  if negb (truthy (messageBytes attestationData)) then
    ret (mkAttestationData (att_status attestationData)
           (messageHash attestationData)
           (or_else (opt_string (ev_messageBytes messageEvent)) "")
           (attestation attestationData))
  else ret attestationData.

(** [validateAttestationData] *)
Definition validateAttestationData (data : AttestationData) : bool :=
  str_eqb (att_status data) "complete"
  && (String.length (messageHash data) =? 66)%nat
  && (0 <? String.length (messageBytes data))%nat
  && (0 <? String.length (attestation data))%nat.

(** What [checkAttestationStatus] returns: the [status] is that of the
    body as it stands, absent when the body has none. *)
Record StatusReport : Type := mkStatusReport {
  report_status : option string;
  report_messageHash : string;
  report_messageBytes : string;
  report_attestation : string
}.

(** [checkAttestationStatus]: one query and no waiting. The outer
    [try]/[catch] only logs and throws the error again. *)
Definition checkAttestationStatus_with (cfg : CircleApi) (env : Env)
  (messageHash : string) : M World StatusReport :=
  response <- fetch env (attestation_url cfg messageHash) ;;
  if status response =? 404 then
    ret (mkStatusReport (Some "pending") messageHash "" "")
  else if negb (ok response) then
    throw (Error ("Circle API error: " ++ Z_toString (status response))%string)
  else
    data <- lift_outcome (json response) ;;
    ret (mkStatusReport (body_status data) messageHash
           (or_else (opt_string (body_message data)) "")
           (or_else (opt_string (body_attestation data)) "")).

Definition checkAttestationStatus : Env -> string -> M World StatusReport :=
  checkAttestationStatus_with Config.CIRCLE_API_CONFIG.

End Attestation.

(** *** [base-sender.ts] *)

Module Sender.

Import Config.

Record CrossChainParams : Type := mkParams {
  amount : string;
  recipientAddress : string
}.

Definition checkUSDCBalance (env : Env) (userAddress : string) : M World string :=
  balance <- call (EvBalanceOf userAddress)
    (fun k => usdc_balanceOf env k userAddress) ;;
  decimals <- call EvDecimals (usdc_decimals env) ;;
  ret (ethers_formatUnits env balance decimals).

Definition approveUSDC (env : Env) (amount : string) : M World string :=
  decimals <- call EvDecimals (usdc_decimals env) ;;
  amountWei <- lift_outcome (ethers_parseUnits env amount decimals) ;;
  let maxUint256 := MaxUint256 in
  approveTx <- call (EvApprove tokenMessengerV2 maxUint256 None)
    (fun k => usdc_approve env k tokenMessengerV2 maxUint256 None) ;;
  _ <- lift_outcome (wait approveTx) ;;
  ret (hash approveTx).

Definition maxRetries : nat := 3.

(** The [try] block of one attempt of [depositForBurn]. *)
Definition attempt_try (env : Env) (params : CrossChainParams)
  : M World BaseSendResult :=
  _ <- call EvGetAddress (signer_getAddress env) ;;
  if negb (startsWith (recipientAddress params) "0x")
     || negb (String.length (recipientAddress params) =? 66)%nat
  then
    throw (Error "Invalid Aptos address format, should be 64-character hexadecimal address")
  else
    decimals <- call EvDecimals (usdc_decimals env) ;;
    amountWei <- lift_outcome (ethers_parseUnits env (amount params) decimals) ;;
    mintRecipient <-
      lift_outcome (Codec.aptosAddressToBytes32 (recipientAddress params)) ;;
    currentNonce <- call (EvGetNonce None) (signer_getNonce env) ;;
    tx <- call (EvDepositForBurn amountWei APTOS_DOMAIN_ID mintRecipient usdc None)
      (fun k => tokenMessenger_depositForBurn env k amountWei APTOS_DOMAIN_ID
                  mintRecipient usdc None) ;;
    _ <- lift_outcome (wait tx) ;;
    messageEvent <- Attestation.extractMessageFromTransaction env (hash tx) ;;
    ret (mkSend (hash tx) (Some (Attestation.ev_nonce messageEvent))
           (Attestation.ev_messageBytes messageEvent)).

(** [for (let attempt = 1; attempt <= maxRetries; attempt++)] with
    [n = maxRetries + 1 - attempt] attempts left. After the loop comes
    [throw lastError || new Error(...)]. *)
Fixpoint attempt_loop (env : Env) (params : CrossChainParams) (n : nat)
  (attempt : nat) (lastError : option JsError) : M World BaseSendResult :=
  match n with
  | O =>
      throw (match lastError with
             | Some e => e
             | None => Error "Cross-chain transfer failed"
             end)
  | S n' =>
      try_catch (attempt_try env params)
        (fun error =>
           let lastError := Some error in
           if code_is error "NONCE_EXPIRED" && (attempt <? maxRetries)%nat then
             sleep 2000 ;;
             attempt_loop env params n' (attempt + 1)%nat lastError
           else if (attempt =? maxRetries)%nat then throw error
           else attempt_loop env params n' (attempt + 1)%nat lastError)
  end.

Definition depositForBurn (env : Env) (params : CrossChainParams)
  : M World BaseSendResult :=
  attempt_loop env params maxRetries 1 None.

(** [parseFloat(balance) < parseFloat(params.amount)] *)
Definition balance_below (env : Env) (balance amount : string) : bool :=
  PrimFloat.ltb (parseFloat env balance) (parseFloat env amount).

(** The outer [try]/[catch] only logs and throws the error again. *)
Definition executeFullCrossChain (env : Env) (params : CrossChainParams)
  : M World BaseSendResult :=
  userAddress <- call EvGetAddress (signer_getAddress env) ;;
  balance <- checkUSDCBalance env userAddress ;;
  if balance_below env balance (amount params) then
    throw (Error ("Insufficient USDC balance, current: " ++ balance
                  ++ ", required: " ++ amount params)%string)
  else
    _ <- approveUSDC env (amount params) ;;
    result <- depositForBurn env params ;;
    ret result.

End Sender.

(** *** [aptos-receiver.ts] *)

Module Receiver.

Definition usdc_object : string :=
  "0x69091fbab5f7d635ee7ac5098cf0c1efbe31d68fec0f2cd565e8d168daf52832".

Record AptosReceiveParams : Type := mkReceiveParams {
  messageBytes : string;
  attestation : string;
  recipientPrivateKey : option string
}.

Definition validateMessageBytes (messageBytes : string) : bool :=
  if negb (truthy messageBytes) then false
  else startsWith messageBytes "0x" && (10 <? String.length messageBytes)%nat.

Definition validateAttestation (attestation : string) : bool :=
  startsWith attestation "0x" && (10 <? String.length attestation)%nat.

Definition FungibleStore : string := "0x1::fungible_asset::FungibleStore".

Definition CoinStore : string :=
  ("0x1::coin::CoinStore<" ++ usdc_object ++ "::coin::USDC>")%string.

Definition checkUSDCBalance (env : Env) (address : string) : M World string :=
  try_catch
    (try_catch
       (faResource <- call (EvGetAccountResource address FungibleStore)
          (fun k => aptos_getAccountResource env k address FungibleStore) ;;
        ret (or_else (opt_string (balance faResource)) "0"))
       (fun faError =>
          coinResource <- call (EvGetAccountResource address CoinStore)
            (fun k => aptos_getAccountResource env k address CoinStore) ;;
          ret (or_else (opt_string (coin_value coinResource)) "0")))
    (fun _ => ret "0").

Definition scriptPath : string := "../scripts/cctp/handle_receive_message.mv".

(** The [try] block of [receiveCCTPUSDC]. *)
Definition receive_try (env : Env) (params : AptosReceiveParams)
  : M World AptosReceiveResult :=
    (if negb (validateMessageBytes (messageBytes params)) then
       throw (Error "Invalid message bytes format")
     else if negb (validateAttestation (attestation params)) then
       throw (Error "Invalid attestation format")
     else if negb (truthy (opt_string (recipientPrivateKey params))) then
       throw (Error "Recipient private key required for signing")
     else
       accountAddress <- lift_outcome
         (account_fromPrivateKey env (opt_string (recipientPrivateKey params))) ;;
       balanceBefore <- checkUSDCBalance env accountAddress ;;
       bytecode <- call (EvReadFile scriptPath)
         (fun k => fs_readFileSync env k scriptPath) ;;
       let functionArguments :=
         [hexToBytes (messageBytes params); hexToBytes (attestation params)] in
       _ <- call (EvBuild accountAddress bytecode functionArguments)
         (fun k => aptos_build_simple env k accountAddress bytecode functionArguments) ;;
       pendingTxn_hash <- call (EvSignAndSubmit accountAddress)
         (fun k => aptos_signAndSubmitTransaction env k accountAddress) ;;
       txnResult <- call (EvWaitForTransaction pendingTxn_hash)
         (fun k => aptos_waitForTransaction env k pendingTxn_hash) ;;
       if negb (success txnResult) then
         throw (Error ("Transaction failed: " ++ vm_status txnResult)%string)
       else
         balanceAfter <- checkUSDCBalance env accountAddress ;;
         after <- lift_outcome (BigInt balanceAfter) ;;
         before <- lift_outcome (BigInt balanceBefore) ;;
         let receivedAmount := Z_toString (after - before) in
         ret (mkReceive pendingTxn_hash true (Some receivedAmount))).

(** Whatever the [try] block throws is caught, and a failure is
    returned in its place. *)
Definition receiveCCTPUSDC (env : Env) (params : AptosReceiveParams)
  : M World AptosReceiveResult :=
  try_catch (receive_try env params)
    (fun _ => ret (mkReceive "" false (Some "0"))).

End Receiver.

(** *** [examples/test-cctp-flow.ts] *)

Module Flow.

(** [CONFIG]: every variable of the environment, or its default; a
    variable that is not set without a default is the empty string. *)
Record CONFIG : Type := mkConfig {
  BASE_PRIVATE_KEY : string;
  BASE_RPC_URL : string;
  APTOS_PRIVATE_KEY : string;
  APTOS_RECIPIENT : string
}.

Definition USDC_AMOUNT : string := "3.0".

(** How the process ends: by [process.exit(code)], or when [main] is
    through. *)
Inductive Ending : Type :=
| Exit (code : Z)
| Finished.

(** The [errors] that [validateConfig] collects, in the order of its
    tests. *)
Definition config_errors (c : CONFIG) : list string :=
  (if negb (truthy (BASE_PRIVATE_KEY c))
   then ["❌ Missing BASE_PRIVATE_KEY environment variable"] else [])
  ++ (if negb (truthy (APTOS_PRIVATE_KEY c))
      then ["❌ Missing APTOS_PRIVATE_KEY environment variable"] else [])
  ++ (if negb (truthy (APTOS_RECIPIENT c))
      then ["❌ Missing APTOS_RECIPIENT environment variable"] else []).

(** [validateConfig]: [process.exit(1)] when [errors] is not empty. *)
Definition validateConfig (c : CONFIG) : option Ending :=
  if (0 <? List.length (config_errors c))%nat then Some (Exit 1) else None.

(** [main]: the whole transfer; whatever is thrown inside its [try]
    block ends the process with [process.exit(1)]. *)
Definition main (env : Env) (c : CONFIG) : M World Ending :=
  match validateConfig c with
  | Some ending => ret ending
  | None =>
      try_catch
        ((* Step 1/4 *)
         _ <- lift_outcome (ethers_Wallet env (BASE_PRIVATE_KEY c)) ;;
         baseAddress <- call EvGetAddress (signer_getAddress env) ;;
         (* Step 2/4 *)
         balance <- Sender.checkUSDCBalance env baseAddress ;;
         if Sender.balance_below env balance USDC_AMOUNT then
           throw (Error ("Insufficient balance! Need " ++ USDC_AMOUNT
                         ++ " USDC, currently have " ++ balance ++ " USDC")%string)
         else
           sendResult <- Sender.executeFullCrossChain env
             (Sender.mkParams USDC_AMOUNT (APTOS_RECIPIENT c)) ;;
           (* Step 3/4 *)
           attestationData <-
             Attestation.getAttestationFromTransaction env (txHash sendResult) ;;
           (* Step 4/4 *)
           balanceBefore <- Receiver.checkUSDCBalance env (APTOS_RECIPIENT c) ;;
           receiveResult <- Receiver.receiveCCTPUSDC env
             (Receiver.mkReceiveParams (Common.messageBytes attestationData)
                (Common.attestation attestationData)
                (Some (APTOS_PRIVATE_KEY c))) ;;
           if recv_success receiveResult then
             balanceAfter <- Receiver.checkUSDCBalance env (APTOS_RECIPIENT c) ;;
             ret Finished
           else throw (Error "Aptos chain receive failed"))
        (fun error => ret (Exit 1))
  end.

End Flow.

End Script.

(** ** Stub collaborators

    Scripted environments for the scenarios of the specification: a
    transfer in which every collaborator answers well, and its variants
    in which one collaborator answers otherwise. *)

Module Stubs.

Definition recipient : string :=
  "0x69091fbab5f7d635ee7ac5098cf0c1efbe31d68fec0f2cd565e8d168daf52832".

Definition CREDENTIALS : Mobile.Config.Credentials :=
  Mobile.Config.mkCredentials "0xbase-key" "aptos-key" recipient.

(** Decimal amounts of the scenarios, as [parseFloat] reads them. *)
Definition parseFloat_stub (s : string) : float :=
  if str_eqb s "1.0" then 1%float
  else if str_eqb s "2.0" then 2%float
  else if str_eqb s "3.0" then 3%float
  else if str_eqb s "5.0" then 5%float
  else PrimFloat.nan.

(** The same amounts in units of a token of six decimals. *)
Definition parseUnits_stub (s : string) (decimals : Z) : Outcome Z :=
  if negb (decimals =? 6) then Threw (Error "unsupported decimals")
  else if str_eqb s "1.0" then Ret 1000000
  else if str_eqb s "2.0" then Ret 2000000
  else if str_eqb s "3.0" then Ret 3000000
  else if str_eqb s "5.0" then Ret 5000000
  else Threw (mkError "invalid FixedNumber string value"
                (Some "INVALID_ARGUMENT")).

(** Units of such a token as a decimal amount with one fractional
    digit, enough for the amounts above. *)
Definition formatUnits_stub (value decimals : Z) : string :=
  (Z_toString (value / 1000000) ++ "."
   ++ Z_toString ((value mod 1000000) / 100000))%string.

Definition burn_receipt (env_id : string -> string) : Receipt :=
  mkReceipt (Some 1)
    [mkLog "0xUSDC" ["0xTransfer"] "0x";
     mkLog "0xMessageTransmitter" [env_id messageSentSignature]
       "0xabi(0xmessage)";
     mkLog "0xTokenMessenger" [env_id depositForBurnSignature; "0x2a"] "0x"]
    "0xsender".

Definition id_stub (signature : string) : string :=
  ("topic:" ++ signature)%string.

Definition complete_body : AttestationBody :=
  mkBody (Some "complete") None (Some "0xABCDEF").

(** Every collaborator answers well: the balance is 5.0 USDC, the
    authority answers at once, the destination balance grows from
    1000000 to 2000000 units. *)
Definition happy : Env := {|
  ethers_id := id_stub;
  ethers_keccak256 := fun bytes => Ret ("keccak:" ++ bytes)%string;
  abi_decode_bytes := fun data =>
    if str_eqb data "0xabi(0xmessage)" then Ret "0xmessage"
    else Threw (mkError "data out-of-bounds" (Some "BUFFER_OVERRUN"));
  ethers_parseUnits := parseUnits_stub;
  ethers_formatUnits := formatUnits_stub;
  parseFloat := parseFloat_stub;
  ethers_Wallet := fun _ => Ret tt;
  signer_getAddress := fun _ => Ret "0xsender";
  signer_getNonce := fun k => Ret (7 + Z.of_nat k);
  usdc_balanceOf := fun _ _ => Ret 5000000;
  usdc_decimals := fun _ => Ret 6;
  usdc_approve := fun _ _ _ _ =>
    Ret (mkTx "0xapprove" (Ret (mkReceipt (Some 1) [] "0xsender")));
  tokenMessenger_depositForBurn := fun _ _ _ _ _ _ =>
    Ret (mkTx "0xburn" (Ret (burn_receipt id_stub)));
  provider_getTransactionReceipt := fun _ _ =>
    Ret (Some (burn_receipt id_stub));
  fetch_response := fun _ _ => Ret (mkResponse 200 "OK" (Ret complete_body));
  fetch_latency := fun _ => 0;
  atob_defined := true;
  account_fromPrivateKey := fun _ => Ret "0xaptos-account";
  aptos_getAccountResource := fun k _ _ =>
    Ret (mkResource (Some (if (k =? 0)%nat then "1000000" else "2000000"))
           None);
  fs_readFileSync := fun _ _ => Ret [161; 28; 235; 11];
  aptos_build_simple := fun _ _ _ _ => Ret tt;
  aptos_signAndSubmitTransaction := fun _ _ => Ret "0xreceive";
  aptos_waitForTransaction := fun _ _ =>
    Ret (mkTxnResult true "Executed successfully")
|}.

(** The same environment with another attestation authority. *)
Definition with_authority (env : Env)
  (response : nat -> string -> Outcome HttpResponse)
  (latency : nat -> Z) : Env :=
  mkEnv
    (ethers_id env)
    (ethers_keccak256 env)
    (abi_decode_bytes env)
    (ethers_parseUnits env)
    (ethers_formatUnits env)
    (parseFloat env)
    (ethers_Wallet env)
    (signer_getAddress env)
    (signer_getNonce env)
    (usdc_balanceOf env)
    (usdc_decimals env)
    (usdc_approve env)
    (tokenMessenger_depositForBurn env)
    (provider_getTransactionReceipt env)
    response
    latency
    (atob_defined env)
    (account_fromPrivateKey env)
    (aptos_getAccountResource env)
    (fs_readFileSync env)
    (aptos_build_simple env)
    (aptos_signAndSubmitTransaction env)
    (aptos_waitForTransaction env).

(** The same environment with another source-chain balance. *)
Definition with_balanceOf (env : Env)
  (balanceOf : nat -> string -> Outcome Z) : Env :=
  mkEnv
    (ethers_id env)
    (ethers_keccak256 env)
    (abi_decode_bytes env)
    (ethers_parseUnits env)
    (ethers_formatUnits env)
    (parseFloat env)
    (ethers_Wallet env)
    (signer_getAddress env)
    (signer_getNonce env)
    balanceOf
    (usdc_decimals env)
    (usdc_approve env)
    (tokenMessenger_depositForBurn env)
    (provider_getTransactionReceipt env)
    (fetch_response env)
    (fetch_latency env)
    (atob_defined env)
    (account_fromPrivateKey env)
    (aptos_getAccountResource env)
    (fs_readFileSync env)
    (aptos_build_simple env)
    (aptos_signAndSubmitTransaction env)
    (aptos_waitForTransaction env).

(** The same environment with other answers to [decimals()]. *)
Definition with_decimals (env : Env)
  (decimals : nat -> Outcome Z) : Env :=
  mkEnv
    (ethers_id env)
    (ethers_keccak256 env)
    (abi_decode_bytes env)
    (ethers_parseUnits env)
    (ethers_formatUnits env)
    (parseFloat env)
    (ethers_Wallet env)
    (signer_getAddress env)
    (signer_getNonce env)
    (usdc_balanceOf env)
    decimals
    (usdc_approve env)
    (tokenMessenger_depositForBurn env)
    (provider_getTransactionReceipt env)
    (fetch_response env)
    (fetch_latency env)
    (atob_defined env)
    (account_fromPrivateKey env)
    (aptos_getAccountResource env)
    (fs_readFileSync env)
    (aptos_build_simple env)
    (aptos_signAndSubmitTransaction env)
    (aptos_waitForTransaction env).

(** The same environment with another bridge contract. *)
Definition with_depositForBurn (env : Env)
  (burn : nat -> Z -> Z -> string -> string -> option Z -> Outcome TxResponse) : Env :=
  mkEnv
    (ethers_id env)
    (ethers_keccak256 env)
    (abi_decode_bytes env)
    (ethers_parseUnits env)
    (ethers_formatUnits env)
    (parseFloat env)
    (ethers_Wallet env)
    (signer_getAddress env)
    (signer_getNonce env)
    (usdc_balanceOf env)
    (usdc_decimals env)
    (usdc_approve env)
    burn
    (provider_getTransactionReceipt env)
    (fetch_response env)
    (fetch_latency env)
    (atob_defined env)
    (account_fromPrivateKey env)
    (aptos_getAccountResource env)
    (fs_readFileSync env)
    (aptos_build_simple env)
    (aptos_signAndSubmitTransaction env)
    (aptos_waitForTransaction env).

(** The same environment with another confirmation of the destination transaction. *)
Definition with_waitForTransaction (env : Env)
  (waitForTransaction : nat -> string -> Outcome TxnResult) : Env :=
  mkEnv
    (ethers_id env)
    (ethers_keccak256 env)
    (abi_decode_bytes env)
    (ethers_parseUnits env)
    (ethers_formatUnits env)
    (parseFloat env)
    (ethers_Wallet env)
    (signer_getAddress env)
    (signer_getNonce env)
    (usdc_balanceOf env)
    (usdc_decimals env)
    (usdc_approve env)
    (tokenMessenger_depositForBurn env)
    (provider_getTransactionReceipt env)
    (fetch_response env)
    (fetch_latency env)
    (atob_defined env)
    (account_fromPrivateKey env)
    (aptos_getAccountResource env)
    (fs_readFileSync env)
    (aptos_build_simple env)
    (aptos_signAndSubmitTransaction env)
    (waitForTransaction).

(** The same environment with other destination balances. *)
Definition with_getAccountResource (env : Env)
  (getAccountResource : nat -> string -> string -> Outcome ResourceData) : Env :=
  mkEnv
    (ethers_id env)
    (ethers_keccak256 env)
    (abi_decode_bytes env)
    (ethers_parseUnits env)
    (ethers_formatUnits env)
    (parseFloat env)
    (ethers_Wallet env)
    (signer_getAddress env)
    (signer_getNonce env)
    (usdc_balanceOf env)
    (usdc_decimals env)
    (usdc_approve env)
    (tokenMessenger_depositForBurn env)
    (provider_getTransactionReceipt env)
    (fetch_response env)
    (fetch_latency env)
    (atob_defined env)
    (account_fromPrivateKey env)
    getAccountResource
    (fs_readFileSync env)
    (aptos_build_simple env)
    (aptos_signAndSubmitTransaction env)
    (aptos_waitForTransaction env).

(** The same environment on a host with or without [atob]. *)
Definition with_atob (env : Env)
  (defined : bool) : Env :=
  mkEnv
    (ethers_id env)
    (ethers_keccak256 env)
    (abi_decode_bytes env)
    (ethers_parseUnits env)
    (ethers_formatUnits env)
    (parseFloat env)
    (ethers_Wallet env)
    (signer_getAddress env)
    (signer_getNonce env)
    (usdc_balanceOf env)
    (usdc_decimals env)
    (usdc_approve env)
    (tokenMessenger_depositForBurn env)
    (provider_getTransactionReceipt env)
    (fetch_response env)
    (fetch_latency env)
    defined
    (account_fromPrivateKey env)
    (aptos_getAccountResource env)
    (fs_readFileSync env)
    (aptos_build_simple env)
    (aptos_signAndSubmitTransaction env)
    (aptos_waitForTransaction env).

Definition not_found : HttpResponse :=
  mkResponse 404 "Not Found" (Threw (Error "Unexpected end of JSON input")).

(** An authority that always answers 404. *)
Definition always_404 (latency : nat -> Z) : Env :=
  with_authority happy (fun _ _ => Ret not_found) latency.

(** An authority that answers 404 to its first [n] queries, then
    [complete] with an attestation. *)
Definition complete_after (n : nat) (latency : nat -> Z) : Env :=
  with_authority happy
    (fun k _ => if (k <? n)%nat then Ret not_found
                else Ret (mkResponse 200 "OK" (Ret complete_body)))
    latency.

(** The destination chain reports that the receive transaction was
    aborted. *)
Definition reverted : Env :=
  with_waitForTransaction happy
    (fun _ _ => Ret (mkTxnResult false "Move abort in 0x1::message_transmitter")).

(** An authority that always answers 404 and takes 400 seconds for its
    first answer. *)
Definition slow_first : Env :=
  always_404 (fun k => if (k =? 0)%nat then 400000 else 0).

(** An authority that always answers 404, one second after each
    query. *)
Definition one_second : Env := always_404 (fun _ => 1000).

(** The sender holds 2.0 USDC; the bridge rejects a burn of more. *)
Definition underfunded : Env :=
  with_balanceOf
    (with_depositForBurn happy
       (fun _ amount _ _ _ _ =>
          if 2000000 <? amount then
            Threw (mkError
                     "execution reverted: ERC20: transfer amount exceeds balance"
                     (Some "CALL_EXCEPTION"))
          else Ret (mkTx "0xburn" (Ret (burn_receipt id_stub)))))
    (fun _ _ => Ret 2000000).

(** The first call of [decimals()] fails on the network; later calls
    answer. *)
Definition flaky_decimals : Env :=
  with_decimals happy
    (fun k => if (k =? 0)%nat
              then Threw (mkError "missing response" (Some "NETWORK_ERROR"))
              else Ret 6).

(** A transfer of nominally 3.0 USDC (3000000 units) of which 2999000
    units arrive: the receive reports 2999000. *)
Definition fee_deducted : Env :=
  with_getAccountResource happy
    (fun k _ _ =>
       Ret (mkResource (Some (if (k =? 0)%nat then "1000000" else "3999000"))
              None)).

(** A request for 3.0 USDC to the recipient of the scenarios. *)
Definition three_usdc : Script.Sender.CrossChainParams :=
  Script.Sender.mkParams "3.0" recipient.

(** A host without [atob]. *)
Definition no_atob : Env := with_atob happy false.

(** An address of 64 hex digits with a stray [0x] behind it. *)
Definition stray_0x : string :=
  "aaaaaaaaaaaaaaaaaaaaaaaaaaaaaaaaaaaaaaaaaaaaaaaaaaaaaaaaaaaaaaaa0x".

Definition start : World := mkWorld 0 [].

Definition session0 : Mobile.Orchestrator.Session :=
  Mobile.Orchestrator.mkSession start [].

(** The same environment with another provider of receipts. *)
Definition with_receipts (env : Env)
  (answer : nat -> string -> Outcome (option Receipt)) : Env :=
  mkEnv
    (ethers_id env)
    (ethers_keccak256 env)
    (abi_decode_bytes env)
    (ethers_parseUnits env)
    (ethers_formatUnits env)
    (parseFloat env)
    (ethers_Wallet env)
    (signer_getAddress env)
    (signer_getNonce env)
    (usdc_balanceOf env)
    (usdc_decimals env)
    (usdc_approve env)
    (tokenMessenger_depositForBurn env)
    answer
    (fetch_response env)
    (fetch_latency env)
    (atob_defined env)
    (account_fromPrivateKey env)
    (aptos_getAccountResource env)
    (fs_readFileSync env)
    (aptos_build_simple env)
    (aptos_signAndSubmitTransaction env)
    (aptos_waitForTransaction env).

(** The same environment with another hash function and another decoder
    of event data. *)
Definition with_codec (env : Env) (keccak256 : string -> Outcome string)
  (decode : string -> Outcome string) : Env :=
  mkEnv
    (ethers_id env)
    keccak256
    decode
    (ethers_parseUnits env)
    (ethers_formatUnits env)
    (parseFloat env)
    (ethers_Wallet env)
    (signer_getAddress env)
    (signer_getNonce env)
    (usdc_balanceOf env)
    (usdc_decimals env)
    (usdc_approve env)
    (tokenMessenger_depositForBurn env)
    (provider_getTransactionReceipt env)
    (fetch_response env)
    (fetch_latency env)
    (atob_defined env)
    (account_fromPrivateKey env)
    (aptos_getAccountResource env)
    (fs_readFileSync env)
    (aptos_build_simple env)
    (aptos_signAndSubmitTransaction env)
    (aptos_waitForTransaction env).

(** The provider never has the receipt. *)
Definition never_mined : Env := with_receipts happy (fun _ _ => Ret None).

(** The provider has the receipt from its lookup number [n] on. *)
Definition mined_after (n : nat) : Env :=
  with_receipts happy
    (fun k _ => if (k <? n)%nat then Ret None
                else Ret (Some (burn_receipt id_stub))).

(** An authority that answers every query at once with the HTTP status
    [s]. *)
Definition always_status (s : Z) (text : string) : Env :=
  with_authority happy
    (fun _ _ =>
       Ret (mkResponse s text (Threw (Error "Unexpected end of JSON input"))))
    (fun _ => 0).

(** An authority that answers every query at once that the attestation
    failed. *)
Definition always_failed : Env :=
  with_authority happy
    (fun _ _ =>
       Ret (mkResponse 200 "OK" (Ret (mkBody (Some "failed") None None))))
    (fun _ => 0).

(** A transfer as the script runtime takes it: hashes of 66 characters,
    and message bytes and an attestation of more than 10. *)
Definition message_hash : string :=
  "0x5f9b937419dda90aa06c1836b7847f65bbbe3f1217567758dc2488be31a477b9".

Definition script_ready : Env :=
  with_authority
    (with_codec happy (fun _ => Ret message_hash)
       (fun _ => Ret "0xmessage0123"))
    (fun _ _ =>
       Ret (mkResponse 200 "OK"
              (Ret (mkBody (Some "complete") None (Some "0xABCDEF0123")))))
    (fun _ => 0).

(** The account holds 1000000 units when the receive starts; every later
    lookup of its resources fails on the network. *)
Definition lost_lookup : Env :=
  with_getAccountResource happy
    (fun k _ _ =>
       if (k =? 0)%nat then Ret (mkResource (Some "1000000") None)
       else Threw (Error "Network request failed")).

(** Every call of [decimals()] fails: the first with the code
    [NONCE_EXPIRED], the second on the network, the third with a
    timeout. *)
Definition failing_decimals : Env :=
  with_decimals happy
    (fun k =>
       match k with
       | 0%nat => Threw (mkError "nonce has already been used"
                           (Some "NONCE_EXPIRED"))
       | 1%nat => Threw (mkError "missing response" (Some "NETWORK_ERROR"))
       | _ => Threw (mkError "request timeout" (Some "TIMEOUT"))
       end).

(** The variables of the transfer script, all set. *)
Definition CONFIG : Script.Flow.CONFIG :=
  Script.Flow.mkConfig "0xbase-key" "https://sepolia.base.org" "aptos-key"
    recipient.

End Stubs.

(** ** Vocabulary of the properties *)

(** *** The decoders on lists of characters *)

Section Base64Vocabulary.

Import Base64.

(** Membership in the base64 alphabet, and the six bits of a character. *)
Definition in_alphabet (c : ascii) : bool :=
  match alphabet_value c with Some _ => true | None => false end.

Definition sextet (c : ascii) : Z :=
  match alphabet_value c with Some v => v | None => 0 end.

(** What one turn of the fallback appends, from the four indices. *)
Definition quad_chars (enc1 enc2 enc3 enc4 : Z) : list Z :=
  let chr1 := Z.lor (Z.shiftl enc1 2) (Z.shiftr enc2 4) in
  let chr2 := Z.lor (Z.shiftl (Z.land enc2 15) 4) (Z.shiftr enc3 2) in
  let chr3 := Z.lor (Z.shiftl (Z.land enc3 3) 6) enc4 in
  [fromCharCode chr1]
  ++ (if negb (enc3 =? 64) then [fromCharCode chr2] else [])
  ++ (if negb (enc4 =? 64) then [fromCharCode chr3] else []).

(** The index in the table of the character that [charAt] finds, if
    any. *)
Definition enc_of (o : option ascii) : Z :=
  match o with
  | Some c => indexOf chars (String c EmptyString)
  | None => indexOf chars EmptyString
  end.

(** The loop of the fallback on the list of the characters. *)
Fixpoint fallback_chars (l : list ascii) : list Z :=
  match l with
  | [] => []
  | a :: b :: c :: d :: l' =>
      quad_chars (enc_of (Some a)) (enc_of (Some b)) (enc_of (Some c))
        (enc_of (Some d))
      ++ fallback_chars l'
  | a :: l1 =>
      quad_chars (enc_of (Some a)) (enc_of (nth_error l1 0))
        (enc_of (nth_error l1 1)) (enc_of (nth_error l1 2))
  end.

(** The numbers of six bits, and a test on all pairs of them. *)
Definition range64 : list Z := map Z.of_nat (seq 0 64).

Definition all_pairs (f : Z -> Z -> bool) : bool :=
  forallb (fun a => forallb (f a) range64) range64.
End Base64Vocabulary.

(** *** Progress values and failures of the orchestrator *)

Section ProgressVocabulary.

Import Mobile.Config Mobile.Orchestrator.

(** The six values that a run without failure hands to the callback. *)
Definition success_progress (sendResult : BaseSendResult)
  (receiveResult : AptosReceiveResult) : list CrossChainProgress :=
  [mkProgress 1 3 processing "Burning USDC on Base chain..." None None (Some 10);
   mkProgress 1 3 completed "Base chain transaction successful"
     (Some (txHash sendResult)) None (Some 33);
   mkProgress 2 3 processing "Waiting for Circle signature..." None None (Some 40);
   mkProgress 2 3 completed "Circle signature retrieved successfully"
     None None (Some 66);
   mkProgress 3 3 processing "Receiving USDC on Aptos chain..." None None (Some 75);
   mkProgress 3 3 completed "Cross-chain completed!"
     (Some (recv_txHash receiveResult)) None (Some 100)].

(** Step, status and percentage of a progress value. *)
Definition summary (p : CrossChainProgress) : Z * ProgressStatus * option Z :=
  (step p, progress_status p, percentage p).

Fixpoint strictly_increasing (l : list Z) : bool :=
  match l with
  | a :: (b :: _) as l' => (a <? b) && strictly_increasing l'
  | _ => true
  end.

Definition percentages (l : list CrossChainProgress) : list Z :=
  flat_map (fun p => match percentage p with Some n => [n] | None => [] end) l.

(** What a failed run hands to the callback last. *)
Definition failed_progress (msg : string) : CrossChainProgress :=
  mkProgress 0 3 failed "Cross-chain failed" None (Some msg) (Some 0).

(** The shape of a progress value as the orchestrator builds it: three
    steps in all; step 1, 2 or 3 while processing or completed, and
    step 0 when failed. *)
Definition progress_shape (p : CrossChainProgress) : Prop :=
  totalSteps p = 3
  /\ match progress_status p with
     | failed => step p = 0
     | _ => 1 <= step p <= 3
     end.

Variable initialize : M World unit.
Variable executeFullCrossChain : string -> string -> M World BaseSendResult.
Variable getAttestationFromTransaction : string -> M World AttestationData.
Variable receiveCCTPUSDC : string -> string -> string -> M World AptosReceiveResult.
Variable CREDENTIALS : Credentials.

(** An error [e] was thrown before step 3 in the run that starts in [s]:
    while the services were built, or in step 1 or 2. *)
Definition threw_before_receive (s : Session) (e : JsError) : Prop :=
  (exists w, initialize (world s) = (Threw e, w))
  \/ (exists w0 w,
        initialize (world s) = (Ret tt, w0)
        /\ executeFullCrossChain USDC_AMOUNT (APTOS_RECIPIENT CREDENTIALS) w0
           = (Threw e, w))
  \/ (exists w0 sendResult w1 w,
        initialize (world s) = (Ret tt, w0)
        /\ executeFullCrossChain USDC_AMOUNT (APTOS_RECIPIENT CREDENTIALS) w0
           = (Ret sendResult, w1)
        /\ getAttestationFromTransaction (txHash sendResult) w1 = (Threw e, w)).

(** How step 3 ends in the run that starts in [s], when it is reached. *)
Definition receiver_gave (s : Session) (o : Outcome AptosReceiveResult) : Prop :=
  exists w0 sendResult w1 attestationData w2 w3,
    initialize (world s) = (Ret tt, w0)
    /\ executeFullCrossChain USDC_AMOUNT (APTOS_RECIPIENT CREDENTIALS) w0
       = (Ret sendResult, w1)
    /\ getAttestationFromTransaction (txHash sendResult) w1
       = (Ret attestationData, w2)
    /\ receiveCCTPUSDC (messageBytes attestationData)
         (attestation attestationData) (APTOS_PRIVATE_KEY CREDENTIALS) w2
       = (o, w3).

End ProgressVocabulary.

(** The world in which step 3 starts when steps 1 and 2 went well. *)
Definition before_receive (env : Env) : World :=
  snd (bind (Mobile.Sender.executeFullCrossChain env Mobile.Config.USDC_AMOUNT Stubs.recipient)
         (fun sendResult =>
            Mobile.Attestation.getAttestationFromTransaction env (txHash sendResult))
         Stubs.start).

(** *** Worlds and answers of the polling loop *)

Section PollingVocabulary.

Variable env : Env.
Variable cfg : CircleApi.
Variable messageHash : string.

(** The world after a query, after a sleep, and after a query answered
    by 404 and the sleep that follows it. *)
Definition after_fetch (w : World) : World :=
  mkWorld (now w + fetch_latency env (count_op OpFetch (calls w)))
    (calls w ++ [EvFetch (attestation_url cfg messageHash)]).

Definition after_sleep (w : World) : World :=
  mkWorld (now w + pollInterval cfg) (calls w ++ [EvSleep (pollInterval cfg)]).

Definition after_404 (w : World) : World := after_sleep (after_fetch w).

Fixpoint after_404s (k : nat) (w : World) : World :=
  match k with
  | O => w
  | S k' => after_404s k' (after_404 w)
  end.

(** The authority answers 404 to its query number [k]. *)
Definition answers_404 (k : nat) : Prop :=
  exists r,
    fetch_response env k (attestation_url cfg messageHash) = Ret r
    /\ status r = 404.

(** The authority answers [data], complete and with an attestation, to
    its query number [k]. *)
Definition answers_complete (k : nat) (data : AttestationBody) : Prop :=
  exists r,
    fetch_response env k (attestation_url cfg messageHash) = Ret r
    /\ ok r = true /\ json r = Ret data
    /\ is_complete data = true.

Definition complete_data (data : AttestationBody) : AttestationData :=
  mkAttestationData "complete" messageHash
    (or_else (opt_string (body_message data)) "")
    (opt_string (body_attestation data)).

Fixpoint after_sleeps (k : nat) (w : World) : World :=
  match k with
  | O => w
  | S k' => after_sleeps k' (after_sleep w)
  end.

(** The world after four queries with a sleep between consecutive
    ones. *)
Definition after_four_queries (w : World) : World :=
  let c := count_op OpFetch (calls w) in
  let l := fetch_latency env in
  let url := attestation_url cfg messageHash in
  let pi := pollInterval cfg in
  mkWorld
    (now w + l c + l (c + 1)%nat + l (c + 2)%nat + l (c + 3)%nat + 3 * pi)
    (calls w ++ [EvFetch url; EvSleep pi; EvFetch url; EvSleep pi;
                 EvFetch url; EvSleep pi; EvFetch url]).

End PollingVocabulary.

(** The two errors that end the loop of the mobile runtime. *)
Definition timeout_error (elapsed : Z) : JsError :=
  Error ("Getting attestation timeout (waited "
         ++ Z_toString (Mobile.Attestation.round_seconds elapsed)
         ++ " seconds)")%string.

Definition retries_error : JsError :=
  Error "Getting attestation exceeded maximum retry attempts".

(** *** Logs *)

(** The bytecode of the first transaction that a log shows built. *)
Fixpoint built_bytecode (l : list Event) : option (list Z) :=
  match l with
  | [] => None
  | EvBuild _ bytecode _ :: _ => Some bytecode
  | _ :: l' => built_bytecode l'
  end.

(** [emits P m]: a run of [m] only adds events, and all of them satisfy
    [P]. *)
Definition emits {A} (P : Event -> Prop) (m : M World A) : Prop :=
  forall w, exists d, calls (snd (m w)) = calls w ++ d /\ Forall P d.

(** Events other than the start of an attempt and the backoff. *)
Definition inside_attempt (ev : Event) : Prop :=
  op_of ev <> OpGetAddress /\ op_of ev <> OpSleep.

(** The world after the backoff that follows the error [e] of an attempt
    that is not the last: two seconds of sleep after [NONCE_EXPIRED],
    nothing after any other error. *)
Definition backoff_events (e : JsError) : list Event :=
  if code_is e "NONCE_EXPIRED" then [EvSleep 2000] else [].

Definition backoff (e : JsError) (w : World) : World :=
  if code_is e "NONCE_EXPIRED"
  then mkWorld (now w + 2000) (calls w ++ [EvSleep 2000])
  else w.

(** The log of [n] attempts: each starts with [getAddress], and between
    two attempts there is nothing or one sleep of two seconds. *)
Inductive attempts_log : nat -> list Event -> Prop :=
| LastAttempt : forall d,
    Forall inside_attempt d -> attempts_log 1 (EvGetAddress :: d)
| FailedAttempt : forall n d e l,
    Forall inside_attempt d ->
    attempts_log n l ->
    attempts_log (S n) ((EvGetAddress :: d) ++ backoff_events e ++ l).

(** *** Bytes, lookups and answers of the further properties *)

(** The number that a list of bytes denotes, most significant first. *)
Definition be_value (bytes : list Z) : Z :=
  fold_left (fun acc b => acc * 256 + b) bytes 0.

(** A burn that goes to the recipient of the request, as it was given. *)
Definition burn_as_requested (params : Script.Sender.CrossChainParams)
  (ev : Event) : Prop :=
  op_of ev = OpDepositForBurn ->
  startsWith (Script.Sender.recipientAddress params) "0x" = true
  /\ String.length (Script.Sender.recipientAddress params) = 66%nat
  /\ exists amountWei,
       ev = EvDepositForBurn amountWei 9 (Script.Sender.recipientAddress params)
              Script.Config.usdc None.

(** The error of the guard of [depositForBurn] in the script runtime. *)
Definition invalid_format : JsError :=
  Error "Invalid Aptos address format, should be 64-character hexadecimal address".

(** The world after [k] lookups of the receipt of [txHash] that found
    none, each followed by a sleep of two seconds. *)
Definition lookup_and_sleep (txHash : string) : list Event :=
  [EvGetTransactionReceipt txHash; EvSleep 2000].

Fixpoint after_lookups (txHash : string) (k : nat) (w : World) : World :=
  match k with
  | O => w
  | S k' =>
      after_lookups txHash k'
        (mkWorld (now w + 2000) (calls w ++ lookup_and_sleep txHash))
  end.

(** What [getAttestation] hands back for [messageHash]: a complete
    attestation of that hash, with a signature in it. *)
Definition complete_for (messageHash : string) (a : AttestationData) : Prop :=
  att_status a = "complete"
  /\ Common.messageHash a = messageHash
  /\ truthy (attestation a) = true.

(** The call number [k] of the kind [op] was made between the worlds
    [w] and [w']. *)
Definition during (op : Op) (w w' : World) (k : nat) : Prop :=
  (count_op op (calls w) <= k < count_op op (calls w'))%nat.

(** The provider answers its lookup number [k] of the receipt of
    [txHash] with a receipt whose [MessageSent] log decodes to
    [messageBytes], which start with [0x]. *)
Definition message_of_receipt (env : Env) (txHash : string) (k : nat)
  (messageBytes : string) : Prop :=
  exists receipt messageSentLog,
    provider_getTransactionReceipt env k txHash = Ret (Some receipt)
    /\ find (topic0_is (ethers_id env messageSentSignature)) (logs receipt)
       = Some messageSentLog
    /\ abi_decode_bytes env (data messageSentLog) = Ret messageBytes
    /\ startsWith messageBytes "0x" = true.

Section ErrorAnswers.

Variable env : Env.
Variable cfg : CircleApi.
Variable messageHash : string.

(** The authority answers its query number [k] with the HTTP status [s]
    and the status text [text]. *)
Definition answers_status (k : nat) (s : Z) (text : string) : Prop :=
  exists r,
    fetch_response env k (attestation_url cfg messageHash) = Ret r
    /\ status r = s /\ statusText r = text.

(** The authority answers its query number [k] with a body whose status
    is [failed]. *)
Definition answers_failed (k : nat) : Prop :=
  exists r data,
    fetch_response env k (attestation_url cfg messageHash) = Ret r
    /\ ok r = true /\ json r = Ret data
    /\ body_status data = Some "failed".

End ErrorAnswers.

(** [grows m]: a run of [m] only adds events to the log. *)
Definition grows {A} (m : M World A) : Prop := emits (fun _ => True) m.

(** [made w w' Q]: between the worlds [w] and [w'] a call [ev] was made
    with [Q before ev], where [before] is the log up to that call. The
    answer that the run received to the call is the one that the
    collaborator gives for the number of calls of its kind in
    [before]. *)
Definition made (w w' : World) (Q : list Event -> Event -> Prop) : Prop :=
  exists pre ev post,
    calls w' = calls w ++ pre ++ ev :: post /\ Q (calls w ++ pre) ev.

(** [ensures Q m]: every run of [m] that returns has made such a
    call. *)
Definition ensures {A} (Q : list Event -> Event -> Prop) (m : M World A)
  : Prop :=
  forall w a w', m w = (Ret a, w') -> made w w' Q.

(** A burn of the script runtime for the recipient [mintRecipient],
    which the bridge accepted and whose confirmation arrived. *)
Definition burn_for (env : Env) (mintRecipient : string)
  (before : list Event) (ev : Event) : Prop :=
  exists amountWei tx receipt,
    ev = EvDepositForBurn amountWei 9 mintRecipient Script.Config.usdc None
    /\ tokenMessenger_depositForBurn env (count_op OpDepositForBurn before)
         amountWei 9 mintRecipient Script.Config.usdc None
       = Ret tx
    /\ wait tx = Ret receipt.

(** The wait for the transaction [transactionHash] of the destination
    chain, which the chain answered with a success. *)
Definition confirmation_of (env : Env) (transactionHash : string)
  (before : list Event) (ev : Event) : Prop :=
  exists txnResult,
    ev = EvWaitForTransaction transactionHash
    /\ aptos_waitForTransaction env (count_op OpWaitForTransaction before)
         transactionHash
       = Ret txnResult
    /\ success txnResult = true.

(** The same for some transaction of the destination chain. *)
Definition confirmation (env : Env) (before : list Event) (ev : Event)
  : Prop :=
  exists transactionHash, confirmation_of env transactionHash before ev.

(** A burn of the mobile runtime for the encoded [recipientAddress],
    which the bridge accepted as the transaction [burnHash] and whose
    confirmation arrived. *)
Definition mobile_burn_for (env : Env) (recipientAddress burnHash : string)
  (before : list Event) (ev : Event) : Prop :=
  exists amountWei mintRecipient nonce tx receipt,
    ev = EvDepositForBurn amountWei 9 mintRecipient Mobile.Config.usdc
           (Some nonce)
    /\ Codec.aptosAddressToBytes32 recipientAddress = Ret mintRecipient
    /\ tokenMessenger_depositForBurn env (count_op OpDepositForBurn before)
         amountWei 9 mintRecipient Mobile.Config.usdc (Some nonce)
       = Ret tx
    /\ wait tx = Ret receipt
    /\ hash tx = burnHash.

(** * Properties *)

(** ** The address codec *)

Section CodecFacts.

Import Codec.

Lemma hex_char_not_x : forall c, is_hex_char c = true -> c <> "x"%char.
Proof. intros c H E. subst c. discriminate H. Qed.

(** A string of hex digits nowhere holds ["0x"]. *)
Lemma prefix_0x_hex : forall h, is_hex h = true -> String.prefix "0x" h = false.
Proof.
  intros [|c1 [|c2 h]] H; cbn [String.prefix is_hex] in *; try reflexivity.
  - destruct (ascii_dec "0" c1); reflexivity.
  - destruct (ascii_dec "0" c1); [|reflexivity].
    destruct (ascii_dec "x" c2) as [E|]; [|reflexivity].
    apply andb_true_iff in H. destruct H as [_ H].
    apply andb_true_iff in H. destruct H as [H _].
    symmetry in E. now apply hex_char_not_x in H.
Qed.

Lemma replace_first_hex : forall h,
  is_hex h = true -> replace_first "0x" "" h = h.
Proof.
  induction h as [|c h IH]; intros H.
  - reflexivity.
  - cbn [replace_first]. rewrite (prefix_0x_hex _ H).
    cbn [is_hex] in H. apply andb_true_iff in H. destruct H as [_ H].
    now rewrite (IH H).
Qed.

(** The clean address of an address of hex digits is its hex part. *)
Lemma clean_with_prefix : forall p h,
  is_hex h = true -> replace_first "0x" "" (with_prefix p h) = h.
Proof.
  intros [|] h H; [|now apply replace_first_hex].
  unfold with_prefix. cbn. now destruct h.
Qed.

Lemma aptosAddressToBytes32_hex : forall p h,
  is_hex h = true ->
  aptosAddressToBytes32 (with_prefix p h) =
  if (String.length h =? 64)%nat then Ret ("0x" ++ h)%string
  else Threw (Error "Invalid Aptos address length").
Proof.
  intros p h H. unfold aptosAddressToBytes32.
  rewrite (clean_with_prefix p h H).
  now destruct (String.length h =? 64)%nat.
Qed.

(** X2. On addresses written in hex digits, with or without the [0x]
    prefix, [aptosAddressToBytes32] succeeds exactly when the hex part has
    64 characters and then returns ["0x"] followed by that hex part,
    unchanged; with any other length it throws "Invalid Aptos address
    length" and returns nothing. Two addresses of 64 hex digits with the
    same encoding have the same hex part, and evaluating the codec inside
    a run leaves the world as it was. *)
Lemma aptosAddressToBytes32_hex_codec :
  forall (p : bool) (h : string),
    is_hex h = true ->
    (String.length h = 64%nat ->
       aptosAddressToBytes32 (with_prefix p h) = Ret ("0x" ++ h)%string)
    /\ (String.length h <> 64%nat ->
          aptosAddressToBytes32 (with_prefix p h)
          = Threw (Error "Invalid Aptos address length"))
    /\ (forall (p' : bool) (h' : string),
          is_hex h' = true ->
          String.length h = 64%nat -> String.length h' = 64%nat ->
          aptosAddressToBytes32 (with_prefix p h)
          = aptosAddressToBytes32 (with_prefix p' h') ->
          h = h')
    /\ (forall w : World,
          lift_outcome (aptosAddressToBytes32 (with_prefix p h)) w
          = (aptosAddressToBytes32 (with_prefix p h), w)).
Proof.
  intros p h H. repeat split.
  - intros L. rewrite (aptosAddressToBytes32_hex p h H).
    apply Nat.eqb_eq in L. now rewrite L.
  - intros L. rewrite (aptosAddressToBytes32_hex p h H).
    apply Nat.eqb_neq in L. now rewrite L.
  - intros p' h' H' L L' E.
    rewrite (aptosAddressToBytes32_hex p h H) in E.
    rewrite (aptosAddressToBytes32_hex p' h' H') in E.
    apply Nat.eqb_eq in L, L'. rewrite L, L' in E.
    now injection E.
Qed.

Example aptosAddressToBytes32_hex_codec_example :
  aptosAddressToBytes32 Stubs.recipient = Ret Stubs.recipient
  /\ aptosAddressToBytes32 "0x1234"
     = Threw (Error "Invalid Aptos address length").
Proof.
  split.
  - exact (proj1 (aptosAddressToBytes32_hex_codec true
      "69091fbab5f7d635ee7ac5098cf0c1efbe31d68fec0f2cd565e8d168daf52832"
      eq_refl) eq_refl).
  - refine (proj1 (proj2 (aptosAddressToBytes32_hex_codec true "1234" eq_refl)) _).
    simpl. lia.
Defined.

(** C8. The pattern of [replace('0x', '')] is not anchored at the start
    of the address. An input of 66 characters that does not start with
    [0x] but ends with it is not rejected for its length: the codec
    removes these two characters and returns the remaining 64 behind a
    new prefix. The sender of the mobile runtime hands the result to the
    bridge as the mint recipient; the sender of the script runtime tests
    [startsWith('0x')] first and rejects the input. *)
Theorem aptosAddressToBytes32_inner_0x :
  String.length Stubs.stray_0x = 66%nat
  /\ startsWith Stubs.stray_0x "0x" = false
  /\ aptosAddressToBytes32 Stubs.stray_0x
     = Ret "0xaaaaaaaaaaaaaaaaaaaaaaaaaaaaaaaaaaaaaaaaaaaaaaaaaaaaaaaaaaaaaaaa"
  /\ In (EvDepositForBurn 1000000 9
           "0xaaaaaaaaaaaaaaaaaaaaaaaaaaaaaaaaaaaaaaaaaaaaaaaaaaaaaaaaaaaaaaaa"
           Mobile.Config.usdc (Some 7))
       (calls (snd (Mobile.Sender.depositForBurn Stubs.happy "1.0"
                      Stubs.stray_0x (Some 7) Stubs.start)))
  /\ fst (Script.Sender.depositForBurn Stubs.happy
            (Script.Sender.mkParams "1.0" Stubs.stray_0x) Stubs.start)
     = Threw (Error "Invalid Aptos address format, should be 64-character hexadecimal address")
  /\ count_op OpDepositForBurn
       (calls (snd (Script.Sender.depositForBurn Stubs.happy
                      (Script.Sender.mkParams "1.0" Stubs.stray_0x)
                      Stubs.start)))
     = 0%nat.
Proof.
  split; [reflexivity|]. split; [reflexivity|]. split; [reflexivity|].
  split; [vm_compute; tauto|]. split; vm_compute; reflexivity.
Qed.

End CodecFacts.

(** ** The two decoders of [base64ToBytes] *)

Section Base64Facts.

Import Base64.

Example atob_padded : atob "QQ==" = Some [65] /\ atob "QUI=" = Some [65; 66].
Proof. split; reflexivity. Qed.

Example manual_decode_padded :
  manual_decode "QQ==" = [65; 0; 0] /\ manual_decode "QUI=" = [65; 66; 0].
Proof. split; reflexivity. Qed.

Example manual_decode_unpadded :
  manual_decode "QUJD" = [65; 66; 67] /\ atob "QUJD" = Some [65; 66; 67].
Proof. split; reflexivity. Qed.

(** C10. On the embedded script, which ends in two padding characters,
    the fallback decoder returns the bytes of [atob] followed by two
    bytes [0]: after the padding is stripped, [charAt] past the end gives
    the empty string, whose [indexOf] is [0] and not [64]. The receiver
    builds its transaction with 232 bytes of bytecode on a host with
    [atob] and with 234 bytes on a host without. *)
Theorem base64ToBytes_fallback_appends_zeros :
  exists bytes : list Z,
    base64ToBytes true CCTP_SCRIPT_BASE64 = Ret bytes
    /\ base64ToBytes false CCTP_SCRIPT_BASE64 = Ret (bytes ++ [0; 0])
    /\ List.length bytes = 232%nat
    /\ base64ToBytes true CCTP_SCRIPT_BASE64
       <> base64ToBytes false CCTP_SCRIPT_BASE64
    /\ built_bytecode
         (calls (snd (Mobile.Receiver.receiveCCTPUSDC Stubs.happy "0xmessage"
                        "0xABCDEF" "aptos-key" Stubs.start)))
       = Some bytes
    /\ built_bytecode
         (calls (snd (Mobile.Receiver.receiveCCTPUSDC Stubs.no_atob "0xmessage"
                        "0xABCDEF" "aptos-key" Stubs.start)))
       = Some (bytes ++ [0; 0]).
Proof.
  eexists. split; [vm_compute; reflexivity|].
  split; [vm_compute; reflexivity|].
  split; [vm_compute; reflexivity|].
  split; [vm_compute; intros E; discriminate E|].
  split; vm_compute; reflexivity.
Qed.

End Base64Facts.

(** ** The two decoders on every padded string *)

Section Base64Padding.

Import Base64.

(** Induction on lists four elements at a time. *)
Lemma list_ind4 : forall {A} (P : list A -> Prop),
  P [] -> (forall a, P [a]) -> (forall a b, P [a; b]) ->
  (forall a b c, P [a; b; c]) ->
  (forall a b c d l, P l -> P (a :: b :: c :: d :: l)) ->
  forall l, P l.
Proof.
  intros A P H0 H1 H2 H3 H4.
  assert (H : forall n l, (List.length l < n)%nat -> P l).
  { induction n as [|n IH]; intros l Hl; [lia|].
    destruct l as [|a [|b [|c [|d l]]]]; auto.
    apply H4, IH. cbn in Hl. lia. }
  intros l. apply (H (S (List.length l))). lia.
Qed.

Lemma length_string_of_list : forall l,
  String.length (string_of_list_ascii l) = List.length l.
Proof. induction l as [|c l IH]; cbn; [reflexivity|now rewrite IH]. Qed.

Lemma get_string_of_list : forall l i,
  String.get i (string_of_list_ascii l) = nth_error l i.
Proof.
  induction l as [|c l IH]; intros [|i]; cbn; try reflexivity. apply IH.
Qed.

(** [chars.indexOf(str.charAt(i))] on the list of the characters. *)
Lemma charAt_enc : forall l i,
  indexOf chars (charAt (string_of_list_ascii l) i) = enc_of (nth_error l i).
Proof.
  intros l i. unfold charAt. rewrite get_string_of_list.
  now destruct (nth_error l i).
Qed.

Lemma decode_quad_chars : forall l i output,
  decode_quad (string_of_list_ascii l) i output
  = output
    ++ quad_chars (enc_of (nth_error l i)) (enc_of (nth_error l (i + 1)))
         (enc_of (nth_error l (i + 2))) (enc_of (nth_error l (i + 3))).
Proof.
  intros l i output. unfold decode_quad, quad_chars.
  rewrite !charAt_enc.
  destruct (negb (enc_of (nth_error l (i + 2)) =? 64));
    destruct (negb (enc_of (nth_error l (i + 3)) =? 64));
    cbn [app]; rewrite <- ?app_assoc; cbn [app]; rewrite ?app_nil_r;
    reflexivity.
Qed.

Lemma fallback_chars_skipn : forall l i,
  (i < List.length l)%nat ->
  fallback_chars (skipn i l)
  = quad_chars (enc_of (nth_error l i)) (enc_of (nth_error l (i + 1)))
      (enc_of (nth_error l (i + 2))) (enc_of (nth_error l (i + 3)))
    ++ fallback_chars (skipn (i + 4) l).
Proof.
  intros l i Hi.
  rewrite <- (Nat.add_0_r i) at 2.
  rewrite <- !nth_error_skipn.
  replace (skipn (i + 4) l) with (skipn 4 (skipn i l))
    by (rewrite skipn_skipn; f_equal; lia).
  assert (Hne : skipn i l <> []).
  { intros E. apply (f_equal (@List.length _)) in E.
    rewrite length_skipn in E. cbn in E. lia. }
  destruct (skipn i l) as [|a [|b [|c [|d t]]]]; [contradiction| | | |];
    cbn; rewrite ?app_nil_r; reflexivity.
Qed.

(** The loop over indices is the loop over the list; [fuel] is enough
    as soon as it covers the characters left. *)
Lemma decode_loop_chars : forall l fuel i output,
  (List.length l - i <= fuel)%nat ->
  decode_loop fuel (string_of_list_ascii l) i output
  = output ++ fallback_chars (skipn i l).
Proof.
  intros l fuel. induction fuel as [|fuel IH]; intros i output Hf.
  - cbn [decode_loop]. rewrite skipn_all2 by lia. now rewrite app_nil_r.
  - cbn [decode_loop]. rewrite length_string_of_list.
    destruct (i <? List.length l)%nat eqn:Hi.
    + apply Nat.ltb_lt in Hi.
      rewrite decode_quad_chars, IH by lia.
      rewrite (fallback_chars_skipn l i Hi). now rewrite app_assoc.
    + apply Nat.ltb_ge in Hi. rewrite skipn_all2 by lia.
      now rewrite app_nil_r.
Qed.

(** A character of the alphabet stands in the table at the index of
    its six bits; it is neither the padding character nor white space. *)
Lemma alphabet_char : forall c,
  in_alphabet c = true ->
  enc_of (Some c) = sextet c /\ 0 <= sextet c < 64
  /\ is_eq_sign c = false /\ is_ascii_whitespace c = false.
Proof.
  intros [[] [] [] [] [] [] [] []]; vm_compute; intros H;
    try discriminate H; clear H;
    repeat split; try reflexivity; intros H; discriminate H.
Qed.

Lemma in_range64 : forall a, 0 <= a < 64 -> In a range64.
Proof.
  intros a Ha. unfold range64. rewrite <- (Z2Nat.id a) by lia.
  apply in_map, in_seq. lia.
Qed.

Lemma all_pairs_sound : forall f,
  all_pairs f = true ->
  forall a b, 0 <= a < 64 -> 0 <= b < 64 -> f a b = true.
Proof.
  intros f H a b Ha Hb. unfold all_pairs in H.
  rewrite forallb_forall in H. specialize (H a (in_range64 a Ha)).
  rewrite forallb_forall in H. exact (H b (in_range64 b Hb)).
Qed.

(** On numbers of six bits, the bit operations of the fallback are the
    arithmetic of the three octets. *)
Lemma quad_chars_octets : forall a b c d,
  0 <= a < 64 -> 0 <= b < 64 -> 0 <= c < 64 -> 0 <= d < 64 ->
  quad_chars a b c d
  = [a * 4 + b / 16; (b mod 16) * 16 + c / 4; (c mod 4) * 64 + d].
Proof.
  intros a b c d Ha Hb Hc Hd. unfold quad_chars.
  assert (E3 : (c =? 64) = false) by (apply Z.eqb_neq; lia).
  assert (E4 : (d =? 64) = false) by (apply Z.eqb_neq; lia).
  rewrite E3, E4. cbn [negb app].
  assert (H1 : fromCharCode (Z.lor (Z.shiftl a 2) (Z.shiftr b 4))
               = a * 4 + b / 16).
  { apply Z.eqb_eq.
    apply (all_pairs_sound
             (fun a b => fromCharCode (Z.lor (Z.shiftl a 2) (Z.shiftr b 4))
                         =? a * 4 + b / 16)); [now vm_compute| |]; assumption. }
  assert (H2 : fromCharCode (Z.lor (Z.shiftl (Z.land b 15) 4) (Z.shiftr c 2))
               = (b mod 16) * 16 + c / 4).
  { apply Z.eqb_eq.
    apply (all_pairs_sound
             (fun b c =>
                fromCharCode (Z.lor (Z.shiftl (Z.land b 15) 4) (Z.shiftr c 2))
                =? (b mod 16) * 16 + c / 4)); [now vm_compute| |]; assumption. }
  assert (H3 : fromCharCode (Z.lor (Z.shiftl (Z.land c 3) 6) d)
               = (c mod 4) * 64 + d).
  { apply Z.eqb_eq.
    apply (all_pairs_sound
             (fun c d => fromCharCode (Z.lor (Z.shiftl (Z.land c 3) 6) d)
                         =? (c mod 4) * 64 + d));
      [now vm_compute| |]; assumption. }
  now rewrite H1, H2, H3.
Qed.

Lemma padding_of_length : forall n pad,
  (pad <= 2)%nat -> ((n + pad) mod 4 = 0)%nat ->
  ((4 - n mod 4) mod 4 = pad)%nat /\ (n mod 4 <> 1)%nat.
Proof.
  intros n pad Hp H. rewrite Nat.Div0.add_mod in H.
  pose proof (Nat.mod_upper_bound n 4) as Hr.
  destruct (n mod 4)%nat as [|[|[|[|r]]]]; [| | | |lia];
    destruct pad as [|[|[|pad]]]; try lia; cbn in H |- *;
    try discriminate H; split; (reflexivity || lia).
Qed.

(** The fallback on the characters before the padding: the octets, then
    one octet more for each character missing to a multiple of four. *)
Lemma fallback_chars_octets : forall body,
  forallb in_alphabet body = true ->
  exists extra,
    fallback_chars body = octets (map sextet body) ++ extra
    /\ List.length extra = ((4 - List.length body mod 4) mod 4)%nat.
Proof.
  assert (Z0 : 0 <= 0 < 64) by lia.
  induction body as [|a|a b|a b c|a b c d l IH] using list_ind4; intros H.
  - now exists [].
  - cbn [forallb] in H. apply andb_true_iff in H as [Ha _].
    destruct (alphabet_char a Ha) as (Ea & Ra & _).
    eexists. cbn [fallback_chars nth_error map octets app].
    rewrite Ea. change (enc_of None) with 0.
    rewrite quad_chars_octets by assumption. split; reflexivity.
  - cbn [forallb] in H. apply andb_true_iff in H as [Ha H].
    apply andb_true_iff in H as [Hb _].
    destruct (alphabet_char a Ha) as (Ea & Ra & _).
    destruct (alphabet_char b Hb) as (Eb & Rb & _).
    eexists. cbn [fallback_chars nth_error map octets app].
    rewrite Ea, Eb. change (enc_of None) with 0.
    rewrite quad_chars_octets by assumption. split; reflexivity.
  - cbn [forallb] in H. apply andb_true_iff in H as [Ha H].
    apply andb_true_iff in H as [Hb H]. apply andb_true_iff in H as [Hc _].
    destruct (alphabet_char a Ha) as (Ea & Ra & _).
    destruct (alphabet_char b Hb) as (Eb & Rb & _).
    destruct (alphabet_char c Hc) as (Ec & Rc & _).
    eexists. cbn [fallback_chars nth_error map octets app].
    rewrite Ea, Eb, Ec. change (enc_of None) with 0.
    rewrite quad_chars_octets by assumption. split; reflexivity.
  - cbn [forallb] in H. apply andb_true_iff in H as [Ha H].
    apply andb_true_iff in H as [Hb H]. apply andb_true_iff in H as [Hc H].
    apply andb_true_iff in H as [Hd H].
    destruct (alphabet_char a Ha) as (Ea & Ra & _).
    destruct (alphabet_char b Hb) as (Eb & Rb & _).
    destruct (alphabet_char c Hc) as (Ec & Rc & _).
    destruct (alphabet_char d Hd) as (Ed & Rd & _).
    destruct (IH H) as (extra & E & L).
    exists extra. cbn [fallback_chars map octets].
    rewrite Ea, Eb, Ec, Ed, E, quad_chars_octets by assumption.
    split; [reflexivity|]. rewrite L. cbn [List.length].
    replace (S (S (S (S (List.length l))))) with (List.length l + 1 * 4)%nat
      by lia.
    now rewrite Nat.Div0.mod_add.
Qed.

Lemma strip_trailing_eq_padded : forall body pad,
  forallb in_alphabet body = true ->
  strip_trailing_eq (string_of_list_ascii (body ++ repeat "="%char pad))
  = string_of_list_ascii body.
Proof.
  induction body as [|c body IH]; intros pad H.
  - cbn [app]. induction pad as [|pad IHp]; [reflexivity|].
    cbn [repeat string_of_list_ascii strip_trailing_eq]. now rewrite IHp.
  - cbn [forallb] in H. apply andb_true_iff in H as [Hc H].
    destruct (alphabet_char c Hc) as (_ & _ & Hne & _).
    cbn [app string_of_list_ascii strip_trailing_eq].
    now rewrite Hne, (IH pad H).
Qed.

Lemma manual_decode_padded_chars : forall body pad,
  forallb in_alphabet body = true ->
  manual_decode (string_of_list_ascii (body ++ repeat "="%char pad))
  = fallback_chars body.
Proof.
  intros body pad H. unfold manual_decode.
  rewrite (strip_trailing_eq_padded body pad H).
  rewrite decode_loop_chars by (rewrite length_string_of_list; lia).
  reflexivity.
Qed.

Lemma sextets_alphabet : forall body,
  forallb in_alphabet body = true -> sextets body = Some (map sextet body).
Proof.
  induction body as [|c body IH]; intros H; [reflexivity|].
  cbn [forallb] in H. apply andb_true_iff in H as [Hc H].
  cbn [sextets map]. rewrite (IH H). unfold sextet, in_alphabet in *.
  now destruct (alphabet_value c).
Qed.

Lemma remove_whitespace_padded : forall body pad,
  forallb in_alphabet body = true ->
  remove_whitespace (body ++ repeat "="%char pad) = body ++ repeat "="%char pad.
Proof.
  intros body pad H. unfold remove_whitespace. rewrite filter_app. f_equal.
  - induction body as [|c body IH]; [reflexivity|].
    cbn [forallb] in H. apply andb_true_iff in H as [Hc H].
    destruct (alphabet_char c Hc) as (_ & _ & _ & Hw).
    cbn [filter]. now rewrite Hw, (IH H).
  - induction pad as [|pad IH]; [reflexivity|].
    cbn [repeat filter]. now rewrite IH.
Qed.

Lemma drop_padding_rev_padded : forall body pad,
  forallb in_alphabet body = true -> (pad <= 2)%nat ->
  (pad = 0%nat \/ body <> []) ->
  drop_padding_rev (repeat "="%char pad ++ rev body) = rev body.
Proof.
  intros body pad H Hp Hne.
  assert (Hhd : forall c r, rev body = c :: r -> is_eq_sign c = false).
  { intros c r E.
    assert (Hin : In c body) by (apply in_rev; rewrite E; now left).
    rewrite forallb_forall in H.
    now destruct (alphabet_char c (H c Hin)) as (_ & _ & Hc & _). }
  destruct pad as [|[|[|pad]]]; [| | |lia]; cbn [repeat app].
  - destruct (rev body) as [|c1 [|c2 r]] eqn:E; cbn [drop_padding_rev];
      [reflexivity| |]; now rewrite (Hhd _ _ eq_refl).
  - destruct Hne as [Hne|Hne]; [discriminate Hne|].
    destruct (rev body) as [|c2 r] eqn:E.
    + exfalso. apply Hne. apply (f_equal (@rev _)) in E.
      now rewrite rev_involutive in E.
    + cbn [drop_padding_rev]. change (is_eq_sign "=") with true. cbn iota.
      now rewrite (Hhd _ _ eq_refl).
  - cbn [drop_padding_rev]. reflexivity.
Qed.

Lemma atob_padded_chars : forall body pad,
  forallb in_alphabet body = true -> (pad <= 2)%nat ->
  ((List.length body + pad) mod 4 = 0)%nat ->
  atob (string_of_list_ascii (body ++ repeat "="%char pad))
  = Some (octets (map sextet body)).
Proof.
  intros body pad H Hp Hm. unfold atob.
  rewrite list_ascii_of_string_of_list_ascii.
  rewrite (remove_whitespace_padded body pad H).
  unfold strip_padding. rewrite length_app, repeat_length, Hm.
  cbn [Nat.eqb]. rewrite rev_app_distr, rev_repeat.
  rewrite drop_padding_rev_padded; try assumption.
  2:{ destruct pad as [|pad]; [now left|right]. intros ->.
      cbn [List.length Nat.add] in Hm.
      destruct pad as [|[|pad]]; [discriminate Hm|discriminate Hm|lia]. }
  rewrite rev_involutive.
  destruct (padding_of_length _ _ Hp Hm) as [_ Hne].
  apply Nat.eqb_neq in Hne. rewrite Hne.
  now rewrite (sextets_alphabet body H).
Qed.

(** On a string of the alphabet, padded to a multiple of four
    characters, the fallback returns the bytes of [atob] followed by
    as many further bytes as there are padding characters. *)
Lemma base64ToBytes_padded : forall body pad,
  forallb in_alphabet body = true -> (pad <= 2)%nat ->
  ((List.length body + pad) mod 4 = 0)%nat ->
  let base64 := string_of_list_ascii (body ++ repeat "="%char pad) in
  exists bytes extra,
    base64ToBytes true base64 = Ret bytes
    /\ base64ToBytes false base64 = Ret (bytes ++ extra)
    /\ List.length extra = pad.
Proof.
  intros body pad H Hp Hm base64. unfold base64ToBytes, base64.
  rewrite (atob_padded_chars body pad H Hp Hm).
  rewrite (manual_decode_padded_chars body pad H).
  destruct (fallback_chars_octets body H) as (extra & E & L).
  exists (to_Uint8Array (octets (map sextet body))), (to_Uint8Array extra).
  split; [reflexivity|]. split.
  - rewrite E. unfold to_Uint8Array. now rewrite map_app.
  - unfold to_Uint8Array. rewrite length_map, L.
    now destruct (padding_of_length _ _ Hp Hm).
Qed.

(** X22. Without padding the two decoders agree: on a string of the
    alphabet whose length is a multiple of four, the fallback returns
    the bytes of [atob]. *)
Corollary base64ToBytes_unpadded_agree : forall body,
  forallb in_alphabet body = true ->
  (List.length body mod 4 = 0)%nat ->
  base64ToBytes true (string_of_list_ascii body)
  = base64ToBytes false (string_of_list_ascii body).
Proof.
  intros body H Hm.
  destruct (base64ToBytes_padded body 0 H) as (bytes & extra & Ha & Hf & L);
    [lia|now rewrite Nat.add_0_r|].
  cbn [repeat] in Ha, Hf. rewrite app_nil_r in Ha, Hf.
  destruct extra; [|discriminate L]. rewrite app_nil_r in Hf.
  now rewrite Ha, Hf.
Qed.

(** X23. With padding the two decoders never agree: on a string of the
    alphabet that ends in one or two padding characters, the fallback
    returns other bytes than [atob]. *)
Corollary base64ToBytes_padded_differ : forall body pad,
  forallb in_alphabet body = true ->
  (0 < pad <= 2)%nat ->
  ((List.length body + pad) mod 4 = 0)%nat ->
  base64ToBytes true (string_of_list_ascii (body ++ repeat "="%char pad))
  <> base64ToBytes false (string_of_list_ascii (body ++ repeat "="%char pad)).
Proof.
  intros body pad H Hp Hm.
  destruct (base64ToBytes_padded body pad H) as (bytes & extra & Ha & Hf & L);
    [lia|exact Hm|].
  rewrite Ha, Hf. intros E. injection E as E.
  apply (f_equal (@List.length _)) in E. rewrite length_app in E. lia.
Qed.

End Base64Padding.

(** ** The orchestrator *)

Section OrchestratorFacts.

Import Mobile.Config Mobile.Orchestrator.

Variable initialize : M World unit.
Variable executeFullCrossChain : string -> string -> M World BaseSendResult.
Variable getAttestationFromTransaction : string -> M World AttestationData.
Variable receiveCCTPUSDC : string -> string -> string -> M World AptosReceiveResult.
Variable CREDENTIALS : Credentials.

Let run : M Session CrossChainResult :=
  executeCrossChain_steps initialize executeFullCrossChain
    getAttestationFromTransaction receiveCCTPUSDC CREDENTIALS.

Ltac run_steps :=
  unfold run, executeCrossChain_steps, try_catch, bind, collaborator,
    onProgress, throw, ret; cbn [world emitted].

(** C1. When the services are built and the three steps succeed, the
    callback receives, after what it had received before, exactly
    step 1 processing 10, step 1 completed 33, step 2 processing 40,
    step 2 completed 66, step 3 processing 75, step 3 completed 100, in
    this order and with increasing percentages, and the result is a
    success with the hash of the burn, the hash of the receive and the
    configured amount [USDC_AMOUNT]. *)
Theorem executeCrossChain_success :
  forall (s : Session) (w0 w1 w2 w3 : World) (sendResult : BaseSendResult)
         (attestationData : AttestationData) (receiveResult : AptosReceiveResult),
    initialize (world s) = (Ret tt, w0) ->
    executeFullCrossChain USDC_AMOUNT (APTOS_RECIPIENT CREDENTIALS) w0
    = (Ret sendResult, w1) ->
    getAttestationFromTransaction (txHash sendResult) w1
    = (Ret attestationData, w2) ->
    receiveCCTPUSDC (messageBytes attestationData) (attestation attestationData)
      (APTOS_PRIVATE_KEY CREDENTIALS) w2
    = (Ret receiveResult, w3) ->
    recv_success receiveResult = true ->
    let new := success_progress sendResult receiveResult in
    run s
    = (Ret (mkResult true (Some (txHash sendResult))
              (Some (recv_txHash receiveResult)) (Some USDC_AMOUNT) None),
       mkSession w3 (emitted s ++ new))
    /\ map summary new
       = [(1, processing, Some 10); (1, completed, Some 33);
          (2, processing, Some 40); (2, completed, Some 66);
          (3, processing, Some 75); (3, completed, Some 100)]
    /\ strictly_increasing (percentages new) = true.
Proof.
  intros s w0 w1 w2 w3 sendResult att receiveResult H0 H1 H2 H3 Hok new.
  split; [|split; reflexivity].
  run_steps. rewrite H0. cbn [world emitted].
  rewrite H1. cbn [world emitted]. rewrite H2. cbn [world emitted].
  rewrite H3. rewrite Hok. cbn [negb world emitted].
  unfold new, success_progress. repeat rewrite <- app_assoc. reflexivity.
Qed.

(** The orchestrator never throws; when it reports a failure, the
    message is that of the error a collaborator threw, or the fixed
    "Aptos receive failed" when the receiver returned a failure. The same
    message is in the [details] of the last progress value. *)
Lemma executeCrossChain_steps_failure :
  forall s : Session,
  exists (r : CrossChainResult) (s' : Session),
    run s = (Ret r, s')
    /\ (result_success r = false ->
        exists msg,
          error r = Some msg
          /\ (exists before, emitted s' = before ++ [failed_progress msg])
          /\ ((exists e,
                 threw_before_receive initialize executeFullCrossChain
                   getAttestationFromTransaction CREDENTIALS s e
                 /\ msg = message e)
              \/ (exists e, receiver_gave initialize executeFullCrossChain
                      getAttestationFromTransaction receiveCCTPUSDC
                      CREDENTIALS s (Threw e) /\ msg = message e)
              \/ (exists receiveResult,
                    receiver_gave initialize executeFullCrossChain
                      getAttestationFromTransaction receiveCCTPUSDC
                      CREDENTIALS s (Ret receiveResult)
                    /\ recv_success receiveResult = false
                    /\ msg = "Aptos receive failed"))).
Proof.
  intros s. run_steps.
  destruct (initialize (world s)) as [[[]|e] w0] eqn:H0; cbn [world emitted].
  2:{ do 2 eexists. split; [reflexivity|]. intros _. exists (message e).
      split; [reflexivity|]. split; [eexists; reflexivity|].
      left. exists e. split; [|reflexivity]. left. now exists w0. }
  destruct (executeFullCrossChain _ _ w0) as [[sr|e] w1] eqn:H1;
    cbn [world emitted].
  2:{ do 2 eexists. split; [reflexivity|]. intros _. exists (message e).
      split; [reflexivity|]. split; [eexists; reflexivity|].
      left. exists e. split; [|reflexivity]. right; left.
      exists w0, w1. now split. }
  destruct (getAttestationFromTransaction _ w1) as [[att|e] w2] eqn:H2;
    cbn [world emitted].
  2:{ do 2 eexists. split; [reflexivity|]. intros _. exists (message e).
      split; [reflexivity|]. split; [eexists; reflexivity|].
      left. exists e. split; [|reflexivity]. right; right.
      exists w0, sr, w1, w2. now repeat split. }
  destruct (receiveCCTPUSDC _ _ _ w2) as [[rr|e] w3] eqn:H3;
    cbn [world emitted].
  2:{ do 2 eexists. split; [reflexivity|]. intros _. exists (message e).
      split; [reflexivity|]. split; [eexists; reflexivity|].
      right; left. exists e. split; [|reflexivity].
      exists w0, sr, w1, att, w2, w3. now repeat split. }
  destruct (recv_success rr) eqn:Hok; cbn [negb world emitted].
  - do 2 eexists. split; [reflexivity|]. intros H. discriminate H.
  - do 2 eexists. split; [reflexivity|]. intros _.
    exists "Aptos receive failed".
    split; [reflexivity|]. split; [eexists; reflexivity|].
    right; right. exists rr. split; [|now split].
    exists w0, sr, w1, att, w2, w3. now repeat split.
Qed.

(** An error thrown before step 3 ends the run with a failure that
    carries its message, which is also in the last progress value. *)
Lemma executeCrossChain_steps_threw :
  forall (s : Session) (e : JsError),
    threw_before_receive initialize executeFullCrossChain
      getAttestationFromTransaction CREDENTIALS s e ->
    exists s',
      run s = (Ret (mkResult false None None None (Some (message e))), s')
      /\ exists before, emitted s' = before ++ [failed_progress (message e)].
Proof.
  intros s e [(w & H0)|[(w0 & w & H0 & H1)|(w0 & sr & w1 & w & H0 & H1 & H2)]];
    run_steps.
  - rewrite H0. cbn [world emitted].
    eexists. split; [reflexivity|]. eexists. reflexivity.
  - rewrite H0. cbn [world emitted]. rewrite H1. cbn [world emitted].
    eexists. split; [reflexivity|]. eexists. reflexivity.
  - rewrite H0. cbn [world emitted]. rewrite H1. cbn [world emitted].
    rewrite H2. cbn [world emitted].
    eexists. split; [reflexivity|]. eexists. reflexivity.
Qed.

(** A failure that the receiver returns ends the run with a failure
    that carries the fixed message. *)
Lemma executeCrossChain_steps_receive_failed :
  forall (s : Session) (receiveResult : AptosReceiveResult),
    receiver_gave initialize executeFullCrossChain
      getAttestationFromTransaction receiveCCTPUSDC CREDENTIALS s
      (Ret receiveResult) ->
    recv_success receiveResult = false ->
    exists s',
      run s
      = (Ret (mkResult false None None None (Some "Aptos receive failed")), s')
      /\ exists before,
           emitted s' = before ++ [failed_progress "Aptos receive failed"].
Proof.
  intros s rr (w0 & sr & w1 & att & w2 & w3 & H0 & H1 & H2 & H3) Hok.
  run_steps.
  rewrite H0. cbn [world emitted]. rewrite H1. cbn [world emitted].
  rewrite H2. cbn [world emitted]. rewrite H3, Hok. cbn [negb world emitted].
  eexists. split; [reflexivity|]. eexists. reflexivity.
Qed.

Lemma progress_shape_steps : forall sendResult receiveResult n,
  Forall progress_shape (firstn n (success_progress sendResult receiveResult)).
Proof.
  intros sr rr n. unfold success_progress.
  do 6 (destruct n as [|n];
        [cbn [firstn]; repeat (constructor; [split; cbn; lia|]); constructor|]).
  cbn [firstn]. rewrite firstn_nil.
  repeat (constructor; [split; cbn; lia|]); constructor.
Qed.

Lemma progress_shape_failed : forall msg, progress_shape (failed_progress msg).
Proof. intros msg. split; reflexivity. Qed.

(** Every value that a run hands to the callback has [totalSteps] 3; its
    [step] is 1, 2 or 3 when its status is processing or completed, and
    0 when its status is failed. *)
Lemma executeCrossChain_progress_shape :
  forall s : Session,
  exists new : list CrossChainProgress,
    emitted (snd (run s)) = emitted s ++ new
    /\ Forall progress_shape new.
Proof.
  intros s. run_steps.
  set (sp := success_progress).
  destruct (initialize (world s)) as [[[]|e] w0]; cbn [world emitted snd].
  2:{ eexists. split; [reflexivity|].
      constructor; [apply progress_shape_failed|constructor]. }
  destruct (executeFullCrossChain _ _ w0) as [[sr|e] w1];
    cbn [world emitted snd].
  2:{ rewrite <- app_assoc. eexists. split; [reflexivity|].
      apply Forall_app. split.
      { apply (progress_shape_steps (mkSend "" None None)
                 (mkReceive "" false None) 1). }
      constructor; [apply progress_shape_failed|constructor]. }
  destruct (getAttestationFromTransaction _ w1) as [[att|e] w2];
    cbn [world emitted snd].
  2:{ repeat rewrite <- app_assoc. eexists. split; [reflexivity|].
      apply (Forall_app _ (firstn 3 (sp sr (mkReceive "" false None))) [_]).
      split; [apply progress_shape_steps|].
      constructor; [apply progress_shape_failed|constructor]. }
  destruct (receiveCCTPUSDC _ _ _ w2) as [[rr|e] w3];
    cbn [world emitted snd].
  2:{ repeat rewrite <- app_assoc. eexists. split; [reflexivity|].
      apply (Forall_app _ (firstn 5 (sp sr (mkReceive "" false None))) [_]).
      split; [apply progress_shape_steps|].
      constructor; [apply progress_shape_failed|constructor]. }
  destruct (recv_success rr); cbn [negb world emitted snd].
  - repeat rewrite <- app_assoc. eexists. split; [reflexivity|].
    apply (progress_shape_steps sr rr 6).
  - repeat rewrite <- app_assoc. eexists. split; [reflexivity|].
    apply (Forall_app _ (firstn 5 (sp sr (mkReceive "" false None))) [_]).
    split; [apply progress_shape_steps|].
    constructor; [apply progress_shape_failed|constructor].
Qed.

End OrchestratorFacts.


(** ** Inversion of runs *)

Section RunFacts.

Context {S A B : Type}.

Lemma bind_inv : forall (m : M S A) (k : A -> M S B) s o s',
  bind m k s = (o, s') ->
  (exists a s1, m s = (Ret a, s1) /\ k a s1 = (o, s'))
  \/ (exists e, m s = (Threw e, s') /\ o = Threw e).
Proof.
  intros m k s o s' H. unfold bind in H.
  destruct (m s) as [[a|e] s1].
  - left. now exists a, s1.
  - right. exists e. now injection H as <- <-.
Qed.

Lemma bind_ret_inv : forall (m : M S A) (k : A -> M S B) s b s',
  bind m k s = (Ret b, s') ->
  exists a s1, m s = (Ret a, s1) /\ k a s1 = (Ret b, s').
Proof.
  intros m k s b s' H. apply bind_inv in H.
  destruct H as [H|[e [_ H]]]; [exact H|discriminate H].
Qed.

Lemma lift_outcome_inv : forall (o o' : Outcome A) (s s' : S),
  lift_outcome o s = (o', s') -> o = o' /\ s = s'.
Proof. intros o o' s s' H. now injection H. Qed.

End RunFacts.

Lemma call_inv : forall {A} (ev : Event) (answer : nat -> Outcome A) w o w',
  call ev answer w = (o, w') ->
  o = answer (count_op (op_of ev) (calls w))
  /\ w' = mkWorld (now w) (calls w ++ [ev]).
Proof. intros A ev answer w o w' H. now injection H. Qed.

Lemma count_op_app : forall op l l',
  count_op op (l ++ l') = (count_op op l + count_op op l')%nat.
Proof.
  intros op l l'. unfold count_op. now rewrite filter_app, length_app.
Qed.

Lemma added_app : forall w l t, added w (mkWorld t (calls w ++ l)) = l.
Proof.
  intros w l t. unfold added. cbn [calls].
  rewrite skipn_app, skipn_all, Nat.sub_diag. reflexivity.
Qed.

(** ** The receivers *)

Section ReceiverFacts.

(** Neither receiver throws. *)
Lemma mobile_receiver_returns : forall env messageBytes attestation privateKey w,
  exists r w',
    Mobile.Receiver.receiveCCTPUSDC env messageBytes attestation privateKey w
    = (Ret r, w').
Proof.
  intros. unfold Mobile.Receiver.receiveCCTPUSDC, try_catch.
  destruct (Mobile.Receiver.receive_try _ _ _ _ _) as [[r|e] w'];
    do 2 eexists; reflexivity.
Qed.

Lemma script_receiver_returns : forall env params w,
  exists r w', Script.Receiver.receiveCCTPUSDC env params w = (Ret r, w').
Proof.
  intros. unfold Script.Receiver.receiveCCTPUSDC, try_catch.
  destruct (Script.Receiver.receive_try _ _ _) as [[r|e] w'];
    do 2 eexists; reflexivity.
Qed.

End ReceiverFacts.

(** ** The orchestrator with the services of the mobile runtime *)

Section MobileOrchestratorFacts.

Import Mobile.Config Mobile.Orchestrator.

Lemma executeCrossChain_success_witness :
  fst (executeCrossChain Stubs.happy Stubs.CREDENTIALS Stubs.session0)
  = Ret (mkResult true (Some "0xburn") (Some "0xreceive") (Some "1.0") None)
  /\ map summary (emitted (snd (executeCrossChain Stubs.happy Stubs.CREDENTIALS
                                  Stubs.session0)))
     = [(1, processing, Some 10); (1, completed, Some 33);
        (2, processing, Some 40); (2, completed, Some 66);
        (3, processing, Some 75); (3, completed, Some 100)].
Proof.
  unfold executeCrossChain.
  edestruct (executeCrossChain_success
               (initialize Stubs.happy Stubs.CREDENTIALS)
               (Mobile.Sender.executeFullCrossChain Stubs.happy)
               (Mobile.Attestation.getAttestationFromTransaction Stubs.happy)
               (Mobile.Receiver.receiveCCTPUSDC Stubs.happy)
               Stubs.CREDENTIALS Stubs.session0) as [H [H' _]].
  - lazy. reflexivity.
  - lazy. reflexivity.
  - lazy. reflexivity.
  - lazy. reflexivity.
  - reflexivity.
  - rewrite H. cbn [fst snd emitted Stubs.session0 app]. split.
    + reflexivity.
    + exact H'.
Defined.

(** C6. The orchestrator of the mobile runtime never throws. A run in
    which an error is thrown while the services are built or in step 1
    or 2 returns the failure whose [error] is the message of that
    error, verbatim. A run in which the receiver returns a failure
    returns the failure whose [error] is the fixed text "Aptos receive
    failed"; and that is how the receiver answers to every error of
    step 3, whatever its message. In both cases nothing else is in the
    result, and the same text is in the [details] of the last progress
    value. A result that is not a success comes from one of these two
    cases. *)
Theorem executeCrossChain_failure_message :
  forall (env : Env) (CREDENTIALS : Credentials) (s : Session),
    let run := executeCrossChain env CREDENTIALS s in
    let failure := fun msg : string =>
      mkResult false None None None (Some msg) in
    let threw :=
      threw_before_receive (initialize env CREDENTIALS)
        (Mobile.Sender.executeFullCrossChain env)
        (Mobile.Attestation.getAttestationFromTransaction env)
        CREDENTIALS s in
    let received :=
      receiver_gave (initialize env CREDENTIALS)
        (Mobile.Sender.executeFullCrossChain env)
        (Mobile.Attestation.getAttestationFromTransaction env)
        (Mobile.Receiver.receiveCCTPUSDC env) CREDENTIALS s in
    (exists r s', run = (Ret r, s'))
    /\ (forall e,
          threw e ->
          fst run = Ret (failure (message e))
          /\ exists before,
               emitted (snd run) = before ++ [failed_progress (message e)])
    /\ (forall receiveResult,
          received (Ret receiveResult) ->
          recv_success receiveResult = false ->
          fst run = Ret (failure "Aptos receive failed")
          /\ exists before,
               emitted (snd run)
               = before ++ [failed_progress "Aptos receive failed"])
    /\ (forall messageBytes attestation privateKey w e w',
          Mobile.Receiver.receive_try env messageBytes attestation privateKey w
          = (Threw e, w') ->
          Mobile.Receiver.receiveCCTPUSDC env messageBytes attestation
            privateKey w
          = (Ret (mkReceive "" false (Some "0")), w'))
    /\ (forall r,
          fst run = Ret r ->
          result_success r = false ->
          (exists e, threw e /\ r = failure (message e))
          \/ (exists receiveResult,
                received (Ret receiveResult)
                /\ recv_success receiveResult = false
                /\ r = failure "Aptos receive failed")).
Proof.
  intros env CREDENTIALS s run failure threw received.
  unfold run, executeCrossChain.
  split; [|split; [|split; [|split]]].
  - destruct (executeCrossChain_steps_failure
                (initialize env CREDENTIALS)
                (Mobile.Sender.executeFullCrossChain env)
                (Mobile.Attestation.getAttestationFromTransaction env)
                (Mobile.Receiver.receiveCCTPUSDC env) CREDENTIALS s)
      as (r & s' & Hrun & _).
    now exists r, s'.
  - intros e He.
    destruct (executeCrossChain_steps_threw _ _ _
                (Mobile.Receiver.receiveCCTPUSDC env) _ _ _ He)
      as (s' & Hrun & Hlast).
    rewrite Hrun. now split.
  - intros rr Hrr Hok.
    destruct (executeCrossChain_steps_receive_failed _ _ _ _ _ _ _ Hrr Hok)
      as (s' & Hrun & Hlast).
    rewrite Hrun. now split.
  - intros mb att pk w e w' H.
    unfold Mobile.Receiver.receiveCCTPUSDC, try_catch. now rewrite H.
  - intros r Hrun Hr.
    destruct (executeCrossChain_steps_failure
                (initialize env CREDENTIALS)
                (Mobile.Sender.executeFullCrossChain env)
                (Mobile.Attestation.getAttestationFromTransaction env)
                (Mobile.Receiver.receiveCCTPUSDC env) CREDENTIALS s)
      as (r' & s' & Hrun' & Hfail).
    rewrite Hrun' in Hrun. cbn [fst] in Hrun. injection Hrun as ->.
    destruct (Hfail Hr) as (msg & He & _ & Hwhy).
    destruct Hwhy as [(e & Hthrew & ->)|[(e & Hthrew & _)|(rr & Hrr & Hok & ->)]].
    + left. exists e. split; [exact Hthrew|].
      destruct (executeCrossChain_steps_threw _ _ _
                  (Mobile.Receiver.receiveCCTPUSDC env) _ _ _ Hthrew)
        as (s'' & Hrun'' & _).
      rewrite Hrun'' in Hrun'. now injection Hrun' as <- _.
    + exfalso.
      destruct Hthrew as (w0 & sr & w1 & att & w2 & w3 & _ & _ & _ & H3).
      destruct (mobile_receiver_returns env (messageBytes att) (attestation att)
                  (APTOS_PRIVATE_KEY CREDENTIALS) w2) as (r' & w' & H').
      rewrite H' in H3. discriminate H3.
    + right. exists rr. split; [exact Hrr|]. split; [exact Hok|].
      destruct (executeCrossChain_steps_receive_failed _ _ _ _ _ _ _ Hrr Hok)
        as (s'' & Hrun'' & _).
      rewrite Hrun'' in Hrun'. now injection Hrun' as <- _.
Qed.

Lemma executeCrossChain_failure_message_witness :
  fst (executeCrossChain Stubs.flaky_decimals Stubs.CREDENTIALS Stubs.session0)
  = Ret (mkResult false None None None (Some "missing response"))
  /\ fst (executeCrossChain Stubs.reverted Stubs.CREDENTIALS Stubs.session0)
     = Ret (mkResult false None None None (Some "Aptos receive failed")).
Proof.
  split.
  - destruct (executeCrossChain_failure_message Stubs.flaky_decimals
                Stubs.CREDENTIALS Stubs.session0) as (_ & H & _).
    refine (proj1 (H (mkError "missing response" (Some "NETWORK_ERROR")) _)).
    right. left. do 2 eexists. split; vm_compute; reflexivity.
  - destruct (executeCrossChain_failure_message Stubs.reverted
                Stubs.CREDENTIALS Stubs.session0) as (_ & _ & H & H' & _).
    refine (proj1 (H (mkReceive "" false (Some "0")) _ eq_refl)).
    do 6 eexists. split; [vm_compute; reflexivity|].
    split; [vm_compute; reflexivity|]. split; [vm_compute; reflexivity|].
    refine (H' _ _ _ _
              (Error "Transaction failed: Move abort in 0x1::message_transmitter")
              _ _).
    vm_compute. reflexivity.
Defined.

(** When the destination chain aborts the receive transaction, the
    error thrown inside the receiver says so, yet the orchestrator
    reports "Aptos receive failed": not the thrown message, and not
    "Destination transaction reverted". *)
Lemma executeCrossChain_revert_message_replaced :
  fst (Mobile.Receiver.receive_try Stubs.reverted "0xmessage" "0xABCDEF"
         "aptos-key" (before_receive Stubs.reverted))
  = Threw (Error "Transaction failed: Move abort in 0x1::message_transmitter")
  /\ (exists r,
        fst (executeCrossChain Stubs.reverted Stubs.CREDENTIALS Stubs.session0)
        = Ret r
        /\ result_success r = false
        /\ error r = Some "Aptos receive failed"
        /\ error r <> Some "Transaction failed: Move abort in 0x1::message_transmitter"
        /\ error r <> Some "Destination transaction reverted").
Proof.
  split; [vm_compute; reflexivity|].
  eexists. split; [vm_compute; reflexivity|].
  cbn. repeat split; discriminate.
Qed.

(** C9. The destination chain aborts the receive transaction. The
    callback receives the five values of the steps on the way, each with
    a step between 1 and 3, and then the value of the failure, whose
    [step] is 0: outside the steps 1, 2 and 3 that the comment of the
    field of [CrossChainProgress] names. Every value has [totalSteps]
    3. *)
Theorem executeCrossChain_failed_step_zero :
  let run :=
    executeCrossChain Stubs.reverted Stubs.CREDENTIALS Stubs.session0 in
  map summary (emitted (snd run))
  = [(1, processing, Some 10); (1, completed, Some 33);
     (2, processing, Some 40); (2, completed, Some 66);
     (3, processing, Some 75); (0, failed, Some 0)]
  /\ map totalSteps (emitted (snd run)) = [3; 3; 3; 3; 3; 3]
  /\ (exists p,
        last (emitted (snd run)) (failed_progress "") = p
        /\ progress_status p = failed
        /\ step p = 0
        /\ ~ (1 <= step p <= 3)).
Proof.
  split; [vm_compute; reflexivity|]. split; [vm_compute; reflexivity|].
  eexists. split; [vm_compute; reflexivity|].
  cbn. repeat split. lia.
Qed.

End MobileOrchestratorFacts.

(** ** The amount that a receive reports *)

Section ReceivedAmount.

(** What a successful receive of the mobile runtime went through: the
    balance read before, the transaction built, submitted and confirmed,
    the balance read after, and the difference of the two reported. *)
Lemma mobile_receive_reports_delta :
  forall env messageBytes attestation privateKey w r w',
    Mobile.Receiver.receiveCCTPUSDC env messageBytes attestation privateKey w
    = (Ret r, w') ->
    recv_success r = true ->
    exists accountAddress balanceBefore w1 bytecode hash w2 balanceAfter
           before after,
      account_fromPrivateKey env privateKey = Ret accountAddress
      /\ Mobile.Receiver.checkUSDCBalance env accountAddress w
         = (Ret balanceBefore, w1)
      /\ w2 = mkWorld (now w1)
                (calls w1
                 ++ [EvBuild accountAddress bytecode
                       [hexToBytes messageBytes; hexToBytes attestation];
                     EvSignAndSubmit accountAddress;
                     EvWaitForTransaction hash])
      /\ Mobile.Receiver.checkUSDCBalance env accountAddress w2
         = (Ret balanceAfter, w')
      /\ BigInt balanceBefore = Ret before
      /\ BigInt balanceAfter = Ret after
      /\ r = mkReceive hash true (Some (Z_toString (after - before)))
      /\ exists txnResult,
           aptos_waitForTransaction env
             (count_op OpWaitForTransaction
                (calls w1
                 ++ [EvBuild accountAddress bytecode
                       [hexToBytes messageBytes; hexToBytes attestation];
                     EvSignAndSubmit accountAddress])) hash
           = Ret txnResult
           /\ success txnResult = true.
Proof.
  intros env mb att pk w r w' H Hok.
  unfold Mobile.Receiver.receiveCCTPUSDC, try_catch in H.
  destruct (Mobile.Receiver.receive_try env mb att pk w) as [[r0|e] w0] eqn:E.
  2:{ injection H as <- <-. discriminate Hok. }
  injection H as <- <-. clear Hok.
  unfold Mobile.Receiver.receive_try in E.
  destruct (negb (truthy mb) || negb (startsWith mb "0x")); [discriminate E|].
  destruct (negb (truthy att) || negb (startsWith att "0x")); [discriminate E|].
  apply bind_ret_inv in E as (addr & w1 & E1 & E).
  apply lift_outcome_inv in E1 as [E1 <-].
  apply bind_ret_inv in E as (bb & w2 & E2 & E).
  apply bind_ret_inv in E as (bytecode & w3 & E3 & E).
  apply lift_outcome_inv in E3 as [E3 <-].
  apply bind_ret_inv in E as (u & w4 & E4 & E).
  apply call_inv in E4 as [_ ->].
  apply bind_ret_inv in E as (hash & w5 & E5 & E).
  apply call_inv in E5 as [_ ->]. cbn [now calls] in E.
  apply bind_ret_inv in E as (txn & w6 & E6 & E).
  apply call_inv in E6 as [A6 ->]. cbn [op_of now calls] in E, A6.
  destruct (negb (success txn)) eqn:St; [discriminate E|].
  apply negb_false_iff in St.
  apply bind_ret_inv in E as (ba & w7 & E7 & E).
  apply bind_ret_inv in E as (after & w8 & E8 & E).
  apply lift_outcome_inv in E8 as [E8 <-].
  apply bind_ret_inv in E as (before & w9 & E9 & E).
  apply lift_outcome_inv in E9 as [E9 <-].
  injection E as <- <-.
  repeat rewrite <- app_assoc in E7. cbn [app] in E7.
  repeat rewrite <- app_assoc in A6. cbn [app] in A6.
  do 9 eexists.
  split; [exact E1|]. split; [exact E2|]. split; [reflexivity|].
  split; [exact E7|]. split; [exact E9|]. split; [exact E8|].
  split; [reflexivity|]. exists txn. split; [now symmetry|exact St].
Qed.

(** The same for the script runtime, where the bytecode is read from a
    file between the first balance and the transaction. *)
Lemma script_receive_reports_delta :
  forall env params w r w',
    Script.Receiver.receiveCCTPUSDC env params w = (Ret r, w') ->
    recv_success r = true ->
    exists accountAddress balanceBefore w1 bytecode hash w2 balanceAfter
           before after,
      account_fromPrivateKey env
        (opt_string (Script.Receiver.recipientPrivateKey params))
      = Ret accountAddress
      /\ Script.Receiver.checkUSDCBalance env accountAddress w
         = (Ret balanceBefore, w1)
      /\ w2 = mkWorld (now w1)
                (calls w1
                 ++ [EvReadFile Script.Receiver.scriptPath;
                     EvBuild accountAddress bytecode
                       [hexToBytes (Script.Receiver.messageBytes params);
                        hexToBytes (Script.Receiver.attestation params)];
                     EvSignAndSubmit accountAddress;
                     EvWaitForTransaction hash])
      /\ Script.Receiver.checkUSDCBalance env accountAddress w2
         = (Ret balanceAfter, w')
      /\ BigInt balanceBefore = Ret before
      /\ BigInt balanceAfter = Ret after
      /\ r = mkReceive hash true (Some (Z_toString (after - before)))
      /\ exists txnResult,
           aptos_waitForTransaction env
             (count_op OpWaitForTransaction
                (calls w1
                 ++ [EvReadFile Script.Receiver.scriptPath;
                     EvBuild accountAddress bytecode
                       [hexToBytes (Script.Receiver.messageBytes params);
                        hexToBytes (Script.Receiver.attestation params)];
                     EvSignAndSubmit accountAddress])) hash
           = Ret txnResult
           /\ success txnResult = true.
Proof.
  intros env params w r w' H Hok.
  unfold Script.Receiver.receiveCCTPUSDC, try_catch in H.
  destruct (Script.Receiver.receive_try env params w) as [[r0|e] w0] eqn:E.
  2:{ injection H as <- <-. discriminate Hok. }
  injection H as <- <-. clear Hok.
  unfold Script.Receiver.receive_try in E.
  destruct (negb (Script.Receiver.validateMessageBytes _)); [discriminate E|].
  destruct (negb (Script.Receiver.validateAttestation _)); [discriminate E|].
  destruct (negb (truthy _)); [discriminate E|].
  apply bind_ret_inv in E as (addr & w1 & E1 & E).
  apply lift_outcome_inv in E1 as [E1 <-].
  apply bind_ret_inv in E as (bb & w2 & E2 & E).
  apply bind_ret_inv in E as (bytecode & w3 & E3 & E).
  apply call_inv in E3 as [_ ->].
  apply bind_ret_inv in E as (u & w4 & E4 & E).
  apply call_inv in E4 as [_ ->]. cbn [now calls] in E.
  apply bind_ret_inv in E as (hash & w5 & E5 & E).
  apply call_inv in E5 as [_ ->]. cbn [now calls] in E.
  apply bind_ret_inv in E as (txn & w6 & E6 & E).
  apply call_inv in E6 as [A6 ->]. cbn [op_of now calls] in E, A6.
  destruct (negb (success txn)) eqn:St; [discriminate E|].
  apply negb_false_iff in St.
  apply bind_ret_inv in E as (ba & w7 & E7 & E).
  apply bind_ret_inv in E as (after & w8 & E8 & E).
  apply lift_outcome_inv in E8 as [E8 <-].
  apply bind_ret_inv in E as (before & w9 & E9 & E).
  apply lift_outcome_inv in E9 as [E9 <-].
  injection E as <- <-.
  repeat rewrite <- app_assoc in E7. cbn [app] in E7.
  repeat rewrite <- app_assoc in A6. cbn [app] in A6.
  do 9 eexists.
  split; [exact E1|]. split; [exact E2|]. split; [reflexivity|].
  split; [exact E7|]. split; [exact E9|]. split; [exact E8|].
  split; [reflexivity|]. exists txn. split; [now symmetry|exact St].
Qed.

Example receive_reports_delta_after_fee :
  fst (Mobile.Receiver.receiveCCTPUSDC Stubs.fee_deducted "0xmessage" "0xABCDEF"
         "aptos-key" Stubs.start)
  = Ret (mkReceive "0xreceive" true (Some "2999000"))
  /\ fst (Script.Receiver.receiveCCTPUSDC Stubs.fee_deducted
            (Script.Receiver.mkReceiveParams "0xmessage0123" "0xABCDEF0123"
               (Some "aptos-key")) Stubs.start)
     = Ret (mkReceive "0xreceive" true (Some "2999000")).
Proof. split; vm_compute; reflexivity. Qed.

(** C5. The account holds 1000000 units when the receive starts, the
    receive transaction is confirmed, and the lookup of the balance that
    follows fails on the network. [checkUSDCBalance] answers ["0"] in
    place of the balance that it could not read, and both receivers
    report a success with the amount -1000000: not the balance after the
    transaction minus the balance before it, which a receive does not
    lower. *)
Theorem receive_reports_lost_balance :
  let env := Stubs.lost_lookup in
  let mobile :=
    Mobile.Receiver.receiveCCTPUSDC env "0xmessage" "0xABCDEF" "aptos-key"
      Stubs.start in
  let script :=
    Script.Receiver.receiveCCTPUSDC env
      (Script.Receiver.mkReceiveParams "0xmessage0123" "0xABCDEF0123"
         (Some "aptos-key")) Stubs.start in
  (aptos_getAccountResource env 0 "0xaptos-account"
     Mobile.Receiver.FungibleStore
   = Ret (mkResource (Some "1000000") None)
   /\ aptos_getAccountResource env 1 "0xaptos-account"
        Mobile.Receiver.FungibleStore
      = Threw (Error "Network request failed")
   /\ aptos_waitForTransaction env 0 "0xreceive"
      = Ret (mkTxnResult true "Executed successfully"))
  /\ (fst mobile = Ret (mkReceive "0xreceive" true (Some "-1000000"))
      /\ map op_of (calls (snd mobile))
         = [OpGetAccountResource; OpBuild; OpSignAndSubmit;
            OpWaitForTransaction; OpGetAccountResource])
  /\ (fst script = Ret (mkReceive "0xreceive" true (Some "-1000000"))
      /\ map op_of (calls (snd script))
         = [OpGetAccountResource; OpReadFile; OpBuild; OpSignAndSubmit;
            OpWaitForTransaction; OpGetAccountResource;
            OpGetAccountResource]).
Proof.
  split; [repeat split|]. split; split; vm_compute; reflexivity.
Qed.

End ReceivedAmount.

(** ** Polling the attestation authority *)

Section PollingFacts.

Variable env : Env.
Variable cfg : CircleApi.
Variable messageHash : string.

Lemma fetch_run : forall w,
  fetch env (attestation_url cfg messageHash) w
  = (fetch_response env (count_op OpFetch (calls w))
       (attestation_url cfg messageHash),
     after_fetch env cfg messageHash w).
Proof. reflexivity. Qed.

Lemma sleep_run : forall w,
  sleep (pollInterval cfg) w = (Ret tt, after_sleep cfg w).
Proof. reflexivity. Qed.

Lemma ok_404 : forall r, status r = 404 -> ok r = false.
Proof. intros r H. unfold ok. now rewrite H. Qed.

Lemma count_fetch_after_404 : forall w,
  count_op OpFetch (calls (after_404 env cfg messageHash w))
  = S (count_op OpFetch (calls w)).
Proof.
  intros w. unfold after_404, after_sleep, after_fetch. cbn [calls].
  rewrite !count_op_app. cbn. lia.
Qed.

Lemma count_fetch_after_404s : forall k w,
  count_op OpFetch (calls (after_404s env cfg messageHash k w))
  = (count_op OpFetch (calls w) + k)%nat.
Proof.
  induction k as [|k IH]; intros w; cbn [after_404s].
  - lia.
  - rewrite IH, count_fetch_after_404. lia.
Qed.

Lemma calls_after_404s : forall k w,
  calls (after_404s env cfg messageHash k w)
  = calls w
    ++ concat (repeat [EvFetch (attestation_url cfg messageHash);
                       EvSleep (pollInterval cfg)] k).
Proof.
  induction k as [|k IH]; intros w; cbn [after_404s repeat concat].
  - now rewrite app_nil_r.
  - rewrite IH. unfold after_404, after_sleep, after_fetch. cbn [calls].
    now rewrite <- !app_assoc.
Qed.

(** *** The mobile runtime *)

Lemma mobile_poll_try_404 : forall retries w,
  answers_404 env cfg messageHash (count_op OpFetch (calls w)) ->
  Mobile.Attestation.poll_try env cfg messageHash retries w
  = (Ret (Continue (retries + 1)%nat), after_404 env cfg messageHash w).
Proof.
  intros retries w (r & Hr & Hs).
  unfold Mobile.Attestation.poll_try, bind.
  rewrite fetch_run, Hr, (ok_404 r Hs), Hs. cbn [negb Z.eqb Pos.eqb].
  now rewrite sleep_run.
Qed.

Lemma mobile_poll_try_complete : forall retries w data,
  answers_complete env cfg messageHash (count_op OpFetch (calls w)) data ->
  Mobile.Attestation.poll_try env cfg messageHash retries w
  = (Ret (Return (complete_data messageHash data)),
     after_fetch env cfg messageHash w).
Proof.
  intros retries w data (r & Hr & Hok & Hj & Hc).
  unfold Mobile.Attestation.poll_try, bind.
  rewrite fetch_run, Hr, Hok. cbn [negb]. unfold lift_outcome.
  now rewrite Hj, Hc.
Qed.

Lemma mobile_poll_loop_deadline : forall startTime n retries w,
  now w - startTime > maxWaitTime cfg ->
  Mobile.Attestation.poll_loop env cfg messageHash startTime (S n) retries w
  = (Threw (timeout_error (now w - startTime)), w).
Proof.
  intros startTime n retries w H. cbn [Mobile.Attestation.poll_loop].
  unfold bind at 1. unfold Date_now.
  apply Z.gtb_gt in H. now rewrite H.
Qed.

Lemma mobile_poll_loop_404 : forall startTime n retries w,
  now w - startTime <= maxWaitTime cfg ->
  answers_404 env cfg messageHash (count_op OpFetch (calls w)) ->
  Mobile.Attestation.poll_loop env cfg messageHash startTime (S n) retries w
  = Mobile.Attestation.poll_loop env cfg messageHash startTime n
      (retries + 1) (after_404 env cfg messageHash w).
Proof.
  intros startTime n retries w H H404. cbn [Mobile.Attestation.poll_loop].
  unfold bind at 1. unfold Date_now.
  assert (G : (now w - startTime >? maxWaitTime cfg) = false)
    by (rewrite Z.gtb_ltb; apply Z.ltb_ge; exact H).
  rewrite G. unfold bind at 1. unfold try_catch.
  now rewrite (mobile_poll_try_404 retries w H404).
Qed.

Lemma mobile_poll_loop_complete : forall startTime n retries w data,
  now w - startTime <= maxWaitTime cfg ->
  answers_complete env cfg messageHash (count_op OpFetch (calls w)) data ->
  Mobile.Attestation.poll_loop env cfg messageHash startTime (S n) retries w
  = (Ret (complete_data messageHash data), after_fetch env cfg messageHash w).
Proof.
  intros startTime n retries w data H Hc. cbn [Mobile.Attestation.poll_loop].
  unfold bind at 1. unfold Date_now.
  assert (G : (now w - startTime >? maxWaitTime cfg) = false)
    by (rewrite Z.gtb_ltb; apply Z.ltb_ge; exact H).
  rewrite G. unfold bind at 1. unfold try_catch.
  now rewrite (mobile_poll_try_complete retries w data Hc).
Qed.

(** Against an authority that only answers 404, the loop of the mobile
    runtime runs [k] full iterations and stops at the first iteration
    that finds the deadline passed, or after [n] iterations when none
    does. *)
Lemma mobile_poll_loop_always_404 :
  (forall k, answers_404 env cfg messageHash k) ->
  forall startTime n retries w,
  exists k,
    (k <= n)%nat
    /\ snd (Mobile.Attestation.poll_loop env cfg messageHash startTime n retries w)
       = after_404s env cfg messageHash k w
    /\ (forall j, (j < k)%nat ->
          now (after_404s env cfg messageHash j w) - startTime <= maxWaitTime cfg)
    /\ ((k < n)%nat
        /\ now (after_404s env cfg messageHash k w) - startTime > maxWaitTime cfg
        /\ fst (Mobile.Attestation.poll_loop env cfg messageHash startTime n
                  retries w)
           = Threw (timeout_error
                      (now (after_404s env cfg messageHash k w) - startTime))
        \/ k = n
           /\ fst (Mobile.Attestation.poll_loop env cfg messageHash startTime n
                     retries w)
              = Threw retries_error).
Proof.
  intros H404 startTime n. induction n as [|n IH]; intros retries w.
  - exists 0%nat. split; [lia|]. split; [reflexivity|].
    split; [intros j Hj; lia|]. right. now split.
  - destruct (Z_gt_le_dec (now w - startTime) (maxWaitTime cfg)) as [Hgt|Hle].
    + exists 0%nat. rewrite (mobile_poll_loop_deadline _ _ _ _ Hgt).
      split; [lia|]. split; [reflexivity|]. split; [intros j Hj; lia|].
      left. split; [lia|]. now split.
    + rewrite (mobile_poll_loop_404 _ _ _ _ Hle (H404 _)).
      destruct (IH (retries + 1)%nat (after_404 env cfg messageHash w))
        as (k & Hk & Hw & Hbefore & Hend).
      exists (S k). cbn [after_404s].
      split; [lia|]. split; [exact Hw|]. split.
      * intros [|j] Hj; cbn [after_404s]; [exact Hle|]. apply Hbefore. lia.
      * destruct Hend as [(Hlt & Hover & Hres)|(-> & Hres)].
        -- left. split; [lia|]. now split.
        -- right. now split.
Qed.

(** *** The measure of the loops

    An iteration that goes on does so with [retries + 1], in both
    runtimes and on every path: the number of iterations left is
    [maxRetries - retries]. *)

Lemma sleep_continue : forall retries w (r' : nat) w',
  (sleep (pollInterval cfg) ;;
   ret (Continue (A := AttestationData) (retries + 1)%nat)) w
  = (Ret (Continue r'), w') ->
  r' = (retries + 1)%nat.
Proof. intros retries w r' w' H. now injection H. Qed.

Lemma mobile_poll_continue : forall retries w r' w',
  try_catch (Mobile.Attestation.poll_try env cfg messageHash retries)
    (Mobile.Attestation.poll_catch cfg retries) w
  = (Ret (Continue r'), w') ->
  r' = (retries + 1)%nat.
Proof.
  intros retries w r' w' H. unfold try_catch in H.
  destruct (Mobile.Attestation.poll_try env cfg messageHash retries w)
    as [[st|e] w1] eqn:E.
  - injection H as -> <-. unfold Mobile.Attestation.poll_try in E.
    apply bind_ret_inv in E as (r & w2 & _ & E).
    destruct (negb (ok r)).
    + destruct (status r =? 404); [|discriminate E].
      exact (sleep_continue _ _ _ _ E).
    + apply bind_ret_inv in E as (data & w3 & _ & E).
      destruct (is_complete data); [discriminate E|].
      exact (sleep_continue _ _ _ _ E).
  - unfold Mobile.Attestation.poll_catch in H.
    destruct (retries =? maxRetries cfg - 1)%nat; [discriminate H|].
    exact (sleep_continue _ _ _ _ H).
Qed.

Lemma script_poll_continue :
  forall txHash provider startTime retries w r' w',
  try_catch
    (Script.Attestation.poll_try env cfg messageHash txHash provider startTime
       retries)
    (Script.Attestation.poll_catch cfg retries) w
  = (Ret (Continue r'), w') ->
  r' = (retries + 1)%nat.
Proof.
  intros txHash provider startTime retries w r' w' H. unfold try_catch in H.
  destruct (Script.Attestation.poll_try env cfg messageHash txHash provider
              startTime retries w) as [[st|e] w1] eqn:E.
  - injection H as -> <-. unfold Script.Attestation.poll_try in E.
    apply bind_ret_inv in E as (t & w2 & _ & E).
    destruct (t - startTime >? maxWaitTime cfg); [discriminate E|].
    apply bind_ret_inv in E as (r & w3 & _ & E).
    destruct (negb (ok r)).
    + destruct (status r =? 404); [|discriminate E].
      exact (sleep_continue _ _ _ _ E).
    + apply bind_ret_inv in E as (data & w4 & _ & E).
      destruct (is_complete data).
      * apply bind_ret_inv in E as (mb & w5 & _ & E). discriminate E.
      * destruct (match body_status data with
                  | Some st => str_eqb st "failed"
                  | None => false
                  end); [discriminate E|].
        exact (sleep_continue _ _ _ _ E).
  - unfold Script.Attestation.poll_catch in H.
    destruct (retries =? maxRetries cfg - 1)%nat; [discriminate H|].
    exact (sleep_continue _ _ _ _ H).
Qed.

(** *** The script runtime *)

Lemma script_poll_try_404 : forall txHash provider startTime retries w,
  now w - startTime <= maxWaitTime cfg ->
  answers_404 env cfg messageHash (count_op OpFetch (calls w)) ->
  Script.Attestation.poll_try env cfg messageHash txHash provider startTime
    retries w
  = (Ret (Continue (retries + 1)%nat), after_404 env cfg messageHash w).
Proof.
  intros txHash provider startTime retries w H (r & Hr & Hs).
  unfold Script.Attestation.poll_try. unfold bind at 1. unfold Date_now.
  assert (G : (now w - startTime >? maxWaitTime cfg) = false)
    by (rewrite Z.gtb_ltb; apply Z.ltb_ge; exact H).
  rewrite G. unfold bind at 1.
  rewrite fetch_run, Hr, (ok_404 r Hs), Hs. cbn [negb Z.eqb Pos.eqb].
  unfold bind. now rewrite sleep_run.
Qed.

Lemma script_poll_try_complete : forall startTime retries w data,
  now w - startTime <= maxWaitTime cfg ->
  answers_complete env cfg messageHash (count_op OpFetch (calls w)) data ->
  Script.Attestation.poll_try env cfg messageHash None false startTime retries w
  = (Ret (Return (complete_data messageHash data)),
     after_fetch env cfg messageHash w).
Proof.
  intros startTime retries w data H (r & Hr & Hok & Hj & Hc).
  unfold Script.Attestation.poll_try. unfold bind at 1. unfold Date_now.
  assert (G : (now w - startTime >? maxWaitTime cfg) = false)
    by (rewrite Z.gtb_ltb; apply Z.ltb_ge; exact H).
  rewrite G. unfold bind at 1.
  rewrite fetch_run, Hr, Hok. cbn [negb]. unfold bind at 1, lift_outcome.
  rewrite Hj, Hc. unfold Script.Attestation.complete_messageBytes.
  cbn [opt_string truthy andb]. rewrite andb_false_r. reflexivity.
Qed.

Lemma script_poll_try_deadline : forall txHash provider startTime retries w,
  now w - startTime > maxWaitTime cfg ->
  Script.Attestation.poll_try env cfg messageHash txHash provider startTime
    retries w
  = (Threw (Error "Getting attestation timeout"), w).
Proof.
  intros txHash provider startTime retries w H.
  unfold Script.Attestation.poll_try. unfold bind at 1. unfold Date_now.
  apply Z.gtb_gt in H. now rewrite H.
Qed.

Lemma script_poll_loop_404 : forall txHash provider startTime n retries w,
  now w - startTime <= maxWaitTime cfg ->
  answers_404 env cfg messageHash (count_op OpFetch (calls w)) ->
  Script.Attestation.poll_loop env cfg messageHash txHash provider startTime
    (S n) retries w
  = Script.Attestation.poll_loop env cfg messageHash txHash provider startTime
      n (retries + 1) (after_404 env cfg messageHash w).
Proof.
  intros txHash provider startTime n retries w H H404.
  cbn [Script.Attestation.poll_loop]. unfold bind at 1. unfold try_catch.
  now rewrite (script_poll_try_404 txHash provider startTime retries w H H404).
Qed.

Lemma script_poll_loop_complete : forall startTime n retries w data,
  now w - startTime <= maxWaitTime cfg ->
  answers_complete env cfg messageHash (count_op OpFetch (calls w)) data ->
  Script.Attestation.poll_loop env cfg messageHash None false startTime
    (S n) retries w
  = (Ret (complete_data messageHash data), after_fetch env cfg messageHash w).
Proof.
  intros startTime n retries w data H Hc.
  cbn [Script.Attestation.poll_loop]. unfold bind at 1. unfold try_catch.
  now rewrite (script_poll_try_complete startTime retries w data H Hc).
Qed.

(** In the script runtime the deadline is tested inside the [try]
    block: its own [catch] takes the timeout error, and unless this is
    the last iteration the loop sleeps and goes on. *)
Lemma script_poll_loop_past_deadline :
  forall txHash provider startTime n retries w,
  now w - startTime > maxWaitTime cfg ->
  retries <> (maxRetries cfg - 1)%nat ->
  Script.Attestation.poll_loop env cfg messageHash txHash provider startTime
    (S n) retries w
  = Script.Attestation.poll_loop env cfg messageHash txHash provider startTime
      n (retries + 1) (after_sleep cfg w).
Proof.
  intros txHash provider startTime n retries w H Hr.
  cbn [Script.Attestation.poll_loop]. unfold bind at 1. unfold try_catch.
  rewrite (script_poll_try_deadline txHash provider startTime retries w H).
  unfold Script.Attestation.poll_catch.
  apply Nat.eqb_neq in Hr. rewrite Hr.
  unfold bind. now rewrite sleep_run.
Qed.

Lemma script_poll_loop_last : forall txHash provider startTime n retries w,
  now w - startTime > maxWaitTime cfg ->
  retries = (maxRetries cfg - 1)%nat ->
  Script.Attestation.poll_loop env cfg messageHash txHash provider startTime
    (S n) retries w
  = (Threw (Error "Getting attestation timeout"), w).
Proof.
  intros txHash provider startTime n retries w H Hr.
  cbn [Script.Attestation.poll_loop]. unfold bind at 1. unfold try_catch.
  rewrite (script_poll_try_deadline txHash provider startTime retries w H).
  unfold Script.Attestation.poll_catch.
  apply Nat.eqb_eq in Hr. now rewrite Hr.
Qed.

(** Once the deadline has passed with [n] iterations left after the
    current one, the script runtime sleeps [n] more times before it
    throws the timeout error. *)
Lemma script_poll_loop_sleeps_on :
  0 <= pollInterval cfg ->
  forall txHash provider startTime n retries w,
  (retries + S n = maxRetries cfg)%nat ->
  now w - startTime > maxWaitTime cfg ->
  Script.Attestation.poll_loop env cfg messageHash txHash provider startTime
    (S n) retries w
  = (Threw (Error "Getting attestation timeout"), after_sleeps cfg n w).
Proof.
  intros Hpi txHash provider startTime n.
  induction n as [|n IH]; intros retries w Hn H.
  - apply script_poll_loop_last; [exact H|lia].
  - rewrite script_poll_loop_past_deadline; [|exact H|lia].
    cbn [after_sleeps]. apply IH; [lia|].
    unfold after_sleep. cbn [now]. lia.
Qed.

End PollingFacts.

Section FourthQuery.

Variable env : Env.
Variable cfg : CircleApi.
Variable messageHash : string.
Variable w : World.
Variable data : AttestationBody.

Let c : nat := count_op OpFetch (calls w).
Let l : nat -> Z := fetch_latency env.
Let url : string := attestation_url cfg messageHash.
Let pi : Z := pollInterval cfg.

Hypothesis first_404 : answers_404 env cfg messageHash c.
Hypothesis second_404 : answers_404 env cfg messageHash (c + 1).
Hypothesis third_404 : answers_404 env cfg messageHash (c + 2).
Hypothesis fourth_complete : answers_complete env cfg messageHash (c + 3) data.
Hypothesis retries_left : (3 < maxRetries cfg)%nat.
Hypothesis interval_nonneg : 0 <= pi.
Hypothesis latency_nonneg :
  0 <= l c /\ 0 <= l (c + 1)%nat /\ 0 <= l (c + 2)%nat.
Hypothesis within_deadline :
  l c + l (c + 1)%nat + l (c + 2)%nat + 3 * pi <= maxWaitTime cfg.

Let w1 : World := after_404 env cfg messageHash w.
Let w2 : World := after_404 env cfg messageHash w1.
Let w3 : World := after_404 env cfg messageHash w2.

Lemma fourth_query_counts :
  count_op OpFetch (calls w1) = (c + 1)%nat
  /\ count_op OpFetch (calls w2) = (c + 2)%nat
  /\ count_op OpFetch (calls w3) = (c + 3)%nat.
Proof.
  unfold w3, w2, w1. rewrite !count_fetch_after_404. fold c. lia.
Qed.

Lemma fourth_query_times :
  now w1 = now w + l c + pi
  /\ now w2 = now w + l c + l (c + 1)%nat + 2 * pi
  /\ now w3 = now w + l c + l (c + 1)%nat + l (c + 2)%nat + 3 * pi.
Proof.
  destruct fourth_query_counts as (C1 & C2 & _).
  assert (T1 : now w1 = now w + l c + pi) by reflexivity.
  assert (T2 : now w2 = now w1 + l (c + 1)%nat + pi).
  { unfold w2, after_404, after_sleep, after_fetch. cbn [now calls].
    now rewrite C1. }
  assert (T3 : now w3 = now w2 + l (c + 2)%nat + pi).
  { unfold w3, after_404, after_sleep, after_fetch. cbn [now calls].
    now rewrite C2. }
  lia.
Qed.

Lemma fourth_query_world :
  after_fetch env cfg messageHash w3 = after_four_queries env cfg messageHash w.
Proof.
  destruct fourth_query_counts as (_ & _ & C3).
  destruct fourth_query_times as (_ & _ & T3).
  unfold after_fetch, after_four_queries. fold c l url pi.
  rewrite C3, T3. f_equal.
  - fold l. lia.
  - unfold w3, w2, w1, after_404, after_sleep, after_fetch. cbn [calls].
    fold url pi. now rewrite <- !app_assoc.
Qed.

Lemma mobile_complete_on_fourth :
  Mobile.Attestation.getAttestation_with cfg env messageHash w
  = (Ret (complete_data messageHash data),
     after_four_queries env cfg messageHash w).
Proof.
  destruct fourth_query_counts as (C1 & C2 & C3).
  destruct fourth_query_times as (T1 & T2 & T3).
  destruct latency_nonneg as (L0 & L1 & L2).
  unfold Mobile.Attestation.getAttestation_with, bind, Date_now.
  assert (Hmax : exists n, maxRetries cfg = S (S (S (S n))))
    by (exists (maxRetries cfg - 4)%nat; lia).
  destruct Hmax as [n ->].
  rewrite mobile_poll_loop_404; [|lia|exact first_404].
  fold w1. rewrite mobile_poll_loop_404; [|lia|now rewrite C1].
  fold w2. rewrite mobile_poll_loop_404; [|lia|now rewrite C2].
  fold w3. rewrite (mobile_poll_loop_complete _ _ _ _ _ _ _ data);
    [|lia|now rewrite C3].
  now rewrite fourth_query_world.
Qed.

Lemma script_complete_on_fourth :
  Script.Attestation.getAttestation_with cfg env messageHash None false w
  = (Ret (complete_data messageHash data),
     after_four_queries env cfg messageHash w).
Proof.
  destruct fourth_query_counts as (C1 & C2 & C3).
  destruct fourth_query_times as (T1 & T2 & T3).
  destruct latency_nonneg as (L0 & L1 & L2).
  unfold Script.Attestation.getAttestation_with, bind, Date_now.
  assert (Hmax : exists n, maxRetries cfg = S (S (S (S n))))
    by (exists (maxRetries cfg - 4)%nat; lia).
  destruct Hmax as [n ->].
  rewrite script_poll_loop_404; [|lia|exact first_404].
  fold w1. rewrite script_poll_loop_404; [|lia|now rewrite C1].
  fold w2. rewrite script_poll_loop_404; [|lia|now rewrite C2].
  fold w3. rewrite (script_poll_loop_complete _ _ _ _ _ _ _ data);
    [|lia|now rewrite C3].
  now rewrite fourth_query_world.
Qed.

End FourthQuery.

Section AttestationClaims.

(** C4. When the authority answers 404 to the first three queries and a
    complete body with an attestation to the fourth, and neither bound
    of the loop is reached before (more than three retries allowed, the
    three answers and sleeps within the deadline), [getAttestation]
    returns the complete attestation in both runtimes: it has then made
    exactly four queries, with one sleep of the poll interval between
    consecutive queries and none after the last, and no error was
    raised for the 404 answers. *)
Theorem getAttestation_complete_on_fourth_query :
  forall (env : Env) (cfg : CircleApi) (messageHash : string) (w : World)
         (data : AttestationBody),
    let c := count_op OpFetch (calls w) in
    let l := fetch_latency env in
    answers_404 env cfg messageHash c ->
    answers_404 env cfg messageHash (c + 1) ->
    answers_404 env cfg messageHash (c + 2) ->
    answers_complete env cfg messageHash (c + 3) data ->
    (3 < maxRetries cfg)%nat ->
    0 <= pollInterval cfg ->
    0 <= l c /\ 0 <= l (c + 1)%nat /\ 0 <= l (c + 2)%nat ->
    l c + l (c + 1)%nat + l (c + 2)%nat + 3 * pollInterval cfg
    <= maxWaitTime cfg ->
    let url := attestation_url cfg messageHash in
    let pi := pollInterval cfg in
    let w' :=
      mkWorld
        (now w + l c + l (c + 1)%nat + l (c + 2)%nat + l (c + 3)%nat + 3 * pi)
        (calls w ++ [EvFetch url; EvSleep pi; EvFetch url; EvSleep pi;
                     EvFetch url; EvSleep pi; EvFetch url]) in
    Mobile.Attestation.getAttestation_with cfg env messageHash w
    = (Ret (complete_data messageHash data), w')
    /\ Script.Attestation.getAttestation_with cfg env messageHash None false w
       = (Ret (complete_data messageHash data), w')
    /\ count_op OpFetch (added w w') = 4%nat.
Proof.
  intros env cfg messageHash w data c l H0 H1 H2 H3 Hr Hpi Hl Hd url pi w'.
  split; [|split].
  - exact (mobile_complete_on_fourth env cfg messageHash w data
             H0 H1 H2 H3 Hr Hpi Hl Hd).
  - exact (script_complete_on_fourth env cfg messageHash w data
             H0 H1 H2 H3 Hr Hpi Hl Hd).
  - unfold w'. now rewrite added_app.
Qed.

Lemma getAttestation_complete_on_fourth_query_witness :
  fst (Mobile.Attestation.getAttestation
         (Stubs.complete_after 3 (fun _ => 0)) "0xhash" Stubs.start)
  = Ret (mkAttestationData "complete" "0xhash" "" "0xABCDEF")
  /\ fst (Script.Attestation.getAttestation
            (Stubs.complete_after 3 (fun _ => 0)) "0xhash" None false Stubs.start)
     = Ret (mkAttestationData "complete" "0xhash" "" "0xABCDEF").
Proof.
  destruct (getAttestation_complete_on_fourth_query
              (Stubs.complete_after 3 (fun _ => 0)) Mobile.Config.CIRCLE_API
              "0xhash" Stubs.start Stubs.complete_body) as (Hm & Hs & _).
  - eexists. split; reflexivity.
  - eexists. split; reflexivity.
  - eexists. split; reflexivity.
  - eexists. repeat split; reflexivity.
  - cbn. lia.
  - cbn. lia.
  - cbn. lia.
  - cbn. lia.
  - unfold Mobile.Attestation.getAttestation, Script.Attestation.getAttestation.
    change Script.Config.CIRCLE_API_CONFIG with Mobile.Config.CIRCLE_API.
    rewrite Hm, Hs. split; reflexivity.
Defined.

(** X18. Against an authority that only answers 404, [getAttestation] of the
    mobile runtime always ends with an error, after [k] queries each
    followed by a sleep: with the timeout error at the first iteration
    that starts with the deadline passed, and with the error of the
    exhausted retries when no iteration does. Nothing is queried or
    slept once the deadline has been found passed. *)
Lemma mobile_getAttestation_always_404 :
  forall (env : Env) (cfg : CircleApi) (messageHash : string) (w : World),
    (forall k, answers_404 env cfg messageHash k) ->
    let run := Mobile.Attestation.getAttestation_with cfg env messageHash w in
    let elapsed j := now (after_404s env cfg messageHash j w) - now w in
    exists k,
      (k <= maxRetries cfg)%nat
      /\ snd run = after_404s env cfg messageHash k w
      /\ calls (snd run)
         = calls w
           ++ concat (repeat [EvFetch (attestation_url cfg messageHash);
                              EvSleep (pollInterval cfg)] k)
      /\ (forall j, (j < k)%nat -> elapsed j <= maxWaitTime cfg)
      /\ ((k < maxRetries cfg)%nat
          /\ elapsed k > maxWaitTime cfg
          /\ fst run = Threw (timeout_error (elapsed k))
          \/ k = maxRetries cfg /\ fst run = Threw retries_error).
Proof.
  intros env cfg messageHash w H404 run elapsed.
  destruct (mobile_poll_loop_always_404 env cfg messageHash H404 (now w)
              (maxRetries cfg) 0%nat w) as (k & Hk & Hw & Hbefore & Hend).
  exists k. unfold run, Mobile.Attestation.getAttestation_with, bind, Date_now.
  split; [exact Hk|]. split; [exact Hw|].
  split; [rewrite Hw; apply calls_after_404s|].
  split; [exact Hbefore|exact Hend].
Qed.

(** C3. An authority that always answers 404 and takes 400 seconds for
    its first answer, with the configuration of the sources (a poll
    interval of 2 seconds, 150 retries, a deadline of 300 seconds). The
    script runtime finds the deadline passed at its second iteration, at
    402 seconds, and still sleeps 148 more times: it throws the timeout
    error at 698 seconds, after 149 sleeps and a single query. The mobile
    runtime throws it at 402 seconds, after a single sleep. *)
Theorem script_getAttestation_sleeps_past_deadline :
  let script :=
    Script.Attestation.getAttestation Stubs.slow_first "0xhash" None false
      Stubs.start in
  let mobile :=
    Mobile.Attestation.getAttestation Stubs.slow_first "0xhash" Stubs.start in
  (fst script = Threw (Error "Getting attestation timeout")
   /\ now (snd script) = 698000
   /\ count_op OpFetch (calls (snd script)) = 1%nat
   /\ count_op OpSleep (calls (snd script)) = 149%nat)
  /\ (fst mobile = Threw (Error "Getting attestation timeout (waited 402 seconds)")
      /\ now (snd mobile) = 402000
      /\ count_op OpFetch (calls (snd mobile)) = 1%nat
      /\ count_op OpSleep (calls (snd mobile)) = 1%nat).
Proof. vm_compute. repeat split; reflexivity. Qed.

(** The same with an authority that answers one second after each
    query: the deadline is found passed at the iteration that starts at
    303 seconds, after 101 queries; the script runtime sleeps on until
    399 seconds. *)
Example getAttestation_one_second_latency :
  let script :=
    Script.Attestation.getAttestation Stubs.one_second "0xhash" None false
      Stubs.start in
  let mobile :=
    Mobile.Attestation.getAttestation Stubs.one_second "0xhash" Stubs.start in
  (fst script = Threw (Error "Getting attestation timeout")
   /\ now (snd script) = 399000
   /\ count_op OpFetch (calls (snd script)) = 101%nat
   /\ count_op OpSleep (calls (snd script)) = 149%nat)
  /\ (fst mobile
      = Threw (Error "Getting attestation timeout (waited 303 seconds)")
      /\ now (snd mobile) = 303000
      /\ count_op OpFetch (calls (snd mobile)) = 101%nat
      /\ count_op OpSleep (calls (snd mobile)) = 101%nat).
Proof. vm_compute. repeat split; reflexivity. Qed.

End AttestationClaims.

(** ** What a run adds to the log *)

Section Emits.

Variable P : Event -> Prop.

Lemma emits_ret : forall {A} (a : A), emits P (ret a).
Proof. intros A a w. exists []. now rewrite app_nil_r. Qed.

Lemma emits_throw : forall {A} e, emits P (@throw World A e).
Proof. intros A e w. exists []. now rewrite app_nil_r. Qed.

Lemma emits_lift_outcome : forall {A} (o : Outcome A), emits P (lift_outcome o).
Proof. intros A o w. exists []. now rewrite app_nil_r. Qed.

Lemma emits_call : forall {A} ev (answer : nat -> Outcome A),
  P ev -> emits P (call ev answer).
Proof.
  intros A ev answer H w. exists [ev]. split; [reflexivity|].
  now constructor.
Qed.

Lemma emits_bind : forall {A B} (m : M World A) (k : A -> M World B),
  emits P m -> (forall a, emits P (k a)) -> emits P (bind m k).
Proof.
  intros A B m k Hm Hk w. unfold bind.
  destruct (Hm w) as (d1 & E1 & F1).
  destruct (m w) as [[a|e] w1]; cbn [snd] in *.
  - destruct (Hk a w1) as (d2 & E2 & F2).
    exists (d1 ++ d2). rewrite E2, E1, app_assoc. split; [reflexivity|].
    apply Forall_app. now split.
  - now exists d1.
Qed.

Lemma emits_try_catch : forall {A} (m : M World A) (h : JsError -> M World A),
  emits P m -> (forall e, emits P (h e)) -> emits P (try_catch m h).
Proof.
  intros A m h Hm Hh w. unfold try_catch.
  destruct (Hm w) as (d1 & E1 & F1).
  destruct (m w) as [[a|e] w1]; cbn [snd] in *.
  - now exists d1.
  - destruct (Hh e w1) as (d2 & E2 & F2).
    exists (d1 ++ d2). rewrite E2, E1, app_assoc. split; [reflexivity|].
    apply Forall_app. now split.
Qed.

(** A computation that starts with a call adds the event of that call
    first. *)
Lemma emits_after_call :
  forall {A B} ev (answer : nat -> Outcome A) (k : A -> M World B),
  (forall a, emits P (k a)) ->
  forall w, exists d,
    calls (snd (bind (call ev answer) k w)) = calls w ++ ev :: d /\ Forall P d.
Proof.
  intros A B ev answer k Hk w. unfold bind, call.
  destruct (answer _) as [a|e]; cbn [snd calls].
  - destruct (Hk a (mkWorld (now w) (calls w ++ [ev]))) as (d & E & F).
    exists d. rewrite E. cbn [calls]. now rewrite <- app_assoc.
  - exists []. split; [reflexivity|constructor].
Qed.

End Emits.

Lemma added_calls : forall w w' d, calls w' = calls w ++ d -> added w w' = d.
Proof.
  intros w w' d H. unfold added. rewrite H.
  rewrite skipn_app, skipn_all, Nat.sub_diag. reflexivity.
Qed.

Lemma count_op_none : forall op d,
  Forall (fun ev => op_of ev <> op) d -> count_op op d = 0%nat.
Proof.
  intros op d H. unfold count_op. induction H as [|ev d Hev _ IH].
  - reflexivity.
  - cbn [filter]. unfold is_op at 1.
    destruct (Op_eqb (op_of ev) op) eqn:E; [|exact IH].
    exfalso. apply Hev.
    destruct (op_of ev), op; try discriminate E; reflexivity.
Qed.

(** ** The senders *)

Section SenderFacts.

Import Script.Sender.

Variable env : Env.
Variable params : CrossChainParams.

Ltac emits_step :=
  first
    [ apply emits_ret
    | apply emits_throw
    | apply emits_lift_outcome
    | apply emits_call; split; discriminate
    | apply emits_bind; [|intros ?]
    | apply emits_try_catch; [|intros ?]
    | match goal with
      | |- emits _ (if ?b then _ else _) => destruct b
      | |- emits _ (match ?x with _ => _ end) => destruct x
      end ].

Lemma extractMessageFromTransaction_inside : forall txHash,
  emits inside_attempt
    (Script.Attestation.extractMessageFromTransaction env txHash).
Proof.
  intros txHash. unfold Script.Attestation.extractMessageFromTransaction.
  repeat emits_step.
Qed.

(** An attempt starts with [getAddress], and neither sleeps nor asks for
    the address again. *)
Lemma attempt_try_log : forall w,
  exists d,
    calls (snd (attempt_try env params w)) = calls w ++ EvGetAddress :: d
    /\ Forall inside_attempt d.
Proof.
  intros w. unfold attempt_try.
  apply emits_after_call. intros _.
  destruct (negb _ || negb _); [apply emits_throw|].
  repeat first
    [ apply extractMessageFromTransaction_inside
    | apply emits_call; split; discriminate
    | apply emits_lift_outcome
    | apply emits_ret
    | apply emits_bind; [|intros ?] ].
Qed.

Lemma calls_backoff : forall e w,
  calls (backoff e w) = calls w ++ backoff_events e.
Proof.
  intros e w. unfold backoff, backoff_events.
  destruct (code_is e "NONCE_EXPIRED"); [reflexivity|now rewrite app_nil_r].
Qed.

(** One turn of the [for] loop. *)
Lemma attempt_loop_step : forall n attempt lastError w,
  attempt_loop env params (S n) attempt lastError w
  = match attempt_try env params w with
    | (Ret a, w1) => (Ret a, w1)
    | (Threw e, w1) =>
        if code_is e "NONCE_EXPIRED" && (attempt <? maxRetries)%nat then
          attempt_loop env params n (attempt + 1) (Some e)
            (mkWorld (now w1 + 2000) (calls w1 ++ [EvSleep 2000]))
        else if (attempt =? maxRetries)%nat then (Threw e, w1)
        else attempt_loop env params n (attempt + 1) (Some e) w1
    end.
Proof.
  intros n attempt lastError w. cbn [attempt_loop]. unfold try_catch.
  destruct (attempt_try env params w) as [[a|e] w1]; [reflexivity|].
  destruct (code_is e "NONCE_EXPIRED" && (attempt <? maxRetries)%nat);
    [reflexivity|].
  now destruct (attempt =? maxRetries)%nat.
Qed.

(** The three attempts of [depositForBurn], one after the other: an
    error of the first or of the second attempt leads to the next
    attempt, whatever its code, and the third attempt decides. *)
Lemma depositForBurn_attempts : forall w,
  depositForBurn env params w
  = match attempt_try env params w with
    | (Ret a, w1) => (Ret a, w1)
    | (Threw e1, w1) =>
        match attempt_try env params (backoff e1 w1) with
        | (Ret a, w2) => (Ret a, w2)
        | (Threw e2, w2) => attempt_try env params (backoff e2 w2)
        end
    end.
Proof.
  intros w. unfold depositForBurn, maxRetries. rewrite attempt_loop_step.
  destruct (attempt_try env params w) as [[a|e1] w1]; [reflexivity|].
  assert (Second : forall lastError w',
    attempt_loop env params 2 2 lastError w'
    = match attempt_try env params w' with
      | (Ret a, w2) => (Ret a, w2)
      | (Threw e2, w2) => attempt_try env params (backoff e2 w2)
      end).
  { intros lastError w'. rewrite attempt_loop_step.
    destruct (attempt_try env params w') as [[a|e2] w2]; [reflexivity|].
    assert (Third : forall lastError' w'',
      attempt_loop env params 1 3 lastError' w'' = attempt_try env params w'').
    { intros lastError' w''. rewrite attempt_loop_step.
      destruct (attempt_try env params w'') as [[a|e3] w3]; [reflexivity|].
      unfold maxRetries. cbn [Nat.ltb Nat.leb Nat.eqb].
      now rewrite andb_false_r. }
    unfold maxRetries, backoff. cbn [Nat.ltb Nat.leb Nat.eqb Nat.add].
    rewrite andb_true_r.
    destruct (code_is e2 "NONCE_EXPIRED"); apply Third. }
  unfold maxRetries, backoff. cbn [Nat.ltb Nat.leb Nat.eqb Nat.add].
  rewrite andb_true_r.
  destruct (code_is e1 "NONCE_EXPIRED"); apply Second.
Qed.

Lemma count_op_cons : forall op ev d,
  count_op op (ev :: d)
  = ((if is_op op ev then 1 else 0) + count_op op d)%nat.
Proof.
  intros op ev d. unfold count_op. cbn [filter].
  now destruct (is_op op ev).
Qed.

Lemma inside_attempt_counts : forall d,
  Forall inside_attempt d ->
  count_op OpGetAddress d = 0%nat /\ count_op OpSleep d = 0%nat.
Proof.
  intros d H. split; apply count_op_none;
    apply Forall_impl with (2 := H); intros ev [H1 H2]; assumption.
Qed.

Lemma backoff_events_counts : forall e,
  count_op OpGetAddress (backoff_events e) = 0%nat
  /\ (count_op OpSleep (backoff_events e) <= 1)%nat
  /\ Forall (fun ev => ev = EvSleep 2000) (backoff_events e).
Proof.
  intros e. unfold backoff_events.
  destruct (code_is e "NONCE_EXPIRED"); cbn; repeat split; try lia;
    repeat constructor.
Qed.

Lemma attempts_log_counts : forall n l,
  attempts_log n l ->
  count_op OpGetAddress l = n
  /\ (count_op OpSleep l < n)%nat
  /\ Forall (fun ev => op_of ev = OpSleep -> ev = EvSleep 2000) l.
Proof.
  intros n l H. induction H as [d Hd|n d e l Hd _ (IH1 & IH2 & IH3)].
  - destruct (inside_attempt_counts d Hd) as [C1 C2].
    rewrite !count_op_cons, C1, C2. cbn. repeat split; try lia.
    constructor; [discriminate|].
    apply Forall_impl with (2 := Hd). intros ev [_ H] E. contradiction.
  - destruct (inside_attempt_counts d Hd) as [C1 C2].
    destruct (backoff_events_counts e) as (B1 & B2 & B3).
    rewrite !count_op_app, !count_op_cons, C1, C2, B1, IH1. cbn.
    repeat split; try lia.
    constructor; [discriminate|].
    apply Forall_app. split; [|apply Forall_app; split].
    + apply Forall_impl with (2 := Hd). intros ev [_ H] E. contradiction.
    + apply Forall_impl with (2 := B3). intros ev -> _. reflexivity.
    + exact IH3.
Qed.

(** The log of a run of [depositForBurn] is that of one, two or three
    attempts, and of three when the run throws. *)
Lemma depositForBurn_log : forall w,
  exists n,
    (1 <= n <= 3)%nat
    /\ attempts_log n (added w (snd (depositForBurn env params w)))
    /\ (is_ret (fst (depositForBurn env params w)) = false -> n = 3%nat).
Proof.
  intros w. rewrite depositForBurn_attempts.
  destruct (attempt_try_log w) as (d1 & E1 & F1).
  destruct (attempt_try env params w) as [[a|e1] w1]; cbn [fst snd] in *.
  { exists 1%nat. split; [lia|]. split; [|discriminate].
    rewrite (added_calls _ _ _ E1). now constructor. }
  destruct (attempt_try_log (backoff e1 w1)) as (d2 & E2 & F2).
  rewrite calls_backoff, E1, <- !app_assoc in E2.
  destruct (attempt_try env params (backoff e1 w1)) as [[a|e2] w2];
    cbn [fst snd] in *.
  { exists 2%nat. split; [lia|]. split; [|discriminate].
    rewrite (added_calls _ _ _ E2).
    apply FailedAttempt; [exact F1|]. now constructor. }
  destruct (attempt_try_log (backoff e2 w2)) as (d3 & E3 & F3).
  rewrite calls_backoff, E2, <- !app_assoc in E3.
  exists 3%nat. split; [lia|]. split; [|reflexivity].
  rewrite (added_calls _ _ _ E3).
  apply FailedAttempt; [exact F1|].
  change (EvGetAddress :: d2 ++ backoff_events e2 ++ EvGetAddress :: d3)
    with ((EvGetAddress :: d2) ++ backoff_events e2 ++ EvGetAddress :: d3).
  apply FailedAttempt; [exact F2|]. now constructor.
Qed.

(** After a failed first attempt the second one starts: at once, or
    after the backoff when the code of the error is [NONCE_EXPIRED]. *)
Lemma depositForBurn_second_attempt : forall w e w1,
  attempt_try env params w = (Threw e, w1) ->
  exists rest,
    calls (snd (depositForBurn env params w))
    = calls w1 ++ backoff_events e ++ EvGetAddress :: rest.
Proof.
  intros w e w1 H. rewrite depositForBurn_attempts, H.
  destruct (attempt_try_log (backoff e w1)) as (d2 & E2 & F2).
  rewrite calls_backoff in E2.
  destruct (attempt_try env params (backoff e w1)) as [[a|e2] w2];
    cbn [snd] in *.
  { exists d2. now rewrite E2, <- app_assoc. }
  destruct (attempt_try_log (backoff e2 w2)) as (d3 & E3 & F3).
  rewrite calls_backoff, E2 in E3.
  exists (d2 ++ backoff_events e2 ++ EvGetAddress :: d3).
  rewrite E3, <- !app_assoc. reflexivity.
Qed.

End SenderFacts.

Section SenderClaims.

Import Script.Sender.

(** C7. [depositForBurn] of the script runtime makes between one and
    three attempts. A first attempt that returns ends the call with its
    result. Every error of the first attempt is caught, whatever its
    code, and a second attempt follows: after a sleep of 2000 ms when
    the code of the error is [NONCE_EXPIRED], at once after any other
    error. The same holds after the second attempt, and the third
    attempt ends the call, with its result or with its error: an error
    that reaches the caller is that of the third attempt. *)
Theorem depositForBurn_retries_every_error :
  forall (env : Env) (params : CrossChainParams) (w : World),
    let run := depositForBurn env params w in
    let new := added w (snd run) in
    let attempts := count_op OpGetAddress new in
    let next := fun (e : JsError) (w0 : World) =>
      if code_is e "NONCE_EXPIRED"
      then mkWorld (now w0 + 2000) (calls w0 ++ [EvSleep 2000])
      else w0 in
    (1 <= attempts <= 3)%nat
    /\ (is_ret (fst run) = false -> attempts = 3%nat)
    /\ (count_op OpSleep new < attempts)%nat
    /\ Forall (fun ev => op_of ev = OpSleep -> ev = EvSleep 2000) new
    /\ (forall e w1,
          attempt_try env params w = (Threw e, w1) ->
          exists rest,
            calls (snd run)
            = calls w1
              ++ (if code_is e "NONCE_EXPIRED" then [EvSleep 2000] else [])
              ++ EvGetAddress :: rest)
    /\ (forall a w1,
          attempt_try env params w = (Ret a, w1) -> run = (Ret a, w1))
    /\ (forall e1 w1,
          attempt_try env params w = (Threw e1, w1) ->
          (forall a w2,
             attempt_try env params (next e1 w1) = (Ret a, w2) ->
             run = (Ret a, w2))
          /\ (forall e2 w2,
                attempt_try env params (next e1 w1) = (Threw e2, w2) ->
                run = attempt_try env params (next e2 w2)))
    /\ (forall e w3,
          run = (Threw e, w3) ->
          exists e1 w1 e2 w2,
            attempt_try env params w = (Threw e1, w1)
            /\ attempt_try env params (next e1 w1) = (Threw e2, w2)
            /\ attempt_try env params (next e2 w2) = (Threw e, w3)).
Proof.
  intros env params w run new attempts next.
  destruct (depositForBurn_log env params w) as (n & Hn & Hlog & Hthrow).
  destruct (attempts_log_counts n _ Hlog) as (C1 & C2 & C3).
  fold run new in Hlog, Hthrow, C1, C2, C3.
  unfold attempts. rewrite C1.
  split; [exact Hn|]. split; [exact Hthrow|]. split; [exact C2|].
  split; [exact C3|].
  split.
  { intros e w1 H. exact (depositForBurn_second_attempt env params w e w1 H). }
  change next with backoff.
  pose proof (depositForBurn_attempts env params w) as A. fold run in A.
  split; [|split].
  - intros a w1 H. now rewrite A, H.
  - intros e1 w1 H. rewrite H in A. split.
    + intros a w2 H2. now rewrite A, H2.
    + intros e2 w2 H2. now rewrite A, H2.
  - intros e w3 H. rewrite H in A.
    destruct (attempt_try env params w) as [[a|e1] w1]; [discriminate A|].
    destruct (attempt_try env params (backoff e1 w1)) as [[a|e2] w2] eqn:H2;
      [discriminate A|].
    exists e1, w1, e2, w2. split; [reflexivity|]. split; [exact H2|].
    now symmetry.
Qed.

Lemma depositForBurn_retries_every_error_witness :
  depositForBurn Stubs.failing_decimals Stubs.three_usdc Stubs.start
  = (Threw (mkError "request timeout" (Some "TIMEOUT")),
     mkWorld 2000
       [EvGetAddress; EvDecimals; EvSleep 2000;
        EvGetAddress; EvDecimals;
        EvGetAddress; EvDecimals]).
Proof.
  destruct (depositForBurn_retries_every_error Stubs.failing_decimals
              Stubs.three_usdc Stubs.start)
    as (_ & _ & _ & _ & _ & _ & H & _).
  destruct (H (mkError "nonce has already been used" (Some "NONCE_EXPIRED"))
              (mkWorld 0 [EvGetAddress; EvDecimals])) as [_ H2];
    [vm_compute; reflexivity|].
  rewrite (H2 (mkError "missing response" (Some "NETWORK_ERROR"))
             (mkWorld 2000 [EvGetAddress; EvDecimals; EvSleep 2000;
                            EvGetAddress; EvDecimals]));
    vm_compute; reflexivity.
Defined.

(** The first attempt fails with a network error, which is not a nonce
    error: it is not passed on to the caller; a second attempt follows
    at once and the call returns its result. *)
Lemma depositForBurn_retries_network_error :
  let run := depositForBurn Stubs.flaky_decimals Stubs.three_usdc Stubs.start in
  fst (attempt_try Stubs.flaky_decimals Stubs.three_usdc Stubs.start)
  = Threw (mkError "missing response" (Some "NETWORK_ERROR"))
  /\ fst run = Ret (mkSend "0xburn" (Some "0x2a") (Some "0xmessage"))
  /\ calls (snd run)
     = [EvGetAddress; EvDecimals;
        EvGetAddress; EvDecimals; EvGetNonce None;
        EvDepositForBurn 3000000 9 Stubs.recipient Script.Config.usdc None;
        EvGetTransactionReceipt "0xburn"]
  /\ count_op OpGetAddress (calls (snd run)) = 2%nat.
Proof. vm_compute. repeat split; reflexivity. Qed.

(** X7. In the script runtime, a balance below the requested amount stops
    [executeFullCrossChain] right after the balance was read: it throws
    the error of the insufficient balance, and neither the approval nor
    the burn is called. *)
Lemma script_insufficient_balance_stops :
  forall (env : Env) (params : CrossChainParams) (w : World)
         (userAddress balance : string) (w2 : World),
    signer_getAddress env (count_op OpGetAddress (calls w)) = Ret userAddress ->
    checkUSDCBalance env userAddress (mkWorld (now w) (calls w ++ [EvGetAddress]))
    = (Ret balance, w2) ->
    balance_below env balance (amount params) = true ->
    executeFullCrossChain env params w
    = (Threw (Error ("Insufficient USDC balance, current: " ++ balance
                     ++ ", required: " ++ amount params)%string), w2)
    /\ added w w2 = [EvGetAddress; EvBalanceOf userAddress; EvDecimals].
Proof.
  intros env params w userAddress balance w2 Ha Hb Hlt. split.
  - unfold executeFullCrossChain. unfold bind at 1. unfold call at 1.
    cbn [op_of]. rewrite Ha. unfold bind at 1. rewrite Hb, Hlt. reflexivity.
  - unfold checkUSDCBalance in Hb.
    apply bind_ret_inv in Hb as (b & w1 & H1 & Hb).
    apply call_inv in H1 as [_ ->].
    apply bind_ret_inv in Hb as (dec & w1' & H2 & Hb).
    apply call_inv in H2 as [_ ->]. cbn [now calls] in Hb.
    injection Hb as _ <-. apply added_calls. cbn [calls].
    now rewrite <- !app_assoc.
Qed.

Lemma script_insufficient_balance_stops_witness :
  executeFullCrossChain Stubs.underfunded Stubs.three_usdc Stubs.start
  = (Threw (Error "Insufficient USDC balance, current: 2.0, required: 3.0"),
     mkWorld 0 [EvGetAddress; EvBalanceOf "0xsender"; EvDecimals]).
Proof.
  refine (proj1 (script_insufficient_balance_stops Stubs.underfunded Stubs.three_usdc
                   Stubs.start "0xsender" "2.0" _ _ _ _)).
  - reflexivity.
  - vm_compute. reflexivity.
  - vm_compute. reflexivity.
Defined.

(** Whatever the input and the answers of the chain, the sender of the
    mobile runtime never reads the balance. *)
Lemma mobile_executeFullCrossChain_reads_no_balance :
  forall (env : Env) (amount recipientAddress : string),
    emits (fun ev => op_of ev <> OpBalanceOf)
      (Mobile.Sender.executeFullCrossChain env amount recipientAddress).
Proof.
  intros env amount recipientAddress.
  unfold Mobile.Sender.executeFullCrossChain, Mobile.Sender.approveUSDC,
    Mobile.Sender.depositForBurn, Mobile.Sender.nonce_or_latest.
  repeat first
    [ apply emits_call; discriminate
    | apply emits_lift_outcome
    | apply emits_ret
    | apply emits_throw
    | apply emits_bind; [|intros ?]
    | match goal with
      | |- emits _ (match ?x with _ => _ end) => destruct x
      end ].
Qed.

(** C2. A sender that holds 2.0 USDC is asked for 3.0. The mobile
    runtime reads no balance: it sends the approval, then calls
    [depositForBurn] of the bridge for 3000000 units, and only the
    answer of the chain stops it. On the same input the script runtime
    reads the balance and throws the error of the insufficient balance
    before any transaction. *)
Theorem mobile_executeFullCrossChain_skips_balance_check :
  let mobile :=
    Mobile.Sender.executeFullCrossChain Stubs.underfunded "3.0" Stubs.recipient
      Stubs.start in
  let script :=
    executeFullCrossChain Stubs.underfunded Stubs.three_usdc Stubs.start in
  (calls (snd mobile)
   = [EvGetNonce (Some "latest"); EvDecimals;
      EvApprove Mobile.Config.tokenMessengerV2 MaxUint256 (Some 7);
      EvDecimals;
      EvDepositForBurn 3000000 9 Stubs.recipient Mobile.Config.usdc (Some 8)]
   /\ count_op OpBalanceOf (calls (snd mobile)) = 0%nat
   /\ count_op OpDepositForBurn (calls (snd mobile)) = 1%nat
   /\ fst mobile
      = Threw (mkError "execution reverted: ERC20: transfer amount exceeds balance"
                 (Some "CALL_EXCEPTION")))
  /\ (fst script
      = Threw (Error "Insufficient USDC balance, current: 2.0, required: 3.0")
      /\ calls (snd script) = [EvGetAddress; EvBalanceOf "0xsender"; EvDecimals]
      /\ count_op OpDepositForBurn (calls (snd script)) = 0%nat).
Proof. vm_compute. repeat split; reflexivity. Qed.

End SenderClaims.

(** ** Padding an address of the source chain *)

Section PaddingFacts.

Import Codec.

Lemma length_append : forall a b : string,
  String.length (a ++ b) = (String.length a + String.length b)%nat.
Proof.
  induction a as [|c a IH]; intros b; cbn [String.append String.length].
  - reflexivity.
  - now rewrite IH.
Qed.

Lemma length_copies_0 : forall n, String.length (copies "0" n) = n.
Proof.
  induction n as [|n IH]; cbn [copies String.append String.length].
  - reflexivity.
  - now rewrite IH.
Qed.

(** An address of 66 characters that starts with [0x] goes through
    [aptosAddressToBytes32] unchanged. *)
Lemma aptosAddressToBytes32_prefixed : forall body,
  String.length body = 64%nat ->
  aptosAddressToBytes32 ("0x" ++ body) = Ret ("0x" ++ body)%string.
Proof.
  intros body L. unfold aptosAddressToBytes32.
  assert (E : replace_first "0x" "" ("0x" ++ body) = body)
    by (cbn; now destruct body).
  rewrite E, L. reflexivity.
Qed.

(** X1. [evmToAptosAddress] pads the address without its [0x] with zeros
    on the left. When that address has at most 64 characters, the result
    has 66 characters, the first two being [0x], and
    [aptosAddressToBytes32] returns it as it is. When it has more than 64
    characters, ['0'.repeat] is called with a negative count and throws:
    nothing is returned, and nothing is cut. *)
Theorem evmToAptosAddress_pads :
  forall evmAddress : string,
    let cleanAddress := replace_first "0x" "" evmAddress in
    let n := String.length cleanAddress in
    ((n <= 64)%nat ->
     let aptosAddress := ("0x" ++ copies "0" (64 - n) ++ cleanAddress)%string in
     evmToAptosAddress evmAddress = Ret aptosAddress
     /\ String.length aptosAddress = 66%nat
     /\ startsWith aptosAddress "0x" = true
     /\ aptosAddressToBytes32 aptosAddress = Ret aptosAddress)
    /\ ((64 < n)%nat -> exists e, evmToAptosAddress evmAddress = Threw e).
Proof.
  intros evmAddress cleanAddress n. split.
  - intros Hn aptosAddress.
    assert (L : String.length (copies "0" (64 - n) ++ cleanAddress) = 64%nat).
    { rewrite length_append, length_copies_0. fold n. lia. }
    split; [|split; [|split]].
    + unfold evmToAptosAddress, String_repeat. fold cleanAddress. fold n.
      assert (G : (64 - Z.of_nat n <? 0) = false) by (apply Z.ltb_ge; lia).
      rewrite G.
      replace (Z.to_nat (64 - Z.of_nat n)) with (64 - n)%nat by lia.
      reflexivity.
    + unfold aptosAddress.
      change ("0x" ++ copies "0" (64 - n) ++ cleanAddress)%string
        with (String "0" (String "x" (copies "0" (64 - n) ++ cleanAddress))).
      cbn [String.length]. now rewrite L.
    + unfold aptosAddress, startsWith.
      generalize (copies "0" (64 - n) ++ cleanAddress)%string. intros r.
      cbn. now destruct r.
    + apply aptosAddressToBytes32_prefixed. exact L.
  - intros Hn. unfold evmToAptosAddress, String_repeat.
    fold cleanAddress. fold n.
    assert (G : (64 - Z.of_nat n <? 0) = true) by (apply Z.ltb_lt; lia).
    rewrite G. eexists. reflexivity.
Qed.

Lemma evmToAptosAddress_pads_witness :
  evmToAptosAddress Script.Config.usdc
  = Ret "0x000000000000000000000000036CbD53842c5426634e7929541eC2318f3dCF7e"
  /\ aptosAddressToBytes32
       "0x000000000000000000000000036CbD53842c5426634e7929541eC2318f3dCF7e"
     = Ret "0x000000000000000000000000036CbD53842c5426634e7929541eC2318f3dCF7e"
  /\ exists e, evmToAptosAddress (Stubs.recipient ++ "00") = Threw e.
Proof.
  destruct (evmToAptosAddress_pads Script.Config.usdc) as [H _].
  destruct (evmToAptosAddress_pads (Stubs.recipient ++ "00")) as [_ H'].
  split; [|split].
  - refine (proj1 (H _)). vm_compute. lia.
  - refine (proj2 (proj2 (proj2 (H _)))). vm_compute. lia.
  - refine (H' _). vm_compute. lia.
Defined.

End PaddingFacts.

(** ** The bytes of a hexadecimal string *)

Section HexFacts.

Import Codec.

Lemma digit_value_16 : forall c v,
  digit_value 16 c = Some v -> 0 <= v < 16.
Proof.
  intros c v. unfold digit_value.
  set (n := Z.of_nat (nat_of_ascii c)).
  destruct ((48 <=? n) && (n <=? 57)) eqn:E1.
  { apply andb_true_iff in E1 as [A B].
    apply Z.leb_le in A, B.
    destruct (n - 48 <? 16) eqn:E; intros H; [|discriminate H].
    injection H as <-. lia. }
  destruct ((97 <=? n) && (n <=? 102)) eqn:E2.
  { apply andb_true_iff in E2 as [A B].
    apply Z.leb_le in A, B.
    destruct (n - 87 <? 16) eqn:E; intros H; [|discriminate H].
    injection H as <-. lia. }
  destruct ((65 <=? n) && (n <=? 70)) eqn:E3.
  { apply andb_true_iff in E3 as [A B].
    apply Z.leb_le in A, B.
    destruct (n - 55 <? 16) eqn:E; intros H; [|discriminate H].
    injection H as <-. lia. }
  cbn. intros H. discriminate H.
Qed.

Lemma parseInt16_byte_range : forall c1 c2, 0 <= parseInt16_byte c1 c2 < 256.
Proof.
  intros c1 c2. unfold parseInt16_byte.
  destruct (digit_value 16 c1) as [v1|] eqn:E1.
  - apply digit_value_16 in E1.
    destruct (Ascii.eqb c1 "0" && (Ascii.eqb c2 "x" || Ascii.eqb c2 "X"));
      [lia|].
    destruct (digit_value 16 c2) as [v2|] eqn:E2; [|lia].
    apply digit_value_16 in E2. lia.
  - destruct (digit_value 16 c2) as [v2|] eqn:E2; [|lia].
    apply digit_value_16 in E2.
    destruct (is_whitespace c1 || Ascii.eqb c1 "+"); [lia|].
    destruct (Ascii.eqb c1 "-"); [|lia].
    apply Z.mod_pos_bound. lia.
Qed.

(** Induction on lists two elements at a time. *)
Lemma list_ind2 : forall {A} (P : list A -> Prop),
  P [] -> (forall a, P [a]) ->
  (forall a b l, P l -> P (a :: b :: l)) ->
  forall l, P l.
Proof.
  intros A P H0 H1 H2.
  assert (G : forall l, P l /\ forall a, P (a :: l)).
  { induction l as [|b l [IH1 IH2]].
    - split; [exact H0|exact H1].
    - split; [apply IH2|]. intros a. apply H2. exact IH1. }
  intros l. apply G.
Qed.

Lemma hex_pairs_length : forall l,
  List.length (hex_pairs l) = Nat.div2 (List.length l).
Proof.
  induction l as [| |a b l IH] using list_ind2; cbn [hex_pairs List.length Nat.div2].
  - reflexivity.
  - reflexivity.
  - now rewrite IH.
Qed.

Lemma hex_pairs_range : forall l,
  Forall (fun b => 0 <= b < 256) (hex_pairs l).
Proof.
  induction l as [| |a b l IH] using list_ind2; cbn [hex_pairs].
  - constructor.
  - constructor.
  - constructor; [apply parseInt16_byte_range|exact IH].
Qed.

Lemma length_list_ascii : forall s,
  List.length (list_ascii_of_string s) = String.length s.
Proof.
  induction s as [|c s IH]; cbn [list_ascii_of_string List.length String.length].
  - reflexivity.
  - now rewrite IH.
Qed.

(** X3. Whatever its input, [hexToBytes] returns one byte for every two
    characters that follow the removed [0x], a last character without a
    partner being dropped, and every byte is between 0 and 255. *)
Theorem hexToBytes_length_range :
  forall hex : string,
    List.length (hexToBytes hex)
    = Nat.div2 (String.length (replace_first "0x" "" hex))
    /\ Forall (fun b => 0 <= b < 256) (hexToBytes hex).
Proof.
  intros hex. unfold hexToBytes. split.
  - now rewrite hex_pairs_length, length_list_ascii.
  - apply hex_pairs_range.
Qed.

Lemma hex_char_digit : forall c,
  is_hex_char c = true -> exists v, digit_value 16 c = Some v.
Proof.
  intros c H.
  destruct (digit_value 16 c) as [v|] eqn:E; [now exists v|].
  exfalso. revert H E. unfold is_hex_char, digit_value.
  rewrite <- (nat_ascii_embedding (nat_of_ascii c)) at 1 by apply nat_ascii_bounded.
  generalize (nat_ascii_bounded c). generalize (nat_of_ascii c) as n.
  intros n Hn. rewrite nat_ascii_embedding by exact Hn.
  intros H.
  destruct ((48 <=? Z.of_nat n) && (Z.of_nat n <=? 57)) eqn:E1.
  { apply andb_true_iff in E1 as [A B]. apply Z.leb_le in A, B.
    destruct (Z.of_nat n - 48 <? 16) eqn:E; [discriminate|].
    apply Z.ltb_ge in E. lia. }
  destruct ((97 <=? Z.of_nat n) && (Z.of_nat n <=? 102)) eqn:E2.
  { apply andb_true_iff in E2 as [A B]. apply Z.leb_le in A, B.
    destruct (Z.of_nat n - 87 <? 16) eqn:E; [discriminate|].
    apply Z.ltb_ge in E. lia. }
  destruct ((65 <=? Z.of_nat n) && (Z.of_nat n <=? 70)) eqn:E3.
  { apply andb_true_iff in E3 as [A B]. apply Z.leb_le in A, B.
    destruct (Z.of_nat n - 55 <? 16) eqn:E; [discriminate|].
    apply Z.ltb_ge in E. lia. }
  exfalso.
  apply andb_false_iff in E1, E2, E3.
  repeat match goal with
  | H : _ || _ = true |- _ => apply orb_true_iff in H; destruct H as [H|H]
  | H : _ && _ = true |- _ => apply andb_true_iff in H; destruct H as [? ?]
  end;
  repeat match goal with
  | H : (_ <=? _)%nat = true |- _ => apply Nat.leb_le in H
  | H : _ \/ _ |- _ => destruct H as [H|H]
  | H : (_ <=? _) = false |- _ => apply Z.leb_gt in H
  end; lia.
Qed.


Lemma hex_char_not_X : forall c,
  is_hex_char c = true ->
  Ascii.eqb c "x" = false /\ Ascii.eqb c "X" = false.
Proof.
  intros c H. split.
  - destruct (Ascii.eqb c "x") eqn:E; [|reflexivity].
    apply Ascii.eqb_eq in E. subst c. discriminate H.
  - destruct (Ascii.eqb c "X") eqn:E; [|reflexivity].
    apply Ascii.eqb_eq in E. subst c. discriminate H.
Qed.

Lemma parseInt16_byte_hex : forall c1 c2 v1 v2,
  is_hex_char c2 = true ->
  digit_value 16 c1 = Some v1 -> digit_value 16 c2 = Some v2 ->
  parseInt16_byte c1 c2 = 16 * v1 + v2.
Proof.
  intros c1 c2 v1 v2 H2 E1 E2. unfold parseInt16_byte.
  rewrite E1, E2. destruct (hex_char_not_X c2 H2) as [-> ->].
  now rewrite andb_false_r.
Qed.

(** The digits of an even number of hex digits, read two by two. *)
Lemma hex_pairs_digits : forall l acc,
  forallb is_hex_char l = true -> Nat.even (List.length l) = true ->
  digits_value 16 acc l
  = Some (fold_left (fun a b => a * 256 + b) (hex_pairs l) acc).
Proof.
  induction l as [| |c1 c2 l IH] using list_ind2; intros acc H He.
  - reflexivity.
  - discriminate He.
  - cbn [forallb] in H.
    apply andb_true_iff in H as [H1 H]. apply andb_true_iff in H as [H2 H].
    destruct (hex_char_digit c1 H1) as [v1 E1].
    destruct (hex_char_digit c2 H2) as [v2 E2].
    cbn [digits_value hex_pairs fold_left]. rewrite E1, E2.
    rewrite (parseInt16_byte_hex c1 c2 v1 v2 H2 E1 E2).
    rewrite (IH _ H He). do 2 f_equal. ring.
Qed.

Lemma is_hex_chars : forall h,
  is_hex h = true -> forallb is_hex_char (list_ascii_of_string h) = true.
Proof.
  induction h as [|c h IH]; intros H; cbn [list_ascii_of_string forallb].
  - reflexivity.
  - cbn [is_hex] in H. apply andb_true_iff in H as [H1 H].
    now rewrite H1, (IH H).
Qed.

Lemma hex_char_not_whitespace : forall c,
  is_hex_char c = true -> is_whitespace c = false.
Proof.
  intros c. unfold is_hex_char, is_whitespace.
  generalize (nat_of_ascii c) as n. intros n H.
  repeat match goal with
  | H : _ || _ = true |- _ => apply orb_true_iff in H; destruct H as [H|H]
  | H : _ && _ = true |- _ => apply andb_true_iff in H; destruct H as [? ?]
  | H : (_ <=? _)%nat = true |- _ => apply Nat.leb_le in H
  end;
  repeat (apply orb_false_iff; split); apply Nat.eqb_neq; lia.
Qed.

(** White space is looked for at both ends only: a literal that starts
    with [0x] and ends in a hex digit is read as it stands. *)
Lemma trim_0x_hex : forall l,
  forallb is_hex_char l = true -> l <> [] ->
  trim ("0"%char :: "x"%char :: l) = "0"%char :: "x"%char :: l.
Proof.
  intros l H Hne. unfold trim. cbn [trim_left is_whitespace].
  change (is_whitespace "0") with false. cbv iota.
  destruct (exists_last Hne) as (l' & z & ->).
  assert (Hz : is_whitespace z = false).
  { apply hex_char_not_whitespace.
    rewrite forallb_app in H. apply andb_true_iff in H as [_ H].
    cbn [forallb] in H. now apply andb_true_iff in H as [H _]. }
  assert (R : rev ("0"%char :: "x"%char :: l' ++ [z])
              = z :: rev ("0"%char :: "x"%char :: l')).
  { cbn [rev]. rewrite rev_app_distr. reflexivity. }
  rewrite R. cbn [trim_left]. rewrite Hz. rewrite <- R.
  apply rev_involutive.
Qed.

(** X4. On a non-empty string of an even number of hex digits,
    [hexToBytes] gives the same bytes with and without the [0x] prefix:
    one byte for every two digits, most significant first, so that the
    bytes denote the number that [BigInt] reads from the prefixed
    string. *)
Theorem hexToBytes_big_endian :
  forall h : string,
    is_hex h = true -> h <> EmptyString ->
    Nat.even (String.length h) = true ->
    hexToBytes ("0x" ++ h) = hexToBytes h
    /\ List.length (hexToBytes h) = Nat.div2 (String.length h)
    /\ BigInt ("0x" ++ h) = Ret (be_value (hexToBytes ("0x" ++ h))).
Proof.
  intros h H Hne He.
  assert (E : hexToBytes ("0x" ++ h) = hexToBytes h).
  { unfold hexToBytes. change ("0x" ++ h)%string with (with_prefix true h).
    rewrite (clean_with_prefix true h H).
    now rewrite (replace_first_hex h H). }
  split; [exact E|]. split.
  - unfold hexToBytes. rewrite (replace_first_hex h H).
    now rewrite hex_pairs_length, length_list_ascii.
  - rewrite E. unfold hexToBytes, be_value.
    rewrite (replace_first_hex h H). unfold BigInt.
    change (list_ascii_of_string ("0x" ++ h))
      with ("0"%char :: "x"%char :: list_ascii_of_string h).
    assert (Hl : list_ascii_of_string h <> []) by (now destruct h).
    rewrite (trim_0x_hex _ (is_hex_chars h H) Hl).
    cbn [Ascii.eqb Bool.eqb orb].
    unfold nonempty_digits.
    destruct (list_ascii_of_string h) as [|c l] eqn:El; [contradiction|].
    rewrite <- El.
    rewrite (hex_pairs_digits _ 0 (is_hex_chars h H))
      by (now rewrite length_list_ascii).
    reflexivity.
Qed.

Lemma hexToBytes_big_endian_witness :
  hexToBytes "0xABCDEF" = [171; 205; 239]
  /\ BigInt "0xABCDEF" = Ret 11259375.
Proof.
  destruct (hexToBytes_big_endian "ABCDEF") as (H1 & _ & H3).
  - reflexivity.
  - discriminate.
  - reflexivity.
  - split.
    + transitivity (hexToBytes "ABCDEF"); [exact H1|reflexivity].
    + etransitivity; [exact H3|reflexivity].
Defined.

End HexFacts.

(** ** The recipient of a burn *)

Section BurnRecipient.

Import Codec Script.Sender.

Variable env : Env.
Variable params : CrossChainParams.

Lemma emits_elapse : forall P ms, emits P (elapse ms).
Proof. intros P ms w. exists []. now rewrite app_nil_r. Qed.

Lemma emits_sleep : forall (P : Event -> Prop) ms,
  P (EvSleep ms) -> emits P (sleep ms).
Proof.
  intros P ms H. unfold sleep.
  apply emits_bind; [now apply emits_call|]. intros _. apply emits_elapse.
Qed.

Lemma emits_bind_ret : forall P {A B} (a : A) (k : A -> M World B),
  emits P (k a) -> emits P (bind (lift_outcome (Ret a)) k).
Proof. intros P A B a k H w. exact (H w). Qed.

(** What the guard of [depositForBurn] lets through. *)
Lemma guard_passes : forall s,
  negb (startsWith s "0x") || negb (String.length s =? 66)%nat = false ->
  startsWith s "0x" = true /\ String.length s = 66%nat
  /\ aptosAddressToBytes32 s = Ret s.
Proof.
  intros s H. apply orb_false_iff in H as [H1 H2].
  apply negb_false_iff in H1, H2. apply Nat.eqb_eq in H2.
  split; [exact H1|]. split; [exact H2|].
  unfold startsWith in H1.
  destruct s as [|c1 [|c2 body]]; cbn [String.prefix] in H1;
    try discriminate H1.
  - destruct (ascii_dec "0" c1); discriminate H1.
  - destruct (ascii_dec "0" c1) as [<-|]; [|discriminate H1].
    destruct (ascii_dec "x" c2) as [<-|]; [|discriminate H1].
    apply (aptosAddressToBytes32_prefixed body).
    cbn [String.length] in H2. lia.
Qed.

Ltac other_call := apply emits_call; intros H; discriminate H.

Lemma attempt_try_burn : emits (burn_as_requested params) (attempt_try env params).
Proof.
  unfold attempt_try.
  apply emits_bind; [other_call|intros _].
  destruct (negb _ || negb _) eqn:G; [apply emits_throw|].
  destruct (guard_passes _ G) as (G1 & G2 & G3).
  apply emits_bind; [other_call|intros decimals].
  apply emits_bind; [apply emits_lift_outcome|intros amountWei].
  rewrite G3. apply emits_bind_ret.
  apply emits_bind; [other_call|intros currentNonce].
  apply emits_bind.
  { apply emits_call. intros _. split; [exact G1|]. split; [exact G2|].
    now exists amountWei. }
  intros tx.
  apply emits_bind; [apply emits_lift_outcome|intros _].
  apply emits_bind; [|intros messageEvent; apply emits_ret].
  unfold Script.Attestation.extractMessageFromTransaction.
  repeat first
    [ apply emits_ret
    | apply emits_throw
    | apply emits_lift_outcome
    | other_call
    | apply emits_bind; [|intros ?]
    | match goal with
      | |- emits _ (if ?b then _ else _) => destruct b
      | |- emits _ (match ?x with _ => _ end) => destruct x
      end ].
Qed.

Lemma attempt_loop_burn : forall n attempt lastError,
  emits (burn_as_requested params) (attempt_loop env params n attempt lastError).
Proof.
  induction n as [|n IH]; intros attempt lastError; cbn [attempt_loop].
  - apply emits_throw.
  - apply emits_try_catch; [apply attempt_try_burn|]. intros error.
    destruct (code_is error "NONCE_EXPIRED" && (attempt <? maxRetries)%nat).
    + apply emits_bind; [|intros _; apply IH].
      apply emits_sleep. intros H. discriminate H.
    + destruct (attempt =? maxRetries)%nat; [apply emits_throw|apply IH].
Qed.

End BurnRecipient.

(** X5. In the script runtime the guard of [depositForBurn] and the codec
    compose to the identity: whatever the chain answers and however many
    attempts are made, every burn that [depositForBurn] sends names as
    mint recipient the recipient address of the request, character for
    character, and that address starts with [0x] and has 66 characters;
    the destination domain is 9 and the token is USDC. *)
Theorem script_depositForBurn_recipient :
  forall (env : Env) (params : Script.Sender.CrossChainParams) (w : World),
  exists new : list Event,
    calls (snd (Script.Sender.depositForBurn env params w)) = calls w ++ new
    /\ Forall
         (fun ev =>
            op_of ev = OpDepositForBurn ->
            startsWith (Script.Sender.recipientAddress params) "0x" = true
            /\ String.length (Script.Sender.recipientAddress params) = 66%nat
            /\ exists amountWei,
                 ev = EvDepositForBurn amountWei 9
                        (Script.Sender.recipientAddress params)
                        Script.Config.usdc None)
         new.
Proof.
  intros env params w.
  exact (attempt_loop_burn env params Script.Sender.maxRetries 1 None w).
Qed.

Section InvalidRecipient.

Import Script.Sender.

Lemma attempt_try_invalid : forall env params w,
  negb (startsWith (recipientAddress params) "0x")
  || negb (String.length (recipientAddress params) =? 66)%nat = true ->
  (forall k, exists a, signer_getAddress env k = Ret a) ->
  attempt_try env params w
  = (Threw invalid_format, mkWorld (now w) (calls w ++ [EvGetAddress])).
Proof.
  intros env params w G Ha. unfold attempt_try, bind, call. cbn [op_of].
  destruct (Ha (count_op OpGetAddress (calls w))) as [a ->].
  now rewrite G.
Qed.

(** X6. In the script runtime, a recipient address that does not start
    with [0x] or has not 66 characters is refused by every one of the
    three attempts of [depositForBurn]: the signer is asked for its
    address three times, nothing else is called, no time passes, and the
    error of the format reaches the caller. *)
Theorem script_depositForBurn_invalid_recipient :
  forall (env : Env) (params : CrossChainParams) (w : World),
    negb (startsWith (recipientAddress params) "0x")
    || negb (String.length (recipientAddress params) =? 66)%nat = true ->
    (forall k, exists a, signer_getAddress env k = Ret a) ->
    depositForBurn env params w
    = (Threw (Error "Invalid Aptos address format, should be 64-character hexadecimal address"),
       mkWorld (now w)
         (calls w ++ [EvGetAddress; EvGetAddress; EvGetAddress])).
Proof.
  intros env params w G Ha. rewrite depositForBurn_attempts.
  rewrite (attempt_try_invalid env params w G Ha).
  change (backoff invalid_format ?x) with x.
  rewrite (attempt_try_invalid env params _ G Ha).
  change (backoff invalid_format ?x) with x.
  rewrite (attempt_try_invalid env params _ G Ha).
  cbn [now calls]. now rewrite <- !app_assoc.
Qed.

Lemma script_depositForBurn_invalid_recipient_witness :
  depositForBurn Stubs.happy (mkParams "3.0" Stubs.stray_0x) Stubs.start
  = (Threw (Error "Invalid Aptos address format, should be 64-character hexadecimal address"),
     mkWorld 0 [EvGetAddress; EvGetAddress; EvGetAddress]).
Proof.
  apply (script_depositForBurn_invalid_recipient Stubs.happy
           (mkParams "3.0" Stubs.stray_0x) Stubs.start).
  - reflexivity.
  - intros k. now exists "0xsender".
Defined.

End InvalidRecipient.

(** ** Amounts that are not numbers *)

Section NotANumber.

Import Script.Sender.

Lemma SFcompare_refl : forall f,
  f <> S754_nan -> SFcompare f f = Some Eq.
Proof.
  intros [s| s| |s m e] H; cbn [SFcompare].
  - reflexivity.
  - now destruct s.
  - contradiction.
  - rewrite Z.compare_refl, Pos.compare_cont_refl. now destruct s.
Qed.

Lemma is_nan_Prim2SF : forall f,
  PrimFloat.is_nan f = true -> Prim2SF f = S754_nan.
Proof.
  intros f H. unfold PrimFloat.is_nan in H. apply negb_true_iff in H.
  rewrite eqb_spec in H. unfold SFeqb in H.
  destruct (Prim2SF f) as [s| s| |s m e] eqn:E; [| |reflexivity|];
    rewrite SFcompare_refl in H by discriminate; discriminate H.
Qed.

(** A comparison with [NaN] is false. *)
Lemma ltb_nan : forall x y,
  PrimFloat.is_nan x = true \/ PrimFloat.is_nan y = true ->
  PrimFloat.ltb x y = false.
Proof.
  intros x y H. rewrite ltb_spec. unfold SFltb.
  destruct H as [H|H]; apply is_nan_Prim2SF in H; rewrite H.
  - reflexivity.
  - now destruct (Prim2SF x).
Qed.

(** X8. The balance check of the script runtime compares what
    [parseFloat] reads. When [parseFloat] reads no number from the
    requested amount, or from the balance, the comparison is false and
    the check lets the request through: [executeFullCrossChain] goes on
    with the approval and the burn as if the balance were sufficient. *)
Theorem script_balance_check_passes_NaN :
  forall (env : Env) (params : CrossChainParams) (w : World)
         (userAddress balance : string) (w2 : World),
    signer_getAddress env (count_op OpGetAddress (calls w)) = Ret userAddress ->
    checkUSDCBalance env userAddress (mkWorld (now w) (calls w ++ [EvGetAddress]))
    = (Ret balance, w2) ->
    PrimFloat.is_nan (parseFloat env balance) = true
    \/ PrimFloat.is_nan (parseFloat env (amount params)) = true ->
    balance_below env balance (amount params) = false
    /\ executeFullCrossChain env params w
       = (approveUSDC env (amount params) ;; depositForBurn env params) w2.
Proof.
  intros env params w userAddress balance w2 Ha Hb Hnan.
  assert (G : balance_below env balance (amount params) = false)
    by (apply ltb_nan; exact Hnan).
  split; [exact G|].
  unfold executeFullCrossChain. unfold bind at 1. unfold call at 1.
  cbn [op_of]. rewrite Ha. unfold bind at 1. rewrite Hb, G.
  unfold bind. destruct (approveUSDC env (amount params) w2) as [[h|e] w3];
    [|reflexivity].
  now destruct (depositForBurn env params w3) as [[r|e] w4].
Qed.

Lemma script_balance_check_passes_NaN_witness :
  balance_below Stubs.happy "5.0" "abc" = false
  /\ executeFullCrossChain Stubs.happy (mkParams "abc" Stubs.recipient) Stubs.start
     = (Threw (mkError "invalid FixedNumber string value" (Some "INVALID_ARGUMENT")),
        mkWorld 0 [EvGetAddress; EvBalanceOf "0xsender"; EvDecimals; EvDecimals]).
Proof.
  destruct (script_balance_check_passes_NaN Stubs.happy
              (mkParams "abc" Stubs.recipient) Stubs.start "0xsender" "5.0"
              (mkWorld 0 [EvGetAddress; EvBalanceOf "0xsender"; EvDecimals]))
    as [H1 H2].
  - reflexivity.
  - reflexivity.
  - right. reflexivity.
  - split; [exact H1|]. rewrite H2. reflexivity.
Defined.

End NotANumber.

(** ** The nonces of the mobile sender *)

Section MobileNonces.

Import Mobile.Config Mobile.Sender.

(** What a run of [executeFullCrossChain] of the mobile runtime that
    returns went through: the answers that it received, and the calls
    that it made. *)
Lemma mobile_executeFullCrossChain_run :
  forall (env : Env) (amount recipientAddress : string) (w w' : World)
         (result : BaseSendResult),
    executeFullCrossChain env amount recipientAddress w = (Ret result, w') ->
    exists (n decimals amountWei : Z) (mintRecipient : string)
           (approveTx tx : TxResponse) (receipt : Receipt),
      signer_getNonce env (count_op OpGetNonce (calls w)) = Ret n
      /\ usdc_approve env (count_op OpApprove (calls w)) tokenMessengerV2
           MaxUint256 (Some n) = Ret approveTx
      /\ is_ret (wait approveTx) = true
      /\ usdc_decimals env (S (count_op OpDecimals (calls w))) = Ret decimals
      /\ ethers_parseUnits env amount decimals = Ret amountWei
      /\ Codec.aptosAddressToBytes32 recipientAddress = Ret mintRecipient
      /\ tokenMessenger_depositForBurn env
           (count_op OpDepositForBurn (calls w)) amountWei 9 mintRecipient usdc
           (Some (n + 1)) = Ret tx
      /\ wait tx = Ret receipt
      /\ txHash result = hash tx
      /\ calls w'
         = calls w
           ++ [EvGetNonce (Some "latest"); EvDecimals;
               EvApprove tokenMessengerV2 MaxUint256 (Some n);
               EvDecimals;
               EvDepositForBurn amountWei 9 mintRecipient usdc (Some (n + 1))].
Proof.
  intros env amount recipientAddress w w' result H.
  unfold executeFullCrossChain in H.
  apply bind_ret_inv in H as (n & w1 & E1 & H).
  apply call_inv in E1 as [E1 ->]. cbn [op_of] in E1.
  apply bind_ret_inv in H as (h & w2 & E2 & H).
  unfold approveUSDC in E2.
  apply bind_ret_inv in E2 as (dec & w3 & E3 & E2).
  apply call_inv in E3 as [_ ->]. cbn [nonce_or_latest] in E2.
  apply bind_ret_inv in E2 as (n' & w4 & E4 & E2).
  injection E4 as <- <-.
  apply bind_ret_inv in E2 as (approveTx & w5 & E5 & E2).
  apply call_inv in E5 as [E5 ->]. cbn [op_of now calls] in E5.
  apply bind_ret_inv in E2 as (rc & w6 & E6 & E2).
  apply lift_outcome_inv in E6 as [E6 <-]. injection E2 as _ <-.
  apply bind_ret_inv in H as (r & w7 & E7 & H). injection H as <- <-.
  unfold depositForBurn in E7.
  apply bind_ret_inv in E7 as (decimals & w8 & E8 & E7).
  apply call_inv in E8 as [E8 ->]. cbn [op_of now calls] in E8.
  apply bind_ret_inv in E7 as (amountWei & w9 & E9 & E7).
  apply lift_outcome_inv in E9 as [E9 <-].
  apply bind_ret_inv in E7 as (mint & w10 & E10 & E7).
  apply lift_outcome_inv in E10 as [E10 <-]. cbn [nonce_or_latest] in E7.
  apply bind_ret_inv in E7 as (n'' & w11 & E11 & E7).
  injection E11 as <- <-.
  apply bind_ret_inv in E7 as (tx & w12 & E12 & E7).
  apply call_inv in E12 as [E12 ->]. cbn [op_of now calls] in E12.
  apply bind_ret_inv in E7 as (receipt & w13 & E13 & E7).
  apply lift_outcome_inv in E13 as [E13 <-].
  repeat rewrite <- app_assoc in E5. repeat rewrite <- app_assoc in E8.
  repeat rewrite <- app_assoc in E12. cbn [app] in E5, E8, E12.
  rewrite count_op_app in E5. rewrite count_op_app in E8.
  rewrite count_op_app in E12.
  change (count_op OpApprove [EvGetNonce (Some "latest"); EvDecimals])
    with 0%nat in E5.
  change (count_op OpDecimals
            [EvGetNonce (Some "latest"); EvDecimals;
             EvApprove tokenMessengerV2 MaxUint256 (Some n)])
    with 1%nat in E8.
  change (count_op OpDepositForBurn
            [EvGetNonce (Some "latest"); EvDecimals;
             EvApprove tokenMessengerV2 MaxUint256 (Some n); EvDecimals])
    with 0%nat in E12.
  rewrite Nat.add_0_r in E5, E12. rewrite Nat.add_1_r in E8.
  exists n, decimals, amountWei, mint, approveTx, tx, receipt.
  split; [now symmetry|]. split; [now symmetry|].
  split; [now rewrite E6|]. split; [now symmetry|].
  split; [exact E9|]. split; [exact E10|]. split; [now symmetry|].
  split; [exact E13|].
  destruct (find _ (logs receipt)) as [messageSentLog|]; [|discriminate E7].
  apply bind_ret_inv in E7 as (mb & w14 & E14 & E7).
  apply lift_outcome_inv in E14 as [_ <-]. injection E7 as <- <-.
  split; [reflexivity|]. cbn [now calls]. now rewrite <- !app_assoc.
Qed.

(** X9. Every run of [executeFullCrossChain] of the mobile runtime that
    returns asked the signer for its nonce [n] once, sent the approval
    with the nonce [n] and, once the approval was confirmed, the burn
    with the nonce [n + 1]. The approval is for [MaxUint256], whatever
    the amount. The burn is for the amount that [parseUnits] makes of
    the requested amount and of the decimals that the token answered
    just before, to the encoded recipient, on domain 9; the chain
    accepted and confirmed it, and its hash is the [txHash] of the
    result. The calls to the signer and to the two contracts are, in
    this order: the nonce, [decimals()], the approval, [decimals()], the
    burn. *)
Theorem mobile_executeFullCrossChain_nonces :
  forall (env : Env) (amount recipientAddress : string) (w w' : World)
         (result : BaseSendResult),
    executeFullCrossChain env amount recipientAddress w = (Ret result, w') ->
    exists (n decimals amountWei : Z) (mintRecipient : string)
           (approveTx tx : TxResponse) (receipt : Receipt),
      signer_getNonce env (count_op OpGetNonce (calls w)) = Ret n
      /\ usdc_approve env (count_op OpApprove (calls w)) tokenMessengerV2
           MaxUint256 (Some n) = Ret approveTx
      /\ is_ret (wait approveTx) = true
      /\ usdc_decimals env (S (count_op OpDecimals (calls w))) = Ret decimals
      /\ ethers_parseUnits env amount decimals = Ret amountWei
      /\ Codec.aptosAddressToBytes32 recipientAddress = Ret mintRecipient
      /\ tokenMessenger_depositForBurn env
           (count_op OpDepositForBurn (calls w)) amountWei 9 mintRecipient usdc
           (Some (n + 1)) = Ret tx
      /\ wait tx = Ret receipt
      /\ txHash result = hash tx
      /\ added w w'
         = [EvGetNonce (Some "latest"); EvDecimals;
            EvApprove tokenMessengerV2 MaxUint256 (Some n);
            EvDecimals;
            EvDepositForBurn amountWei 9 mintRecipient usdc (Some (n + 1))].
Proof.
  intros env amount recipientAddress w w' result H.
  destruct (mobile_executeFullCrossChain_run env amount recipientAddress w w'
              result H)
    as (n & decimals & amountWei & mint & approveTx & tx & receipt
        & H1 & H2 & H3 & H4 & H5 & H6 & H7 & H8 & H9 & H10).
  exists n, decimals, amountWei, mint, approveTx, tx, receipt.
  repeat (split; [assumption|]).
  now apply added_calls.
Qed.

Lemma mobile_executeFullCrossChain_nonces_witness :
  added Stubs.start
    (snd (executeFullCrossChain Stubs.happy "1.0" Stubs.recipient Stubs.start))
  = [EvGetNonce (Some "latest"); EvDecimals;
     EvApprove tokenMessengerV2 MaxUint256 (Some 7);
     EvDecimals;
     EvDepositForBurn 1000000 9 Stubs.recipient usdc (Some 8)].
Proof.
  destruct (mobile_executeFullCrossChain_nonces Stubs.happy "1.0" Stubs.recipient
              Stubs.start
              (snd (executeFullCrossChain Stubs.happy "1.0" Stubs.recipient
                      Stubs.start))
              (mkSend "0xburn" (Some "0x2a") (Some "0xmessage")))
    as (n & decimals & amountWei & mint & approveTx & tx & receipt
        & Hn & _ & _ & Hd & Hp & Hm & _ & _ & _ & Hlog).
  - vm_compute. reflexivity.
  - injection Hn as <-. injection Hd as <-. injection Hp as <-.
    injection Hm as <-. exact Hlog.
Defined.

(** X10. The mobile sender validates the recipient address only inside
    [depositForBurn], after the approval. With a recipient whose address
    without [0x] has not 64 characters, a run in which the approval is
    confirmed ends with the error of the address length: by then the
    unlimited approval is on the chain, and no burn was sent. *)
Theorem mobile_sender_approves_before_validating :
  forall (env : Env) (amount recipientAddress : string) (w w2 : World)
         (n decimals amountWei : Z) (approveHash : string),
    String.length (replace_first "0x" "" recipientAddress) <> 64%nat ->
    signer_getNonce env (count_op OpGetNonce (calls w)) = Ret n ->
    approveUSDC env amount (Some n)
      (mkWorld (now w) (calls w ++ [EvGetNonce (Some "latest")]))
    = (Ret approveHash, w2) ->
    usdc_decimals env (count_op OpDecimals (calls w2)) = Ret decimals ->
    ethers_parseUnits env amount decimals = Ret amountWei ->
    executeFullCrossChain env amount recipientAddress w
    = (Threw (Error "Invalid Aptos address length"),
       mkWorld (now w2) (calls w2 ++ [EvDecimals]))
    /\ added w w2
       = [EvGetNonce (Some "latest"); EvDecimals;
          EvApprove tokenMessengerV2 MaxUint256 (Some n)].
Proof.
  intros env amount recipientAddress w w2 n decimals amountWei approveHash
    Hlen Hn Happ Hdec Hparse.
  split.
  - unfold executeFullCrossChain. unfold bind at 1. unfold call at 1.
    cbn [op_of]. rewrite Hn. unfold bind at 1. rewrite Happ.
    unfold bind at 1. unfold depositForBurn. unfold bind at 1.
    unfold call at 1. cbn [op_of]. rewrite Hdec.
    unfold bind at 1. unfold lift_outcome at 1. rewrite Hparse.
    unfold bind at 1. unfold lift_outcome at 1.
    unfold Codec.aptosAddressToBytes32.
    apply Nat.eqb_neq in Hlen. rewrite Hlen. reflexivity.
  - unfold approveUSDC in Happ.
    apply bind_ret_inv in Happ as (dec & w3 & E3 & Happ).
    apply call_inv in E3 as [_ ->]. cbn [nonce_or_latest] in Happ.
    apply bind_ret_inv in Happ as (n' & w4 & E4 & Happ).
    injection E4 as <- <-.
    apply bind_ret_inv in Happ as (approveTx & w5 & E5 & Happ).
    apply call_inv in E5 as [_ ->].
    apply bind_ret_inv in Happ as (rc & w6 & E6 & Happ).
    apply lift_outcome_inv in E6 as [_ <-]. injection Happ as _ <-.
    apply added_calls. cbn [now calls]. now rewrite <- !app_assoc.
Qed.

Lemma mobile_sender_approves_before_validating_witness :
  executeFullCrossChain Stubs.happy "1.0" "0x1234" Stubs.start
  = (Threw (Error "Invalid Aptos address length"),
     mkWorld 0 [EvGetNonce (Some "latest"); EvDecimals;
                EvApprove tokenMessengerV2 MaxUint256 (Some 7); EvDecimals]).
Proof.
  refine (proj1 (mobile_sender_approves_before_validating Stubs.happy "1.0"
                   "0x1234" Stubs.start
                   (mkWorld 0 [EvGetNonce (Some "latest"); EvDecimals;
                               EvApprove tokenMessengerV2 MaxUint256 (Some 7)])
                   7 6 1000000 "0xapprove" _ _ _ _ _)).
  - cbn. lia.
  - reflexivity.
  - reflexivity.
  - reflexivity.
  - reflexivity.
Defined.

End MobileNonces.

(** ** Waiting for the receipt of the burn *)

Section ReceiptFacts.

Import Mobile.Attestation.

Variable env : Env.
Variable txHash : string.

Lemma after_lookups_world : forall k w,
  after_lookups txHash k w
  = mkWorld (now w + 2000 * Z.of_nat k)
      (calls w ++ concat (repeat (lookup_and_sleep txHash) k)).
Proof.
  induction k as [|k IH]; intros w; cbn [after_lookups repeat concat].
  - destruct w as [t l]. cbn [now calls]. rewrite app_nil_r. f_equal. lia.
  - rewrite IH. cbn [now calls]. rewrite <- app_assoc. f_equal. lia.
Qed.

Lemma count_receipt_after_lookups : forall k w,
  count_op OpGetTransactionReceipt (calls (after_lookups txHash k w))
  = (count_op OpGetTransactionReceipt (calls w) + k)%nat.
Proof.
  induction k as [|k IH]; intros w; cbn [after_lookups].
  - lia.
  - rewrite IH. cbn [calls]. rewrite count_op_app. cbn. lia.
Qed.

(** One turn of the [for] loop that finds no receipt. *)
Lemma receipt_loop_none : forall n w,
  provider_getTransactionReceipt env
    (count_op OpGetTransactionReceipt (calls w)) txHash = Ret None ->
  receipt_loop env txHash (S n) w
  = receipt_loop env txHash n (after_lookups txHash 1 w).
Proof.
  intros n w H. cbn [receipt_loop after_lookups].
  unfold bind at 1. unfold call at 1. cbn [op_of]. rewrite H.
  unfold bind at 1. unfold sleep, bind, call, elapse. cbn [now calls].
  unfold lookup_and_sleep. now rewrite <- app_assoc.
Qed.

Lemma receipt_loop_nones : forall k n w,
  (forall j, (j < k)%nat ->
     provider_getTransactionReceipt env
       (count_op OpGetTransactionReceipt (calls w) + j) txHash = Ret None) ->
  receipt_loop env txHash (k + n) w
  = receipt_loop env txHash n (after_lookups txHash k w).
Proof.
  induction k as [|k IH]; intros n w H.
  - reflexivity.
  - cbn [Nat.add]. rewrite receipt_loop_none.
    + cbn [after_lookups]. apply IH. intros j Hj.
      cbn [calls]. rewrite count_op_app. cbn.
      replace (count_op OpGetTransactionReceipt (calls w) + 1 + j)%nat
        with (count_op OpGetTransactionReceipt (calls w) + S j)%nat by lia.
      apply H. lia.
    + rewrite <- (Nat.add_0_r (count_op _ _)). apply H. lia.
Qed.

End ReceiptFacts.

(** X11. [extractMessageHash] of the mobile runtime looks the receipt up at
    most 15 times and sleeps two seconds after every lookup that finds
    none, the last one included: when the provider has no receipt for 15
    lookups in a row, the call throws its error after exactly 15 lookups
    and 15 sleeps, 30 seconds of sleep in all. *)
Theorem extractMessageHash_gives_up :
  forall (env : Env) (txHash : string) (w : World),
    (forall j, (j < 15)%nat ->
       provider_getTransactionReceipt env
         (count_op OpGetTransactionReceipt (calls w) + j) txHash = Ret None) ->
    Mobile.Attestation.extractMessageHash env txHash w
    = (Threw (Error "Unable to get transaction receipt, please try again later"),
       mkWorld (now w + 30000)
         (calls w
          ++ concat (repeat [EvGetTransactionReceipt txHash; EvSleep 2000] 15))).
Proof.
  intros env txHash w H. unfold Mobile.Attestation.extractMessageHash.
  unfold bind at 1.
  change 15%nat with (15 + 0)%nat at 1.
  rewrite (receipt_loop_nones env txHash 15 0 w H).
  cbn [Mobile.Attestation.receipt_loop]. unfold ret, throw.
  now rewrite after_lookups_world.
Qed.

Lemma extractMessageHash_gives_up_witness :
  fst (Mobile.Attestation.extractMessageHash Stubs.never_mined "0xburn" Stubs.start)
  = Threw (Error "Unable to get transaction receipt, please try again later")
  /\ now (snd (Mobile.Attestation.extractMessageHash Stubs.never_mined "0xburn"
                 Stubs.start)) = 30000.
Proof.
  rewrite (extractMessageHash_gives_up Stubs.never_mined "0xburn" Stubs.start).
  - split; reflexivity.
  - intros j _. reflexivity.
Defined.

(** X12. When the provider has no receipt for the first [k] lookups, with
    [k] below 15, and answers the next one, [extractMessageHash] has then
    slept [k] times two seconds and looks no further: an error of the
    provider is thrown on as it is; the receipt of a reverted
    transaction (status 0) gives the error of the failed execution; and
    any other receipt gives the bytes of its [MessageSent] event and
    their hash. *)
Theorem extractMessageHash_waits_for_receipt :
  forall (env : Env) (txHash : string) (w : World) (k : nat)
         (answer : Outcome (option Receipt)),
    let c := count_op OpGetTransactionReceipt (calls w) in
    let run := Mobile.Attestation.extractMessageHash env txHash w in
    (k < 15)%nat ->
    (forall j, (j < k)%nat ->
       provider_getTransactionReceipt env (c + j) txHash = Ret None) ->
    provider_getTransactionReceipt env (c + k) txHash = answer ->
    answer <> Ret None ->
    snd run
    = mkWorld (now w + 2000 * Z.of_nat k)
        (calls w
         ++ concat (repeat [EvGetTransactionReceipt txHash; EvSleep 2000] k)
         ++ [EvGetTransactionReceipt txHash])
    /\ (forall e, answer = Threw e -> fst run = Threw e)
    /\ (forall receipt,
          answer = Ret (Some receipt) -> receipt_status receipt = Some 0 ->
          fst run = Threw (Error "Transaction execution failed"))
    /\ (forall receipt messageSentLog messageBytes messageHash,
          answer = Ret (Some receipt) -> receipt_status receipt <> Some 0 ->
          find (topic0_is (ethers_id env messageSentSignature)) (logs receipt)
          = Some messageSentLog ->
          abi_decode_bytes env (data messageSentLog) = Ret messageBytes ->
          ethers_keccak256 env messageBytes = Ret messageHash ->
          fst run = Ret (messageHash, messageBytes)).
Proof.
  intros env txHash w k answer c run Hk Hnone Hans Hsome.
  assert (R : Mobile.Attestation.receipt_loop env txHash 15 w
              = Mobile.Attestation.receipt_loop env txHash (S (14 - k))
                  (after_lookups txHash k w)).
  { replace 15%nat with (k + S (14 - k))%nat at 1 by lia.
    apply receipt_loop_nones. exact Hnone. }
  assert (L : Mobile.Attestation.receipt_loop env txHash (S (14 - k))
                (after_lookups txHash k w)
              = (match answer with
                 | Ret (Some r) => Ret (Some r)
                 | Ret None => Ret None
                 | Threw e => Threw e
                 end,
                 mkWorld (now w + 2000 * Z.of_nat k)
                   (calls w
                    ++ concat (repeat (lookup_and_sleep txHash) k)
                    ++ [EvGetTransactionReceipt txHash]))).
  { cbn [Mobile.Attestation.receipt_loop]. unfold bind at 1. unfold call at 1.
    cbn [op_of]. rewrite count_receipt_after_lookups. fold c. rewrite Hans.
    rewrite after_lookups_world. cbn [now calls]. rewrite <- app_assoc.
    destruct answer as [[r|]|e]; [reflexivity|contradiction|reflexivity]. }
  unfold lookup_and_sleep in L.
  destruct answer as [[r|]|e]; [|contradiction|].
  - assert (E : run
                = (if match receipt_status r with Some 0 => true | _ => false end
                   then throw (Error "Transaction execution failed")
                   else
                     match find (topic0_is (ethers_id env messageSentSignature))
                             (logs r) with
                     | None => throw (Error "MessageSent event not found")
                     | Some messageSentLog =>
                         messageBytes <-
                           lift_outcome
                             (abi_decode_bytes env (data messageSentLog)) ;;
                         messageHash <-
                           lift_outcome (ethers_keccak256 env messageBytes) ;;
                         ret (messageHash, messageBytes)
                     end)
                    (mkWorld (now w + 2000 * Z.of_nat k)
                       (calls w
                        ++ concat
                             (repeat [EvGetTransactionReceipt txHash;
                                      EvSleep 2000] k)
                        ++ [EvGetTransactionReceipt txHash]))).
    { unfold run, Mobile.Attestation.extractMessageHash. unfold bind at 1.
      now rewrite R, L. }
    rewrite E. clear E. split; [|split; [|split]].
    + destruct (receipt_status r) as [[| |]|]; try reflexivity;
        (destruct (find _ (logs r)) as [l|]; [|reflexivity]);
        unfold bind, lift_outcome;
        (destruct (abi_decode_bytes env (data l)); [|reflexivity]);
        now destruct (ethers_keccak256 env _).
    + intros e H. discriminate H.
    + intros receipt H Hs. injection H as <-. now rewrite Hs.
    + intros receipt l mb h H Hs Hf Hd Hh. injection H as <-.
      assert (G : match receipt_status r with Some 0 => true | _ => false end
                  = false).
      { destruct (receipt_status r) as [[| |]|]; try reflexivity.
        now contradiction Hs. }
      rewrite G, Hf. unfold bind, lift_outcome. now rewrite Hd, Hh.
  - assert (E : run
                = (Threw e,
                   mkWorld (now w + 2000 * Z.of_nat k)
                     (calls w
                      ++ concat
                           (repeat [EvGetTransactionReceipt txHash;
                                    EvSleep 2000] k)
                      ++ [EvGetTransactionReceipt txHash]))).
    { unfold run, Mobile.Attestation.extractMessageHash. unfold bind at 1.
      now rewrite R, L. }
    rewrite E. clear E. split; [reflexivity|]. split; [|split].
    + intros e' H. now injection H as <-.
    + intros receipt H. discriminate H.
    + intros receipt l mb h H. discriminate H.
Qed.

Lemma extractMessageHash_waits_for_receipt_witness :
  Mobile.Attestation.extractMessageHash (Stubs.mined_after 3) "0xburn" Stubs.start
  = (Ret ("keccak:0xmessage", "0xmessage"),
     mkWorld 6000
       [EvGetTransactionReceipt "0xburn"; EvSleep 2000;
        EvGetTransactionReceipt "0xburn"; EvSleep 2000;
        EvGetTransactionReceipt "0xburn"; EvSleep 2000;
        EvGetTransactionReceipt "0xburn"]).
Proof.
  destruct (extractMessageHash_waits_for_receipt (Stubs.mined_after 3) "0xburn"
              Stubs.start 3 (Ret (Some (Stubs.burn_receipt Stubs.id_stub))))
    as (Hw & _ & _ & Hr).
  - lia.
  - intros j Hj. cbn.
    destruct j as [|[|[|j]]]; try reflexivity. lia.
  - reflexivity.
  - discriminate.
  - apply injective_projections.
    + cbn [fst].
      refine (Hr (Stubs.burn_receipt Stubs.id_stub)
                (mkLog "0xMessageTransmitter"
                   [Stubs.id_stub messageSentSignature] "0xabi(0xmessage)")
                "0xmessage" "keccak:0xmessage" eq_refl _ eq_refl eq_refl eq_refl).
      discriminate.
    + cbn [snd]. rewrite Hw. reflexivity.
Defined.

(** ** What the polling returns *)

Section PollingReturns.

Variable env : Env.
Variable cfg : CircleApi.
Variable messageHash : string.

Lemma is_complete_attestation : forall data,
  is_complete data = true ->
  body_status data = Some "complete"
  /\ truthy (opt_string (body_attestation data)) = true.
Proof.
  intros data H. unfold is_complete in H.
  destruct (body_status data) as [st|]; [|discriminate H].
  destruct (body_attestation data) as [a|]; [|discriminate H].
  apply andb_true_iff in H as [H1 H2]. apply String.eqb_eq in H1.
  now subst st.
Qed.

Lemma mobile_poll_return : forall retries w a w',
  try_catch (Mobile.Attestation.poll_try env cfg messageHash retries)
    (Mobile.Attestation.poll_catch cfg retries) w
  = (Ret (Return a), w') ->
  complete_for messageHash a.
Proof.
  intros retries w a w' H. unfold try_catch in H.
  destruct (Mobile.Attestation.poll_try env cfg messageHash retries w)
    as [[st|e] w1] eqn:E.
  - injection H as -> <-. unfold Mobile.Attestation.poll_try in E.
    apply bind_ret_inv in E as (r & w2 & _ & E).
    destruct (negb (ok r)).
    + destruct (status r =? 404); [|discriminate E].
      apply bind_ret_inv in E as (u & w3 & _ & E). discriminate E.
    + apply bind_ret_inv in E as (data & w3 & _ & E).
      destruct (is_complete data) eqn:C.
      * injection E as <- _. destruct (is_complete_attestation data C) as [_ T].
        repeat split. exact T.
      * apply bind_ret_inv in E as (u & w4 & _ & E). discriminate E.
  - unfold Mobile.Attestation.poll_catch in H.
    destruct (retries =? maxRetries cfg - 1)%nat; [discriminate H|].
    apply bind_ret_inv in H as (u & w3 & _ & H). discriminate H.
Qed.

Lemma mobile_poll_loop_return : forall startTime n retries w a w',
  Mobile.Attestation.poll_loop env cfg messageHash startTime n retries w
  = (Ret a, w') ->
  complete_for messageHash a.
Proof.
  intros startTime. induction n as [|n IH]; intros retries w a w' H.
  - discriminate H.
  - cbn [Mobile.Attestation.poll_loop] in H.
    apply bind_ret_inv in H as (t & w1 & _ & H).
    destruct (t - startTime >? maxWaitTime cfg); [discriminate H|].
    apply bind_ret_inv in H as ([retries'|a'] & w2 & E & H).
    + exact (IH _ _ _ _ H).
    + injection H as <- _. exact (mobile_poll_return _ _ _ _ E).
Qed.

Lemma script_poll_return : forall txHash provider startTime retries w a w',
  try_catch
    (Script.Attestation.poll_try env cfg messageHash txHash provider startTime
       retries)
    (Script.Attestation.poll_catch cfg retries) w
  = (Ret (Return a), w') ->
  complete_for messageHash a.
Proof.
  intros txHash provider startTime retries w a w' H. unfold try_catch in H.
  destruct (Script.Attestation.poll_try env cfg messageHash txHash provider
              startTime retries w) as [[st|e] w1] eqn:E.
  - injection H as -> <-. unfold Script.Attestation.poll_try in E.
    apply bind_ret_inv in E as (t & w2 & _ & E).
    destruct (t - startTime >? maxWaitTime cfg); [discriminate E|].
    apply bind_ret_inv in E as (r & w3 & _ & E).
    destruct (negb (ok r)).
    + destruct (status r =? 404); [|discriminate E].
      apply bind_ret_inv in E as (u & w4 & _ & E). discriminate E.
    + apply bind_ret_inv in E as (data & w4 & _ & E).
      destruct (is_complete data) eqn:C.
      * apply bind_ret_inv in E as (mb & w5 & _ & E). injection E as <- _.
        destruct (is_complete_attestation data C) as [_ T].
        repeat split. exact T.
      * destruct (match body_status data with
                  | Some st => str_eqb st "failed"
                  | None => false
                  end); [discriminate E|].
        apply bind_ret_inv in E as (u & w5 & _ & E). discriminate E.
  - unfold Script.Attestation.poll_catch in H.
    destruct (retries =? maxRetries cfg - 1)%nat; [discriminate H|].
    apply bind_ret_inv in H as (u & w3 & _ & H). discriminate H.
Qed.

Lemma script_poll_loop_return :
  forall txHash provider startTime n retries w a w',
  Script.Attestation.poll_loop env cfg messageHash txHash provider startTime
    n retries w
  = (Ret a, w') ->
  complete_for messageHash a.
Proof.
  intros txHash provider startTime.
  induction n as [|n IH]; intros retries w a w' H.
  - discriminate H.
  - cbn [Script.Attestation.poll_loop] in H.
    apply bind_ret_inv in H as ([retries'|a'] & w2 & E & H).
    + exact (IH _ _ _ _ H).
    + injection H as <- _. exact (script_poll_return _ _ _ _ _ _ _ E).
Qed.

End PollingReturns.

(** X13. In both runtimes, whatever the authority answers and whenever the
    loop ends, an attestation that [getAttestation] returns has the
    status [complete], carries the message hash that was asked for, and
    holds a signature that is not empty. *)
Theorem getAttestation_returns_complete :
  (forall cfg env messageHash w a w',
     Mobile.Attestation.getAttestation_with cfg env messageHash w = (Ret a, w') ->
     att_status a = "complete"
     /\ Common.messageHash a = messageHash
     /\ attestation a <> EmptyString)
  /\ (forall cfg env messageHash txHash provider w a w',
        Script.Attestation.getAttestation_with cfg env messageHash txHash
          provider w
        = (Ret a, w') ->
        att_status a = "complete"
        /\ Common.messageHash a = messageHash
        /\ attestation a <> EmptyString).
Proof.
  assert (T : forall s, truthy s = true -> s <> EmptyString)
    by (intros s H ->; discriminate H).
  split.
  - intros cfg env messageHash w a w' H.
    unfold Mobile.Attestation.getAttestation_with in H.
    apply bind_ret_inv in H as (t & w1 & _ & H).
    destruct (mobile_poll_loop_return _ _ _ _ _ _ _ _ _ H) as (H1 & H2 & H3).
    auto.
  - intros cfg env messageHash txHash provider w a w' H.
    unfold Script.Attestation.getAttestation_with in H.
    apply bind_ret_inv in H as (t & w1 & _ & H).
    destruct (script_poll_loop_return _ _ _ _ _ _ _ _ _ _ _ H)
      as (H1 & H2 & H3).
    auto.
Qed.

Lemma getAttestation_returns_complete_witness :
  exists a,
    fst (Mobile.Attestation.getAttestation (Stubs.complete_after 3 (fun _ => 0))
           "0xhash" Stubs.start) = Ret a
    /\ att_status a = "complete"
    /\ Common.messageHash a = "0xhash"
    /\ attestation a <> EmptyString.
Proof.
  exists (mkAttestationData "complete" "0xhash" "" "0xABCDEF").
  split; [vm_compute; reflexivity|].
  refine (proj1 getAttestation_returns_complete Mobile.Config.CIRCLE_API
            (Stubs.complete_after 3 (fun _ => 0)) "0xhash" Stubs.start _
            (snd (Mobile.Attestation.getAttestation
                    (Stubs.complete_after 3 (fun _ => 0)) "0xhash"
                    Stubs.start)) _).
  vm_compute. reflexivity.
Defined.

(** The same for the script runtime, as the following proofs use it. *)
Lemma getAttestation_invariant :
  forall cfg env messageHash txHash provider w a w',
    Script.Attestation.getAttestation_with cfg env messageHash txHash provider w
    = (Ret a, w') ->
    complete_for messageHash a.
Proof.
  intros cfg env messageHash txHash provider w a w' H.
  unfold Script.Attestation.getAttestation_with in H.
  apply bind_ret_inv in H as (t & w1 & _ & H).
  exact (script_poll_loop_return _ _ _ _ _ _ _ _ _ _ _ H).
Qed.

(** ** A single look at the authority *)

Section StatusCheck.

Import Script.Attestation.

(** X15. [checkAttestationStatus] makes one query and never waits. When it
    reports the status [complete] with a signature, [getAttestation]
    started in the same world returns at once, in both runtimes, the
    same message bytes and signature, after that one query and without
    any sleep. *)
Theorem checkAttestationStatus_agrees :
  forall (cfg : CircleApi) (env : Env) (messageHash : string) (w w' : World)
         (report : StatusReport),
    checkAttestationStatus_with cfg env messageHash w = (Ret report, w') ->
    report_status report = Some "complete" ->
    report_attestation report <> EmptyString ->
    0 <= maxWaitTime cfg ->
    (0 < maxRetries cfg)%nat ->
    let a := mkAttestationData "complete" messageHash
               (report_messageBytes report) (report_attestation report) in
    Mobile.Attestation.getAttestation_with cfg env messageHash w = (Ret a, w')
    /\ getAttestation_with cfg env messageHash None false w = (Ret a, w')
    /\ added w w' = [EvFetch (attestation_url cfg messageHash)].
Proof.
  intros cfg env messageHash w w' report H Hst Hatt Hmax Hn a.
  unfold checkAttestationStatus_with in H.
  unfold bind at 1 in H. rewrite (fetch_run env cfg messageHash w) in H.
  destruct (fetch_response env (count_op OpFetch (calls w))
              (attestation_url cfg messageHash)) as [r|e] eqn:Hr;
    [|discriminate H].
  destruct (status r =? 404).
  { injection H as <- _. discriminate Hst. }
  destruct (ok r) eqn:Hok; [|discriminate H]. cbn [negb] in H.
  apply bind_ret_inv in H as (data & w1 & Hj & H).
  apply lift_outcome_inv in Hj as [Hj <-]. injection H as <- <-.
  cbn [report_status report_attestation report_messageBytes] in *.
  assert (C : is_complete data = true).
  { unfold is_complete. rewrite Hst.
    destruct (body_attestation data) as [s|]; [|now contradiction Hatt].
    cbn [opt_string] in Hatt. destruct s; [now contradiction Hatt|reflexivity]. }
  assert (A : or_else (opt_string (body_attestation data)) ""
              = opt_string (body_attestation data)).
  { unfold or_else. now destruct (truthy _) eqn:T; [|destruct (opt_string _)]. }
  assert (Hc : answers_complete env cfg messageHash (count_op OpFetch (calls w))
                 data).
  { exists r. now repeat split. }
  assert (E : a = complete_data messageHash data).
  { unfold a, complete_data. now rewrite A. }
  destruct (maxRetries cfg) as [|n] eqn:Hm; [lia|].
  rewrite E. split; [|split].
  - unfold Mobile.Attestation.getAttestation_with, bind, Date_now. rewrite Hm.
    apply mobile_poll_loop_complete; [lia|exact Hc].
  - unfold getAttestation_with, bind, Date_now. rewrite Hm.
    apply script_poll_loop_complete; [lia|exact Hc].
  - unfold after_fetch. apply added_app.
Qed.

Lemma checkAttestationStatus_agrees_witness :
  Mobile.Attestation.getAttestation Stubs.happy "0xhash" Stubs.start
  = (Ret (mkAttestationData "complete" "0xhash" "" "0xABCDEF"),
     mkWorld 0 [EvFetch "https://iris-api-sandbox.circle.com/v1/attestations/0xhash"]).
Proof.
  refine (proj1 (checkAttestationStatus_agrees Mobile.Config.CIRCLE_API Stubs.happy
                   "0xhash" Stubs.start
                   (mkWorld 0 [EvFetch "https://iris-api-sandbox.circle.com/v1/attestations/0xhash"])
                   (mkStatusReport (Some "complete") "0xhash" "" "0xABCDEF")
                   _ _ _ _ _)).
  - reflexivity.
  - reflexivity.
  - discriminate.
  - cbn. lia.
  - cbn. lia.
Defined.

End StatusCheck.

(** ** Answers that are errors *)

Section PollingErrors.

Variable env : Env.
Variable cfg : CircleApi.
Variable messageHash : string.

Lemma now_le_gtb : forall w startTime,
  now w - startTime <= maxWaitTime cfg ->
  (now w - startTime >? maxWaitTime cfg) = false.
Proof. intros w startTime H. rewrite Z.gtb_ltb. apply Z.ltb_ge. exact H. Qed.

(** *** The mobile runtime *)

Section MobileErrors.

Variable e : JsError.
Hypothesis try_throws : forall retries w,
  Mobile.Attestation.poll_try env cfg messageHash retries w
  = (Threw e, after_fetch env cfg messageHash w).

Lemma mobile_poll_loop_retry : forall startTime n retries w,
  now w - startTime <= maxWaitTime cfg ->
  retries <> (maxRetries cfg - 1)%nat ->
  Mobile.Attestation.poll_loop env cfg messageHash startTime (S n) retries w
  = Mobile.Attestation.poll_loop env cfg messageHash startTime n
      (retries + 1) (after_404 env cfg messageHash w).
Proof.
  intros startTime n retries w H Hr. cbn [Mobile.Attestation.poll_loop].
  unfold bind at 1. unfold Date_now. rewrite (now_le_gtb _ _ H).
  unfold bind at 1. unfold try_catch. rewrite try_throws.
  unfold Mobile.Attestation.poll_catch.
  apply Nat.eqb_neq in Hr. rewrite Hr.
  unfold bind at 1. now rewrite sleep_run.
Qed.

Lemma mobile_poll_loop_final : forall startTime n retries w,
  now w - startTime <= maxWaitTime cfg ->
  retries = (maxRetries cfg - 1)%nat ->
  Mobile.Attestation.poll_loop env cfg messageHash startTime (S n) retries w
  = (Threw e, after_fetch env cfg messageHash w).
Proof.
  intros startTime n retries w H Hr. cbn [Mobile.Attestation.poll_loop].
  unfold bind at 1. unfold Date_now. rewrite (now_le_gtb _ _ H).
  unfold bind at 1. unfold try_catch. rewrite try_throws.
  unfold Mobile.Attestation.poll_catch.
  apply Nat.eqb_eq in Hr. now rewrite Hr.
Qed.

Lemma mobile_poll_loop_throwing : forall startTime n retries w,
  (retries + S n = maxRetries cfg)%nat ->
  (forall j, (j <= n)%nat ->
     now (after_404s env cfg messageHash j w) - startTime <= maxWaitTime cfg) ->
  Mobile.Attestation.poll_loop env cfg messageHash startTime (S n) retries w
  = (Threw e, after_fetch env cfg messageHash (after_404s env cfg messageHash n w)).
Proof.
  intros startTime. induction n as [|n IH]; intros retries w Hn Ht.
  - apply mobile_poll_loop_final; [exact (Ht 0%nat (Nat.le_refl _))|lia].
  - rewrite mobile_poll_loop_retry; [|exact (Ht 0%nat (Nat.le_0_l _))|lia].
    cbn [after_404s]. apply IH; [lia|].
    intros j Hj. apply (Ht (S j)). lia.
Qed.

End MobileErrors.

(** An iteration of the mobile runtime that goes on after its query. *)
Lemma mobile_poll_loop_pending :
  (forall retries w,
     Mobile.Attestation.poll_try env cfg messageHash retries w
     = (Ret (Continue (retries + 1)%nat), after_404 env cfg messageHash w)) ->
  forall startTime n retries w,
  (forall j, (j < n)%nat ->
     now (after_404s env cfg messageHash j w) - startTime <= maxWaitTime cfg) ->
  Mobile.Attestation.poll_loop env cfg messageHash startTime n retries w
  = (Threw retries_error, after_404s env cfg messageHash n w).
Proof.
  intros Htry startTime. induction n as [|n IH]; intros retries w Ht.
  - reflexivity.
  - cbn [Mobile.Attestation.poll_loop after_404s].
    unfold bind at 1. unfold Date_now.
    pose proof (Ht 0%nat (Nat.lt_0_succ _)) as H0. cbn [after_404s] in H0.
    rewrite (now_le_gtb _ _ H0).
    unfold bind at 1. unfold try_catch. rewrite Htry.
    apply IH. intros j Hj. apply (Ht (S j)). lia.
Qed.

(** *** The script runtime *)

Section ScriptErrors.

Variable e : JsError.
Variable txHash : option string.
Variable provider : bool.
Hypothesis try_throws : forall startTime retries w,
  now w - startTime <= maxWaitTime cfg ->
  Script.Attestation.poll_try env cfg messageHash txHash provider startTime
    retries w
  = (Threw e, after_fetch env cfg messageHash w).

Lemma script_poll_loop_throwing : forall startTime n retries w,
  (retries + S n = maxRetries cfg)%nat ->
  (forall j, (j <= n)%nat ->
     now (after_404s env cfg messageHash j w) - startTime <= maxWaitTime cfg) ->
  Script.Attestation.poll_loop env cfg messageHash txHash provider startTime
    (S n) retries w
  = (Threw e, after_fetch env cfg messageHash (after_404s env cfg messageHash n w)).
Proof.
  intros startTime. induction n as [|n IH]; intros retries w Hn Ht.
  - pose proof (Ht 0%nat (Nat.le_refl _)) as H0. cbn [after_404s] in H0.
    cbn [Script.Attestation.poll_loop after_404s].
    unfold bind at 1. unfold try_catch.
    rewrite (try_throws _ _ _ H0).
    unfold Script.Attestation.poll_catch.
    assert (Hr : (retries =? maxRetries cfg - 1)%nat = true)
      by (apply Nat.eqb_eq; lia).
    now rewrite Hr.
  - pose proof (Ht 0%nat (Nat.le_0_l _)) as H0. cbn [after_404s] in H0.
    cbn [Script.Attestation.poll_loop].
    unfold bind at 1. unfold try_catch.
    rewrite (try_throws _ _ _ H0).
    unfold Script.Attestation.poll_catch.
    assert (Hr : (retries =? maxRetries cfg - 1)%nat = false)
      by (apply Nat.eqb_neq; lia).
    rewrite Hr. unfold bind at 1. rewrite sleep_run.
    cbn [after_404s]. apply IH; [lia|].
    intros j Hj. apply (Ht (S j)). lia.
Qed.

End ScriptErrors.

(** *** What the try block throws *)

Lemma not_ok : forall r, status r < 200 \/ 299 < status r -> ok r = false.
Proof.
  intros r H. unfold ok. apply andb_false_iff.
  destruct H as [H|H]; [left; apply Z.leb_gt|right; apply Z.leb_gt]; exact H.
Qed.

Lemma mobile_poll_try_status : forall s text retries w,
  (forall k, answers_status env cfg messageHash k s text) ->
  s < 200 \/ 299 < s -> s <> 404 ->
  Mobile.Attestation.poll_try env cfg messageHash retries w
  = (Threw (Error ("Circle API error: " ++ Z_toString s)%string),
     after_fetch env cfg messageHash w).
Proof.
  intros s text retries w H Hs H404.
  destruct (H (count_op OpFetch (calls w))) as (r & Hr & <- & _).
  unfold Mobile.Attestation.poll_try, bind.
  rewrite fetch_run, Hr, (not_ok r Hs). cbn [negb].
  apply Z.eqb_neq in H404. now rewrite H404.
Qed.

Lemma script_poll_try_status :
  forall s text txHash provider startTime retries w,
  (forall k, answers_status env cfg messageHash k s text) ->
  s < 200 \/ 299 < s -> s <> 404 ->
  now w - startTime <= maxWaitTime cfg ->
  Script.Attestation.poll_try env cfg messageHash txHash provider startTime
    retries w
  = (Threw (Error ("Circle API error: " ++ Z_toString s ++ " " ++ text)%string),
     after_fetch env cfg messageHash w).
Proof.
  intros s text txHash provider startTime retries w H Hs H404 Ht.
  destruct (H (count_op OpFetch (calls w))) as (r & Hr & <- & <-).
  unfold Script.Attestation.poll_try. unfold bind at 1. unfold Date_now.
  rewrite (now_le_gtb _ _ Ht). unfold bind at 1.
  rewrite fetch_run, Hr, (not_ok r Hs). cbn [negb].
  apply Z.eqb_neq in H404. now rewrite H404.
Qed.

Lemma failed_not_complete : forall data,
  body_status data = Some "failed" -> is_complete data = false.
Proof.
  intros data H. unfold is_complete. rewrite H.
  now destruct (body_attestation data).
Qed.

Lemma mobile_poll_try_failed : forall retries w,
  (forall k, answers_failed env cfg messageHash k) ->
  Mobile.Attestation.poll_try env cfg messageHash retries w
  = (Ret (Continue (retries + 1)%nat), after_404 env cfg messageHash w).
Proof.
  intros retries w H.
  destruct (H (count_op OpFetch (calls w))) as (r & data & Hr & Hok & Hj & Hf).
  unfold Mobile.Attestation.poll_try, bind.
  rewrite fetch_run, Hr, Hok. cbn [negb]. unfold lift_outcome.
  rewrite Hj, (failed_not_complete data Hf). now rewrite sleep_run.
Qed.

Lemma script_poll_try_failed : forall txHash provider startTime retries w,
  (forall k, answers_failed env cfg messageHash k) ->
  now w - startTime <= maxWaitTime cfg ->
  Script.Attestation.poll_try env cfg messageHash txHash provider startTime
    retries w
  = (Threw (Error "Circle signature failed"), after_fetch env cfg messageHash w).
Proof.
  intros txHash provider startTime retries w H Ht.
  destruct (H (count_op OpFetch (calls w))) as (r & data & Hr & Hok & Hj & Hf).
  unfold Script.Attestation.poll_try. unfold bind at 1. unfold Date_now.
  rewrite (now_le_gtb _ _ Ht). unfold bind at 1.
  rewrite fetch_run, Hr, Hok. cbn [negb]. unfold bind, lift_outcome.
  now rewrite Hj, (failed_not_complete data Hf), Hf.
Qed.

(** Without latency, every iteration takes the poll interval. *)
Lemma now_after_404s : forall k w,
  (forall j, fetch_latency env j = 0) ->
  now (after_404s env cfg messageHash k w)
  = now w + pollInterval cfg * Z.of_nat k.
Proof.
  induction k as [|k IH]; intros w H; cbn [after_404s].
  - lia.
  - rewrite (IH _ H). unfold after_404, after_sleep, after_fetch. cbn [now].
    rewrite H. lia.
Qed.

End PollingErrors.

Lemma count_fetch_rounds : forall url ms k,
  count_op OpFetch (concat (repeat [EvFetch url; EvSleep ms] k)) = k.
Proof.
  intros url ms. induction k as [|k IH]; [reflexivity|].
  cbn [repeat concat]. rewrite count_op_app, IH. reflexivity.
Qed.

(** X16. An HTTP status of the authority that is neither a success nor
    404 does not end [getAttestation]: in both runtimes the error of the
    iteration is caught, the poll interval is slept and the query is made
    again, and only the last of the [maxRetries] iterations lets the
    error reach the caller, provided the deadline is not met before. The
    mobile runtime then reports the status, the script runtime the
    status and its text. *)
Theorem getAttestation_http_error_retried :
  forall (env : Env) (cfg : CircleApi) (messageHash : string) (w : World)
         (s : Z) (text : string) (m : nat)
         (txHash : option string) (provider : bool),
    (forall k, answers_status env cfg messageHash k s text) ->
    s < 200 \/ 299 < s ->
    s <> 404 ->
    maxRetries cfg = S m ->
    (forall j, (j <= m)%nat ->
       now (after_404s env cfg messageHash j w) - now w <= maxWaitTime cfg) ->
    let w' := after_fetch env cfg messageHash (after_404s env cfg messageHash m w) in
    Mobile.Attestation.getAttestation_with cfg env messageHash w
    = (Threw (Error ("Circle API error: " ++ Z_toString s)%string), w')
    /\ Script.Attestation.getAttestation_with cfg env messageHash txHash provider w
       = (Threw (Error ("Circle API error: " ++ Z_toString s ++ " " ++ text)%string),
          w')
    /\ added w w'
       = concat (repeat [EvFetch (attestation_url cfg messageHash);
                         EvSleep (pollInterval cfg)] m)
         ++ [EvFetch (attestation_url cfg messageHash)].
Proof.
  intros env cfg messageHash w s text m txHash provider H Hs H404 Hm Ht w'.
  split; [|split].
  - unfold Mobile.Attestation.getAttestation_with, bind, Date_now. rewrite Hm.
    apply mobile_poll_loop_throwing; [|lia|exact Ht].
    intros retries w0. now apply (mobile_poll_try_status _ _ _ s text).
  - unfold Script.Attestation.getAttestation_with, bind, Date_now. rewrite Hm.
    apply script_poll_loop_throwing; [|lia|exact Ht].
    intros startTime retries w0 Hw0.
    now apply script_poll_try_status.
  - apply added_calls. unfold w', after_fetch. cbn [calls].
    rewrite calls_after_404s. now rewrite <- app_assoc.
Qed.

(** X17. A body of the authority whose status is [failed] does not end
    [getAttestation] either. The mobile runtime takes it for an answer
    that is not ready: it sleeps and asks again until its retries are
    used up, and throws the error of the exhausted retries. The script
    runtime throws "Circle signature failed" inside the [try] block,
    whose [catch] sleeps and asks again: the error reaches the caller
    only from the last of the [maxRetries] iterations. *)
Theorem getAttestation_failed_status_polls_on :
  forall (env : Env) (cfg : CircleApi) (messageHash : string) (w : World)
         (m : nat) (txHash : option string) (provider : bool),
    (forall k, answers_failed env cfg messageHash k) ->
    maxRetries cfg = S m ->
    (forall j, (j <= m)%nat ->
       now (after_404s env cfg messageHash j w) - now w <= maxWaitTime cfg) ->
    Mobile.Attestation.getAttestation_with cfg env messageHash w
    = (Threw (Error "Getting attestation exceeded maximum retry attempts"),
       after_404s env cfg messageHash (S m) w)
    /\ Script.Attestation.getAttestation_with cfg env messageHash txHash provider w
       = (Threw (Error "Circle signature failed"),
          after_fetch env cfg messageHash (after_404s env cfg messageHash m w))
    /\ count_op OpFetch
         (added w (after_fetch env cfg messageHash
                     (after_404s env cfg messageHash m w)))
       = S m.
Proof.
  intros env cfg messageHash w m txHash provider H Hm Ht.
  split; [|split].
  - unfold Mobile.Attestation.getAttestation_with, bind, Date_now. rewrite Hm.
    apply mobile_poll_loop_pending.
    + intros retries w0. now apply mobile_poll_try_failed.
    + intros j Hj. apply Ht. lia.
  - unfold Script.Attestation.getAttestation_with, bind, Date_now. rewrite Hm.
    apply script_poll_loop_throwing; [|lia|exact Ht].
    intros startTime retries w0 Hw0. now apply script_poll_try_failed.
  - erewrite added_calls.
    2:{ unfold after_fetch. cbn [calls]. rewrite calls_after_404s.
        rewrite <- app_assoc. reflexivity. }
    rewrite count_op_app, count_fetch_rounds. cbn. lia.
Qed.

Lemma getAttestation_http_error_retried_witness :
  fst (Mobile.Attestation.getAttestation
         (Stubs.always_status 500 "Internal Server Error") "0xhash" Stubs.start)
  = Threw (Error "Circle API error: 500")
  /\ fst (Script.Attestation.getAttestation
            (Stubs.always_status 500 "Internal Server Error") "0xhash" None false
            Stubs.start)
     = Threw (Error "Circle API error: 500 Internal Server Error").
Proof.
  destruct (getAttestation_http_error_retried
              (Stubs.always_status 500 "Internal Server Error")
              Mobile.Config.CIRCLE_API "0xhash" Stubs.start 500
              "Internal Server Error" 149 None false) as (Hm & Hs & _).
  - intros k. eexists. repeat split; reflexivity.
  - right. lia.
  - lia.
  - reflexivity.
  - intros j Hj. rewrite now_after_404s by reflexivity.
    unfold Mobile.Config.CIRCLE_API, Stubs.start.
    cbn [now pollInterval maxWaitTime]. lia.
  - unfold Mobile.Attestation.getAttestation, Script.Attestation.getAttestation.
    change Script.Config.CIRCLE_API_CONFIG with Mobile.Config.CIRCLE_API.
    rewrite Hm, Hs. split; reflexivity.
Defined.

Lemma getAttestation_failed_status_polls_on_witness :
  fst (Mobile.Attestation.getAttestation Stubs.always_failed "0xhash" Stubs.start)
  = Threw (Error "Getting attestation exceeded maximum retry attempts")
  /\ fst (Script.Attestation.getAttestation Stubs.always_failed "0xhash" None false
            Stubs.start)
     = Threw (Error "Circle signature failed").
Proof.
  destruct (getAttestation_failed_status_polls_on Stubs.always_failed
              Mobile.Config.CIRCLE_API "0xhash" Stubs.start 149 None false)
    as (Hm & Hs & _).
  - intros k. do 2 eexists. repeat split; reflexivity.
  - reflexivity.
  - intros j Hj. rewrite now_after_404s by reflexivity.
    unfold Mobile.Config.CIRCLE_API, Stubs.start.
    cbn [now pollInterval maxWaitTime]. lia.
  - unfold Mobile.Attestation.getAttestation, Script.Attestation.getAttestation.
    change Script.Config.CIRCLE_API_CONFIG with Mobile.Config.CIRCLE_API.
    rewrite Hm, Hs. split; reflexivity.
Defined.

Lemma mobile_getAttestation_always_404_witness :
  exists k,
    (k <= 150)%nat
    /\ calls (snd (Mobile.Attestation.getAttestation Stubs.slow_first "0xhash"
                     Stubs.start))
       = concat (repeat [EvFetch (attestation_url Mobile.Config.CIRCLE_API "0xhash");
                         EvSleep 2000] k).
Proof.
  destruct (mobile_getAttestation_always_404 Stubs.slow_first
              Mobile.Config.CIRCLE_API "0xhash" Stubs.start)
    as (k & Hk & _ & Hcalls & _).
  - intros k. eexists. split; reflexivity.
  - exists k. split; [exact Hk|exact Hcalls].
Defined.

(** ** What the receivers refuse and what they report *)

Section ReceiverResults.

(** X19. A receive with message bytes or an attestation that the receiver
    does not take for hexadecimal is refused before anything is asked of
    the chain: the result is the failure with an empty hash and the
    amount 0, and the world is as it was. The mobile receiver refuses
    what does not start with [0x]; the script receiver also refuses what
    has no more than 10 characters, and a missing or empty private
    key. *)
Theorem receive_refuses_malformed_input :
  (forall env messageBytes attestation privateKey w,
     startsWith messageBytes "0x" = false
     \/ startsWith attestation "0x" = false ->
     Mobile.Receiver.receiveCCTPUSDC env messageBytes attestation privateKey w
     = (Ret (mkReceive "" false (Some "0")), w))
  /\ (forall env params w,
        startsWith (Script.Receiver.messageBytes params) "0x" = false
        \/ (String.length (Script.Receiver.messageBytes params) <= 10)%nat
        \/ startsWith (Script.Receiver.attestation params) "0x" = false
        \/ (String.length (Script.Receiver.attestation params) <= 10)%nat
        \/ Script.Receiver.recipientPrivateKey params = None
        \/ Script.Receiver.recipientPrivateKey params = Some EmptyString ->
        Script.Receiver.receiveCCTPUSDC env params w
        = (Ret (mkReceive "" false (Some "0")), w)).
Proof.
  split.
  - intros env mb att pk w H.
    unfold Mobile.Receiver.receiveCCTPUSDC, try_catch,
      Mobile.Receiver.receive_try.
    destruct H as [H|H].
    + rewrite H. cbn [negb]. now rewrite orb_true_r.
    + rewrite H. cbn [negb]. rewrite orb_true_r.
      now destruct (negb (truthy mb) || negb (startsWith mb "0x")).
  - intros env params w H.
    unfold Script.Receiver.receiveCCTPUSDC, try_catch,
      Script.Receiver.receive_try.
    destruct (negb (Script.Receiver.validateMessageBytes _)) eqn:V1;
      [reflexivity|].
    destruct (negb (Script.Receiver.validateAttestation _)) eqn:V2;
      [reflexivity|].
    destruct (negb (truthy _)) eqn:V3; [reflexivity|].
    exfalso.
    apply negb_false_iff in V1, V2, V3.
    unfold Script.Receiver.validateMessageBytes in V1.
    destruct (negb (truthy (Script.Receiver.messageBytes params)));
      [discriminate V1|].
    apply andb_true_iff in V1 as [A1 B1]. apply Nat.ltb_lt in B1.
    unfold Script.Receiver.validateAttestation in V2.
    apply andb_true_iff in V2 as [A2 B2]. apply Nat.ltb_lt in B2.
    destruct H as [H|[H|[H|[H|[H|H]]]]].
    + rewrite H in A1. discriminate A1.
    + lia.
    + rewrite H in A2. discriminate A2.
    + lia.
    + rewrite H in V3. discriminate V3.
    + rewrite H in V3. discriminate V3.
Qed.

Lemma receive_refuses_malformed_input_witness :
  Mobile.Receiver.receiveCCTPUSDC Stubs.happy "message" "0xABCDEF" "aptos-key"
    Stubs.start
  = (Ret (mkReceive "" false (Some "0")), Stubs.start)
  /\ Script.Receiver.receiveCCTPUSDC Stubs.happy
       (Script.Receiver.mkReceiveParams "0xmessage" "0xABCDEF0123"
          (Some "aptos-key")) Stubs.start
     = (Ret (mkReceive "" false (Some "0")), Stubs.start).
Proof.
  split.
  - apply (proj1 receive_refuses_malformed_input). left. reflexivity.
  - apply (proj2 receive_refuses_malformed_input). right. left. cbn. lia.
Defined.

(** The [try] blocks return nothing but successes. *)
Lemma mobile_receive_try_success :
  forall env messageBytes attestation privateKey w r w',
    Mobile.Receiver.receive_try env messageBytes attestation privateKey w
    = (Ret r, w') ->
    recv_success r = true.
Proof.
  intros env mb att pk w r w' E. unfold Mobile.Receiver.receive_try in E.
  destruct (negb (truthy mb) || negb (startsWith mb "0x")); [discriminate E|].
  destruct (negb (truthy att) || negb (startsWith att "0x")); [discriminate E|].
  apply bind_ret_inv in E as (addr & w1 & _ & E).
  apply bind_ret_inv in E as (bb & w2 & _ & E).
  apply bind_ret_inv in E as (bytecode & w3 & _ & E).
  apply bind_ret_inv in E as (u & w4 & _ & E).
  apply bind_ret_inv in E as (hash & w5 & _ & E).
  apply bind_ret_inv in E as (txn & w6 & _ & E).
  destruct (negb (success txn)); [discriminate E|].
  apply bind_ret_inv in E as (ba & w7 & _ & E).
  apply bind_ret_inv in E as (after & w8 & _ & E).
  apply bind_ret_inv in E as (before & w9 & _ & E).
  now injection E as <- _.
Qed.

Lemma script_receive_try_success : forall env params w r w',
  Script.Receiver.receive_try env params w = (Ret r, w') ->
  recv_success r = true.
Proof.
  intros env params w r w' E. unfold Script.Receiver.receive_try in E.
  destruct (negb (Script.Receiver.validateMessageBytes _)); [discriminate E|].
  destruct (negb (Script.Receiver.validateAttestation _)); [discriminate E|].
  destruct (negb (truthy _)); [discriminate E|].
  apply bind_ret_inv in E as (addr & w1 & _ & E).
  apply bind_ret_inv in E as (bb & w2 & _ & E).
  apply bind_ret_inv in E as (bytecode & w3 & _ & E).
  apply bind_ret_inv in E as (u & w4 & _ & E).
  apply bind_ret_inv in E as (hash & w5 & _ & E).
  apply bind_ret_inv in E as (txn & w6 & _ & E).
  destruct (negb (success txn)); [discriminate E|].
  apply bind_ret_inv in E as (ba & w7 & _ & E).
  apply bind_ret_inv in E as (after & w8 & _ & E).
  apply bind_ret_inv in E as (before & w9 & _ & E).
  now injection E as <- _.
Qed.

(** X20. Neither receiver ever throws, and the result of a receive that
    did not succeed says nothing of what happened: whatever the error
    and whenever it came, before or after the transaction was submitted,
    the result is the same failure with an empty hash and the amount
    0. *)
Theorem receive_failure_is_blank :
  (forall env messageBytes attestation privateKey w,
   exists r w',
     Mobile.Receiver.receiveCCTPUSDC env messageBytes attestation privateKey w
     = (Ret r, w')
     /\ (recv_success r = true \/ r = mkReceive "" false (Some "0")))
  /\ (forall env params w,
      exists r w',
        Script.Receiver.receiveCCTPUSDC env params w = (Ret r, w')
        /\ (recv_success r = true \/ r = mkReceive "" false (Some "0"))).
Proof.
  split.
  - intros env mb att pk w.
    unfold Mobile.Receiver.receiveCCTPUSDC, try_catch.
    destruct (Mobile.Receiver.receive_try env mb att pk w) as [[r|e] w'] eqn:E.
    + exists r, w'. split; [reflexivity|]. left.
      exact (mobile_receive_try_success _ _ _ _ _ _ _ E).
    + exists (mkReceive "" false (Some "0")), w'. split; [reflexivity|].
      now right.
  - intros env params w.
    unfold Script.Receiver.receiveCCTPUSDC, try_catch.
    destruct (Script.Receiver.receive_try env params w) as [[r|e] w'] eqn:E.
    + exists r, w'. split; [reflexivity|]. left.
      exact (script_receive_try_success _ _ _ _ _ E).
    + exists (mkReceive "" false (Some "0")), w'. split; [reflexivity|].
      now right.
Qed.

(** X21. [checkUSDCBalance] of the receivers never throws and never
    returns the empty string. The mobile receiver makes one lookup, of
    the fungible store, and returns the balance that the chain answered;
    it returns ["0"] when the lookup failed, when the resource has no
    balance and when its balance is empty. The script receiver does the
    same, but when the first lookup failed it makes a second one, of the
    coin store, and reads the value of the coin in the same way. *)
Theorem receiver_checkUSDCBalance_never_throws :
  (forall env address w,
     let answer :=
       aptos_getAccountResource env (count_op OpGetAccountResource (calls w))
         address Mobile.Receiver.FungibleStore in
     exists balance,
       Mobile.Receiver.checkUSDCBalance env address w
       = (Ret balance,
          mkWorld (now w)
            (calls w ++ [EvGetAccountResource address
                           Mobile.Receiver.FungibleStore]))
       /\ balance
          = match answer with
            | Ret data =>
                match Run.balance data with
                | Some (String c b) => String c b
                | _ => "0"
                end
            | Threw _ => "0"
            end
       /\ balance <> EmptyString)
  /\ (forall env address w,
      let first :=
        aptos_getAccountResource env (count_op OpGetAccountResource (calls w))
          address Script.Receiver.FungibleStore in
      let second :=
        aptos_getAccountResource env
          (S (count_op OpGetAccountResource (calls w)))
          address Script.Receiver.CoinStore in
      exists balance,
        Script.Receiver.checkUSDCBalance env address w
        = (Ret balance,
           mkWorld (now w)
             (calls w
              ++ EvGetAccountResource address Script.Receiver.FungibleStore
                 :: match first with
                    | Ret _ => []
                    | Threw _ =>
                        [EvGetAccountResource address Script.Receiver.CoinStore]
                    end))
        /\ balance
           = match first with
             | Ret data =>
                 match Run.balance data with
                 | Some (String c b) => String c b
                 | _ => "0"
                 end
             | Threw _ =>
                 match second with
                 | Ret data =>
                     match coin_value data with
                     | Some (String c b) => String c b
                     | _ => "0"
                     end
                 | Threw _ => "0"
                 end
             end
        /\ balance <> EmptyString).
Proof.
  assert (R : forall field,
            or_else (opt_string field) "0"
            = match field with Some (String c b) => String c b | _ => "0" end).
  { intros [[|c b]|]; reflexivity. }
  assert (N : forall field,
            match field with Some (String c b) => String c b | _ => "0" end
            <> EmptyString).
  { intros [[|c b]|]; discriminate. }
  split.
  - intros env address w answer.
    unfold Mobile.Receiver.checkUSDCBalance, try_catch, bind, call.
    cbn [op_of]. fold answer.
    destruct answer as [data|e].
    + eexists. split; [reflexivity|]. rewrite R. split; [reflexivity|apply N].
    + eexists. split; [reflexivity|]. split; [reflexivity|discriminate].
  - intros env address w first second.
    unfold Script.Receiver.checkUSDCBalance, try_catch, bind, call.
    cbn [op_of now calls]. fold first.
    destruct first as [data|e].
    + eexists. split; [reflexivity|]. rewrite R. split; [reflexivity|apply N].
    + cbn [op_of now calls].
      assert (C : count_op OpGetAccountResource
                    (calls w
                     ++ [EvGetAccountResource address
                           Script.Receiver.FungibleStore])
                  = S (count_op OpGetAccountResource (calls w))).
      { rewrite count_op_app. cbn. lia. }
      rewrite C. fold second.
      destruct second as [data|e'].
      * eexists. split.
        { unfold ret. cbn [now calls]. now rewrite <- app_assoc. }
        rewrite R. split; [reflexivity|apply N].
      * eexists. split.
        { unfold ret. cbn [now calls]. now rewrite <- app_assoc. }
        split; [reflexivity|discriminate].
Qed.

Lemma receiver_checkUSDCBalance_never_throws_witness :
  fst (Mobile.Receiver.checkUSDCBalance Stubs.lost_lookup "0xaptos-account"
         Stubs.start) = Ret "1000000"
  /\ fst (Script.Receiver.checkUSDCBalance Stubs.lost_lookup "0xaptos-account"
            (mkWorld 0 [EvGetAccountResource "0xaptos-account"
                          Script.Receiver.FungibleStore])) = Ret "0".
Proof.
  destruct (proj1 receiver_checkUSDCBalance_never_throws Stubs.lost_lookup
              "0xaptos-account" Stubs.start) as (b & H & Hb & _).
  destruct (proj2 receiver_checkUSDCBalance_never_throws Stubs.lost_lookup
              "0xaptos-account"
              (mkWorld 0 [EvGetAccountResource "0xaptos-account"
                            Script.Receiver.FungibleStore]))
    as (b' & H' & Hb' & _).
  rewrite H, H'. cbn [fst]. split; [now rewrite Hb|now rewrite Hb'].
Defined.

End ReceiverResults.

(** ** What a run that returns has done *)

Section Ensures.

Lemma emits_fetch : forall P env url, P (EvFetch url) -> emits P (fetch env url).
Proof.
  intros P env url H w. exists [EvFetch url]. split; [reflexivity|].
  now constructor.
Qed.

Lemma emits_Date_now : forall P, emits P Date_now.
Proof. intros P w. exists []. now rewrite app_nil_r. Qed.

Lemma grows_run : forall {A} (m : M World A) w o w',
  grows m -> m w = (o, w') -> exists d, calls w' = calls w ++ d.
Proof.
  intros A m w o w' G H. destruct (G w) as (d & E & _).
  rewrite H in E. now exists d.
Qed.

Variable Q : list Event -> Event -> Prop.

(** A call made inside a part of a run was made inside the run. *)
Lemma made_extend : forall w0 w1 w2 w3 d0 d3,
  calls w1 = calls w0 ++ d0 ->
  calls w3 = calls w2 ++ d3 ->
  made w1 w2 Q -> made w0 w3 Q.
Proof.
  intros w0 w1 w2 w3 d0 d3 H0 H3 (pre & ev & post & C & HQ).
  exists (d0 ++ pre), ev, (post ++ d3). split.
  - rewrite H3, C, H0. rewrite <- !app_assoc. reflexivity.
  - rewrite app_assoc, <- H0. exact HQ.
Qed.

Lemma ensures_throw : forall {A} e, ensures Q (@throw World A e).
Proof. intros A e w a w' H. discriminate H. Qed.

Lemma ensures_bind_l : forall {A B} (m : M World A) (k : A -> M World B),
  ensures Q m -> (forall a, grows (k a)) -> ensures Q (bind m k).
Proof.
  intros A B m k Hm Hk w b w' H.
  apply bind_ret_inv in H as (a & w1 & E1 & E2).
  destruct (grows_run _ _ _ _ (Hk a) E2) as (d2 & C2).
  apply (made_extend w w w1 w' [] d2);
    [now rewrite app_nil_r|exact C2|exact (Hm _ _ _ E1)].
Qed.

Lemma ensures_bind_r : forall {A B} (m : M World A) (k : A -> M World B),
  grows m -> (forall a, ensures Q (k a)) -> ensures Q (bind m k).
Proof.
  intros A B m k Hm Hk w b w' H.
  apply bind_ret_inv in H as (a & w1 & E1 & E2).
  destruct (grows_run _ _ _ _ Hm E1) as (d1 & C1).
  apply (made_extend w w1 w' w' d1 []);
    [exact C1|now rewrite app_nil_r|exact (Hk a _ _ _ E2)].
Qed.

Lemma ensures_try_catch :
  forall {A} (m : M World A) (h : JsError -> M World A),
  grows m -> ensures Q m -> (forall e, ensures Q (h e)) ->
  ensures Q (try_catch m h).
Proof.
  intros A m h Gm Hm Hh w a w' H. unfold try_catch in H.
  destruct (m w) as [[a0|e] w1] eqn:E.
  - injection H as <- <-. exact (Hm _ _ _ E).
  - destruct (grows_run _ _ _ _ Gm E) as (d1 & C1).
    apply (made_extend w w1 w' w' d1 []);
      [exact C1|now rewrite app_nil_r|exact (Hh e _ _ _ H)].
Qed.

End Ensures.

(** Every computation of the sources only adds to the log. *)
Ltac grows_step :=
  first
    [ apply emits_ret
    | apply emits_throw
    | apply emits_lift_outcome
    | apply emits_Date_now
    | apply emits_call; exact I
    | apply emits_fetch; exact I
    | apply emits_sleep; exact I
    | apply emits_bind; [|intros ?]
    | apply emits_try_catch; [|intros ?]
    | match goal with
      | |- emits _ (if ?b then _ else _) => destruct b
      | |- emits _ (match ?x with _ => _ end) => destruct x
      | |- emits _ (let (_, _) := ?x in _) => destruct x
      end ].

Section Growth.

Variable env : Env.

Lemma grows_extractMessageFromTransaction : forall txHash,
  grows (Script.Attestation.extractMessageFromTransaction env txHash).
Proof.
  intros txHash. unfold grows, Script.Attestation.extractMessageFromTransaction.
  repeat grows_step.
Qed.

Lemma grows_script_poll_loop :
  forall cfg messageHash txHash provider startTime n retries,
  grows (Script.Attestation.poll_loop env cfg messageHash txHash provider
           startTime n retries).
Proof.
  intros cfg messageHash txHash provider startTime. unfold grows.
  induction n as [|n IH]; intros retries; cbn [Script.Attestation.poll_loop].
  - apply emits_throw.
  - apply emits_bind.
    + apply emits_try_catch.
      * unfold Script.Attestation.poll_try,
          Script.Attestation.complete_messageBytes.
        repeat first [apply grows_extractMessageFromTransaction | grows_step].
      * intros e. unfold Script.Attestation.poll_catch. repeat grows_step.
    + intros [retries'|a]; [apply IH|apply emits_ret].
Qed.

Lemma grows_script_getAttestationFromTransaction : forall txHash,
  grows (Script.Attestation.getAttestationFromTransaction env txHash).
Proof.
  intros txHash. unfold grows, Script.Attestation.getAttestationFromTransaction.
  apply emits_bind; [apply grows_extractMessageFromTransaction|intros ev].
  apply emits_bind; [|intros a; repeat grows_step].
  unfold Script.Attestation.getAttestation,
    Script.Attestation.getAttestation_with.
  apply emits_bind; [apply emits_Date_now|intros t].
  apply grows_script_poll_loop.
Qed.

Lemma grows_script_checkUSDCBalance : forall address,
  grows (Script.Receiver.checkUSDCBalance env address).
Proof.
  intros address. unfold grows, Script.Receiver.checkUSDCBalance.
  repeat grows_step.
Qed.

Lemma grows_attempt_try : forall params,
  grows (Script.Sender.attempt_try env params).
Proof.
  intros params. unfold grows, Script.Sender.attempt_try.
  repeat first [apply grows_extractMessageFromTransaction | grows_step].
Qed.

End Growth.

(** ** Attestations that pass the validation *)

Section ValidAttestation.

Import Script.Attestation.

Lemma extractMessageFromTransaction_returns : forall env txHash w ev w',
  extractMessageFromTransaction env txHash w = (Ret ev, w') ->
  exists messageBytes,
    ev_messageBytes ev = Some messageBytes
    /\ message_of_receipt env txHash
         (count_op OpGetTransactionReceipt (calls w)) messageBytes
    /\ ethers_keccak256 env messageBytes = Ret (ev_messageHash ev)
    /\ calls w' = calls w ++ [EvGetTransactionReceipt txHash].
Proof.
  intros env txHash w ev w' H. unfold extractMessageFromTransaction in H.
  apply bind_ret_inv in H as ([receipt|] & w1 & Hr & H); [|discriminate H].
  apply call_inv in Hr as [Hr ->]. cbn [op_of] in Hr.
  destruct (find _ (logs receipt)) as [l|] eqn:F; [|discriminate H].
  apply bind_ret_inv in H as (mb & w2 & Hd & H).
  apply lift_outcome_inv in Hd as [Hd <-].
  destruct (startsWith mb "0x") eqn:S; [|discriminate H]. cbn [negb] in H.
  apply bind_ret_inv in H as (h & w3 & Hh & H).
  apply lift_outcome_inv in Hh as [Hh <-].
  injection H as <- <-. exists mb. split; [reflexivity|].
  split; [|split; [exact Hh|reflexivity]].
  exists receipt, l. now repeat split.
Qed.

Lemma startsWith_0x_truthy : forall s, startsWith s "0x" = true -> truthy s = true.
Proof. intros [|c s] H; [discriminate H|reflexivity]. Qed.

Lemma truthy_length : forall s, truthy s = true -> (0 <? String.length s)%nat = true.
Proof. intros [|c s] H; [discriminate H|reflexivity]. Qed.

Lemma count_op_grows : forall op w w' d,
  calls w' = calls w ++ d ->
  (count_op op (calls w) <= count_op op (calls w'))%nat.
Proof. intros op w w' d H. rewrite H, count_op_app. lia. Qed.

Lemma during_extend : forall op w0 w1 w2 w3 d0 d3 k,
  calls w1 = calls w0 ++ d0 ->
  calls w3 = calls w2 ++ d3 ->
  during op w1 w2 k -> during op w0 w3 k.
Proof.
  intros op w0 w1 w2 w3 d0 d3 k H0 H3 [L U].
  pose proof (count_op_grows op _ _ _ H0).
  pose proof (count_op_grows op _ _ _ H3).
  split; lia.
Qed.

(** Where the message bytes of a complete answer come from: they are
    the message of the authority when it sent one; otherwise they are
    empty, or those of the receipt of the transaction that was looked up
    for them. *)
Lemma complete_messageBytes_source :
  forall env data txHash provider w messageBytes w',
    complete_messageBytes env data txHash provider w = (Ret messageBytes, w') ->
    (exists d, calls w' = calls w ++ d)
    /\ match body_message data with
       | Some (String c m) => messageBytes = String c m
       | _ =>
           messageBytes = EmptyString
           \/ exists k,
                during OpGetTransactionReceipt w w' k
                /\ message_of_receipt env (opt_string txHash) k messageBytes
       end.
Proof.
  intros env data txHash provider w mb w' H.
  unfold complete_messageBytes in H.
  destruct (body_message data) as [[|c m]|];
    cbn [opt_string or_else truthy negb andb] in H.
  2:{ injection H as <- <-. split; [exists []; now rewrite app_nil_r|].
      reflexivity. }
  all: destruct (truthy (opt_string txHash) && provider);
    [|injection H as <- <-;
      split; [exists []; now rewrite app_nil_r|now left]].
  all: unfold try_catch in H.
  all: destruct (bind (extractMessageFromTransaction env (opt_string txHash)) _ w)
         as [[x|e] w1] eqn:E.
  2, 4: injection H as <- <-; split; [|now left];
    exact (grows_run _ _ _ _
             (emits_bind _ _ _ (grows_extractMessageFromTransaction env _)
                (fun ev => emits_ret _ _)) E).
  all: injection H as -> <-.
  all: apply bind_ret_inv in E as (ev & w2 & E1 & E).
  all: destruct (extractMessageFromTransaction_returns _ _ _ _ _ E1)
         as (mb' & Hmb & Hsrc & _ & Hc).
  all: injection E as <- <-; rewrite Hmb; cbn [opt_string].
  all: assert (T : truthy mb' = true)
         by (destruct Hsrc as (_ & _ & _ & _ & _ & S);
             exact (startsWith_0x_truthy _ S)).
  all: unfold or_else; rewrite T.
  all: split; [now exists [EvGetTransactionReceipt (opt_string txHash)]|].
  all: right; eexists; split; [|exact Hsrc].
  all: split; [lia|]; rewrite Hc, count_op_app; cbn; lia.
Qed.

Section ScriptSource.

Variable env : Env.
Variable cfg : CircleApi.
Variable messageHash : string.

Lemma grows_script_poll_step : forall txHash provider startTime retries,
  grows (try_catch
           (poll_try env cfg messageHash txHash provider startTime retries)
           (poll_catch cfg retries)).
Proof.
  intros txHash provider startTime retries. unfold grows.
  apply emits_try_catch.
  - unfold poll_try, complete_messageBytes.
    repeat first [apply grows_extractMessageFromTransaction | grows_step].
  - intros e. unfold poll_catch. repeat grows_step.
Qed.

(** What the loop of the script runtime returns was made of a complete
    answer of the authority to one of its queries. *)
Lemma script_poll_return_source :
  forall txHash provider startTime retries w a w',
    try_catch
      (poll_try env cfg messageHash txHash provider startTime retries)
      (poll_catch cfg retries) w
    = (Ret (Return a), w') ->
    exists k data,
      during OpFetch w w' k
      /\ answers_complete env cfg messageHash k data
      /\ attestation a = opt_string (body_attestation data)
      /\ match body_message data with
         | Some (String c m) => Common.messageBytes a = String c m
         | _ =>
             Common.messageBytes a = EmptyString
             \/ exists k',
                  during OpGetTransactionReceipt w w' k'
                  /\ message_of_receipt env (opt_string txHash) k'
                       (Common.messageBytes a)
         end.
Proof.
  intros txHash provider startTime retries w a w' H. unfold try_catch in H.
  destruct (poll_try env cfg messageHash txHash provider startTime retries w)
    as [[st|e] w1] eqn:E.
  - injection H as -> <-. unfold poll_try in E.
    apply bind_ret_inv in E as (t & w2 & Ht & E). injection Ht as <- <-.
    destruct (now w - startTime >? maxWaitTime cfg); [discriminate E|].
    apply bind_ret_inv in E as (r & w3 & Hr & E).
    unfold fetch in Hr. injection Hr as Hr <-.
    destruct (negb (ok r)) eqn:Hok.
    + destruct (status r =? 404); [|discriminate E].
      apply bind_ret_inv in E as (u & w4 & _ & E). discriminate E.
    + apply negb_false_iff in Hok.
      apply bind_ret_inv in E as (data & w4 & Hd & E).
      apply lift_outcome_inv in Hd as [Hd <-].
      destruct (is_complete data) eqn:C.
      * apply bind_ret_inv in E as (mb & w5 & Hmb & E). injection E as <- <-.
        destruct (complete_messageBytes_source _ _ _ _ _ _ _ Hmb)
          as ((d & Hc) & Hm).
        cbn [calls] in Hc.
        assert (W : calls w5
                    = calls w ++ EvFetch (attestation_url cfg messageHash) :: d)
          by (rewrite Hc, <- app_assoc; reflexivity).
        exists (count_op OpFetch (calls w)), data.
        split; [|split; [exists r; now repeat split|split; [reflexivity|]]].
        { split; [lia|]. rewrite W, count_op_app, count_op_cons. cbn. lia. }
        cbn [Common.messageBytes].
        destruct (body_message data) as [[|c m]|]; [|exact Hm|].
        all: destruct Hm as [Hm|(k' & Hk & Hm)]; [now left|right].
        all: exists k'; split; [|exact Hm].
        all: refine (during_extend _ w _ w5 w5 _ [] k' _
                       (eq_sym (app_nil_r _)) Hk); reflexivity.
      * destruct (match body_status data with
                  | Some st => str_eqb st "failed"
                  | None => false
                  end); [discriminate E|].
        apply bind_ret_inv in E as (u & w5 & _ & E). discriminate E.
  - unfold poll_catch in H.
    destruct (retries =? maxRetries cfg - 1)%nat; [discriminate H|].
    apply bind_ret_inv in H as (u & w3 & _ & H). discriminate H.
Qed.

Lemma script_poll_loop_source :
  forall txHash provider startTime n retries w a w',
    poll_loop env cfg messageHash txHash provider startTime n retries w
    = (Ret a, w') ->
    exists k data,
      during OpFetch w w' k
      /\ answers_complete env cfg messageHash k data
      /\ attestation a = opt_string (body_attestation data)
      /\ match body_message data with
         | Some (String c m) => Common.messageBytes a = String c m
         | _ =>
             Common.messageBytes a = EmptyString
             \/ exists k',
                  during OpGetTransactionReceipt w w' k'
                  /\ message_of_receipt env (opt_string txHash) k'
                       (Common.messageBytes a)
         end.
Proof.
  intros txHash provider startTime.
  induction n as [|n IH]; intros retries w a w' H.
  - discriminate H.
  - cbn [poll_loop] in H.
    apply bind_ret_inv in H as ([retries'|a'] & w2 & E & H).
    + destruct (grows_run _ _ _ _ (grows_script_poll_step _ _ _ _) E)
        as (d & Hd).
      destruct (IH _ _ _ _ H) as (k & data & Hk & Hc & Ha & Hm).
      exists k, data.
      split; [|split; [exact Hc|split; [exact Ha|]]].
      { exact (during_extend _ _ _ _ _ d [] k Hd (eq_sym (app_nil_r _)) Hk). }
      destruct (body_message data) as [[|c m]|]; [|exact Hm|].
      all: destruct Hm as [Hm|(k' & Hk' & Hm)]; [now left|right].
      all: exists k'; split; [|exact Hm].
      all: exact (during_extend _ _ _ _ _ d [] k' Hd (eq_sym (app_nil_r _)) Hk').
    + injection H as <- <-. exact (script_poll_return_source _ _ _ _ _ _ _ E).
Qed.

End ScriptSource.

(** X14. In the script runtime, every attestation that
    [getAttestationFromTransaction] returns passes
    [validateAttestationData], provided [keccak256] gives hashes of 66
    characters. Its hash is the [keccak256] hash of the message bytes
    that the first lookup of the receipt of the transaction shows in the
    [MessageSent] log. Its signature is that of an answer of the
    authority to a query of this run for this hash, complete and with a
    signature. Its message bytes are those of that answer when the
    answer has some, and otherwise those of the [MessageSent] log of a
    receipt of the transaction that this run looked up, which start with
    [0x]. *)
Theorem getAttestationFromTransaction_validates :
  forall (env : Env) (txHash : string) (w w' : World) (a : AttestationData),
    (forall bytes hash,
       ethers_keccak256 env bytes = Ret hash -> String.length hash = 66%nat) ->
    getAttestationFromTransaction env txHash w = (Ret a, w') ->
    validateAttestationData a = true
    /\ (exists messageBytes,
          message_of_receipt env txHash
            (count_op OpGetTransactionReceipt (calls w)) messageBytes
          /\ ethers_keccak256 env messageBytes = Ret (Common.messageHash a))
    /\ (exists k data,
          during OpFetch w w' k
          /\ answers_complete env Script.Config.CIRCLE_API_CONFIG
               (Common.messageHash a) k data
          /\ attestation a = opt_string (body_attestation data)
          /\ match body_message data with
             | Some (String c m) => Common.messageBytes a = String c m
             | _ =>
                 exists k',
                   during OpGetTransactionReceipt w w' k'
                   /\ message_of_receipt env txHash k' (Common.messageBytes a)
             end).
Proof.
  intros env txHash w w' a Hk H. unfold getAttestationFromTransaction in H.
  apply bind_ret_inv in H as (ev & w1 & E1 & H).
  destruct (extractMessageFromTransaction_returns _ _ _ _ _ E1)
    as (mb & Hmb & Hsrc & Hhash & Hw1).
  assert (H0x : startsWith mb "0x" = true)
    by (destruct Hsrc as (_ & _ & _ & _ & _ & S); exact S).
  apply bind_ret_inv in H as (a0 & w2 & E2 & H).
  unfold getAttestation in E2.
  destruct (getAttestation_invariant _ _ _ _ _ _ _ _ E2) as (S1 & S2 & S3).
  unfold getAttestation_with in E2.
  apply bind_ret_inv in E2 as (t & w3 & Ht & E2). injection Ht as _ <-.
  destruct (script_poll_loop_source _ _ _ _ _ _ _ _ _ _ _ E2)
    as (k & data & Hkf & Hc & Ha & Hm).
  cbn [opt_string] in Hm.
  assert (Hw2 : exists d, calls w2 = calls w1 ++ d)
    by exact (grows_run _ _ _ _ (grows_script_poll_loop env _ _ _ _ _ _ _) E2).
  destruct Hw2 as (d2 & Hw2).
  assert (L : String.length (ev_messageHash ev) = 66%nat)
    by exact (Hk _ _ Hhash).
  assert (V : forall m, truthy m = true ->
              validateAttestationData
                (mkAttestationData (att_status a0) (Common.messageHash a0) m
                   (attestation a0)) = true).
  { intros m Hm'. unfold validateAttestationData.
    cbn [att_status Common.messageHash Common.messageBytes attestation].
    rewrite S1, S2, L, (truthy_length _ Hm'), (truthy_length _ S3). reflexivity. }
  assert (Tm : truthy (or_else mb "") = true)
    by (destruct mb; [discriminate H0x|reflexivity]).
  assert (Om : or_else mb "" = mb)
    by (destruct mb; [discriminate H0x|reflexivity]).
  assert (F : forall k0, during OpFetch w1 w2 k0 -> during OpFetch w w2 k0).
  { intros k0 Hk0.
    exact (during_extend _ _ _ _ _ _ [] k0 Hw1 (eq_sym (app_nil_r _)) Hk0). }
  assert (R : forall k0,
            during OpGetTransactionReceipt w1 w2 k0 ->
            during OpGetTransactionReceipt w w2 k0).
  { intros k0 Hk0.
    exact (during_extend _ _ _ _ _ _ [] k0 Hw1 (eq_sym (app_nil_r _)) Hk0). }
  assert (R0 : during OpGetTransactionReceipt w w2
                 (count_op OpGetTransactionReceipt (calls w))).
  { split; [lia|]. rewrite Hw2, Hw1, !count_op_app. cbn. lia. }
  destruct (truthy (Common.messageBytes a0)) eqn:T; cbn [negb] in H.
  - injection H as <- <-. split; [|split].
    + destruct a0 as [st h m s]. exact (V m T).
    + exists mb. rewrite S2. now split.
    + exists k, data. rewrite S2.
      split; [exact (F _ Hkf)|]. split; [exact Hc|]. split; [exact Ha|].
      destruct (body_message data) as [[|c m]|]; [| exact Hm |].
      all: destruct Hm as [Hm|(k' & Hk' & Hm)];
        [rewrite Hm in T; discriminate T|].
      all: exists k'; split; [exact (R _ Hk')|exact Hm].
  - injection H as <- <-. rewrite Hmb. cbn [opt_string].
    cbn [Common.messageHash Common.messageBytes attestation].
    split; [exact (V _ Tm)|]. split.
    + exists mb. rewrite S2. now split.
    + exists k, data. rewrite S2.
      split; [exact (F _ Hkf)|]. split; [exact Hc|]. split; [exact Ha|].
      rewrite Om.
      destruct (body_message data) as [[|c m]|].
      2:{ rewrite Hm in T. discriminate T. }
      all: exists (count_op OpGetTransactionReceipt (calls w));
        split; [exact R0|exact Hsrc].
Qed.

Lemma getAttestationFromTransaction_validates_witness :
  validateAttestationData
    (mkAttestationData "complete" Stubs.message_hash "0xmessage0123"
       "0xABCDEF0123") = true.
Proof.
  refine (proj1 (getAttestationFromTransaction_validates Stubs.script_ready
                   "0xburn" Stubs.start
                   (snd (getAttestationFromTransaction Stubs.script_ready
                           "0xburn" Stubs.start)) _ _ _)).
  - intros bytes hash H. injection H as <-. reflexivity.
  - vm_compute. reflexivity.
Defined.

End ValidAttestation.

(** ** The end of the transfer script *)

Section FlowFacts.

Import Script.Flow.

Variable env : Env.

Lemma ensures_attempt_try : forall params,
  ensures (burn_for env (Script.Sender.recipientAddress params))
    (Script.Sender.attempt_try env params).
Proof.
  intros params w a w' H. unfold Script.Sender.attempt_try in H.
  apply bind_ret_inv in H as (addr & w1 & E1 & H).
  apply call_inv in E1 as [_ ->].
  destruct (negb _ || negb _) eqn:G; [discriminate H|].
  destruct (guard_passes _ G) as (_ & _ & G3).
  apply bind_ret_inv in H as (decimals & w2 & E2 & H).
  apply call_inv in E2 as [_ ->].
  apply bind_ret_inv in H as (amountWei & w3 & E3 & H).
  apply lift_outcome_inv in E3 as [_ <-].
  rewrite G3 in H.
  apply bind_ret_inv in H as (mint & w4 & E4 & H).
  apply lift_outcome_inv in E4 as [E4 <-]. injection E4 as <-.
  apply bind_ret_inv in H as (currentNonce & w5 & E5 & H).
  apply call_inv in E5 as [_ ->].
  apply bind_ret_inv in H as (tx & w6 & E6 & H).
  apply call_inv in E6 as [A6 ->]. cbn [op_of now calls] in A6, H.
  apply bind_ret_inv in H as (rc & w7 & E7 & H).
  apply lift_outcome_inv in E7 as [E7 <-].
  assert (G' : grows
                 (messageEvent <-
                    Script.Attestation.extractMessageFromTransaction env
                      (hash tx) ;;
                  ret (mkSend (hash tx)
                         (Some (Script.Attestation.ev_nonce messageEvent))
                         (Script.Attestation.ev_messageBytes messageEvent)))).
  { unfold grows.
    repeat first [apply grows_extractMessageFromTransaction | grows_step]. }
  destruct (grows_run _ _ _ _ G' H) as (d & C). cbn [calls] in C.
  repeat rewrite <- app_assoc in C. cbn [app] in C.
  repeat rewrite <- app_assoc in A6. cbn [app] in A6.
  exists [EvGetAddress; EvDecimals; EvGetNonce None],
    (EvDepositForBurn amountWei 9 (Script.Sender.recipientAddress params)
       Script.Config.usdc None), d.
  split; [exact C|].
  exists amountWei, tx, rc. split; [reflexivity|]. split; [|exact E7].
  symmetry. exact A6.
Qed.

Lemma ensures_attempt_loop : forall params n attempt lastError,
  ensures (burn_for env (Script.Sender.recipientAddress params))
    (Script.Sender.attempt_loop env params n attempt lastError).
Proof.
  intros params. induction n as [|n IH]; intros attempt lastError;
    cbn [Script.Sender.attempt_loop].
  - apply ensures_throw.
  - apply ensures_try_catch;
      [apply grows_attempt_try|apply ensures_attempt_try|].
    intros e.
    destruct (code_is e "NONCE_EXPIRED"
              && (attempt <? Script.Sender.maxRetries)%nat).
    + apply ensures_bind_r; [apply emits_sleep; exact I|intros _; apply IH].
    + destruct (attempt =? Script.Sender.maxRetries)%nat;
        [apply ensures_throw|apply IH].
Qed.

Lemma ensures_executeFullCrossChain : forall params,
  ensures (burn_for env (Script.Sender.recipientAddress params))
    (Script.Sender.executeFullCrossChain env params).
Proof.
  intros params. unfold Script.Sender.executeFullCrossChain.
  apply ensures_bind_r; [apply emits_call; exact I|intros userAddress].
  apply ensures_bind_r.
  { unfold Script.Sender.checkUSDCBalance. repeat grows_step. }
  intros balance. destruct (Script.Sender.balance_below _ _ _);
    [apply ensures_throw|].
  apply ensures_bind_r.
  { unfold Script.Sender.approveUSDC. repeat grows_step. }
  intros _. apply ensures_bind_l; [|intros r; apply emits_ret].
  apply ensures_attempt_loop.
Qed.

(** A receive of the script runtime that reports a success saw its
    transaction confirmed with a success. *)
Lemma script_receive_confirmed : forall params w r w',
  Script.Receiver.receiveCCTPUSDC env params w = (Ret r, w') ->
  recv_success r = true ->
  made w w' (confirmation_of env (recv_txHash r)).
Proof.
  intros params w r w' E S.
  destruct (script_receive_reports_delta env params w r w' E S)
    as (addr & bb & wa & bytecode & hash & wb & ba & before & after
        & _ & Hb & Hwb & Ha & _ & _ & -> & txn & At & St).
  destruct (grows_run _ _ _ _ (grows_script_checkUSDCBalance env addr) Hb)
    as (d1 & C1).
  destruct (grows_run _ _ _ _ (grows_script_checkUSDCBalance env addr) Ha)
    as (d2 & C2).
  subst wb. cbn [calls] in C2. cbn [recv_txHash].
  exists (d1 ++ [EvReadFile Script.Receiver.scriptPath;
                 EvBuild addr bytecode
                   [hexToBytes (Script.Receiver.messageBytes params);
                    hexToBytes (Script.Receiver.attestation params)];
                 EvSignAndSubmit addr]),
    (EvWaitForTransaction hash), d2.
  split.
  - rewrite C2, C1. rewrite <- !app_assoc. reflexivity.
  - rewrite app_assoc, <- C1. exists txn. now repeat split.
Qed.

Lemma ensures_receive_then :
  forall params {A} (k : AptosReceiveResult -> M World A) (e : JsError),
  (forall r, grows (k r)) ->
  ensures (confirmation env)
    (r <- Script.Receiver.receiveCCTPUSDC env params ;;
     if recv_success r then k r else throw e).
Proof.
  intros params A k e Gk w a w' H.
  apply bind_ret_inv in H as (r & w1 & E & H).
  destruct (recv_success r) eqn:S; [|discriminate H].
  destruct (grows_run _ _ _ _ (Gk r) H) as (d3 & C3).
  apply (made_extend _ w w w1 w' [] d3); [now rewrite app_nil_r|exact C3|].
  destruct (script_receive_confirmed params w r w1 E S)
    as (pre & ev & post & C & HQ).
  exists pre, ev, post. split; [exact C|]. now exists (recv_txHash r).
Qed.

(** The [try] block of [main]. *)
Lemma main_steps : forall c w ending w',
  validateConfig c = None ->
  main env c w = (Ret ending, w') ->
  ending = Exit 1
  \/ ending = Finished
     /\ made w w' (burn_for env (APTOS_RECIPIENT c))
     /\ made w w' (confirmation env).
Proof.
  intros c w ending w' V H. unfold main in H. rewrite V in H.
  unfold try_catch in H.
  match type of H with
  | (let (_, _) := ?body w in _) = _ =>
      assert (B : ensures (burn_for env (APTOS_RECIPIENT c)) body);
      [|assert (C : ensures (confirmation env) body);
        [|assert (F : forall w0 x w1, body w0 = (Ret x, w1) -> x = Finished);
          [|destruct (body w) as [[x|e] w1] eqn:E]]]
  end.
  - apply ensures_bind_r; [apply emits_lift_outcome|intros _].
    apply ensures_bind_r; [apply emits_call; exact I|intros baseAddress].
    apply ensures_bind_r.
    { unfold Script.Sender.checkUSDCBalance. repeat grows_step. }
    intros balance. destruct (Script.Sender.balance_below _ _ _);
      [apply ensures_throw|].
    apply ensures_bind_l;
      [exact (ensures_executeFullCrossChain
                (Script.Sender.mkParams USDC_AMOUNT (APTOS_RECIPIENT c)))|].
    intros sendResult. unfold grows.
    apply emits_bind;
      [apply grows_script_getAttestationFromTransaction|intros a].
    apply emits_bind; [apply grows_script_checkUSDCBalance|intros bb].
    apply emits_bind.
    { unfold Script.Receiver.receiveCCTPUSDC, Script.Receiver.receive_try.
      repeat first [apply grows_script_checkUSDCBalance | grows_step]. }
    intros r. destruct (recv_success r); [|apply emits_throw].
    apply emits_bind; [apply grows_script_checkUSDCBalance|intros ba].
    apply emits_ret.
  - apply ensures_bind_r; [apply emits_lift_outcome|intros _].
    apply ensures_bind_r; [apply emits_call; exact I|intros baseAddress].
    apply ensures_bind_r.
    { unfold Script.Sender.checkUSDCBalance. repeat grows_step. }
    intros balance. destruct (Script.Sender.balance_below _ _ _);
      [apply ensures_throw|].
    apply ensures_bind_r.
    { unfold Script.Sender.executeFullCrossChain, Script.Sender.checkUSDCBalance,
        Script.Sender.approveUSDC, Script.Sender.depositForBurn.
      apply emits_bind; [apply emits_call; exact I|intros ?].
      apply emits_bind; [repeat grows_step|intros ?].
      destruct (Script.Sender.balance_below _ _ _); [apply emits_throw|].
      apply emits_bind; [repeat grows_step|intros ?].
      apply emits_bind; [|intros ?; apply emits_ret].
      generalize (@None JsError) as lastError. generalize 1%nat as attempt.
      induction Script.Sender.maxRetries as [|n IH]; intros attempt lastError;
        cbn [Script.Sender.attempt_loop].
      - destruct lastError; apply emits_throw.
      - apply emits_try_catch; [apply grows_attempt_try|intros e].
        destruct (code_is e "NONCE_EXPIRED" && _).
        + apply emits_bind; [apply emits_sleep; exact I|intros _; apply IH].
        + destruct (_ =? _)%nat; [apply emits_throw|apply IH]. }
    intros sendResult.
    apply ensures_bind_r;
      [apply grows_script_getAttestationFromTransaction|intros a].
    apply ensures_bind_r; [apply grows_script_checkUSDCBalance|intros bb].
    apply ensures_receive_then. intros r. unfold grows.
    apply emits_bind; [apply grows_script_checkUSDCBalance|intros ba].
    apply emits_ret.
  - intros w0 x w1 E.
    apply bind_ret_inv in E as (u & w2 & _ & E).
    apply bind_ret_inv in E as (baseAddress & w3 & _ & E).
    apply bind_ret_inv in E as (balance & w4 & _ & E).
    destruct (Script.Sender.balance_below _ _ _); [discriminate E|].
    apply bind_ret_inv in E as (sendResult & w5 & _ & E).
    apply bind_ret_inv in E as (a & w6 & _ & E).
    apply bind_ret_inv in E as (bb & w7 & _ & E).
    apply bind_ret_inv in E as (r & w8 & _ & E).
    destruct (recv_success r); [|discriminate E].
    apply bind_ret_inv in E as (ba & w9 & _ & E).
    now injection E as <- _.
  - injection H as <- <-. right. split; [exact (F _ _ _ E)|].
    split; [exact (B _ _ _ E)|exact (C _ _ _ E)].
  - injection H as <- _. now left.
Qed.

End FlowFacts.

(** X24. The transfer script never throws. It ends with
    [process.exit(1)] without calling anything when one of the three
    variables that have no default is missing. When it ends normally, it
    has sent a burn that names [APTOS_RECIPIENT] itself as mint
    recipient, on domain 9 and for the USDC token, which the bridge
    accepted and whose confirmation arrived, and it has waited for a
    transaction of the destination chain that the chain answered with a
    success. In every other case it ends with [process.exit(1)]. *)
Theorem main_ends :
  forall (env : Env) (c : Script.Flow.CONFIG) (w : World),
  exists (ending : Script.Flow.Ending) (w' : World),
    Script.Flow.main env c w = (Ret ending, w')
    /\ (Script.Flow.BASE_PRIVATE_KEY c = EmptyString
        \/ Script.Flow.APTOS_PRIVATE_KEY c = EmptyString
        \/ Script.Flow.APTOS_RECIPIENT c = EmptyString ->
        ending = Script.Flow.Exit 1 /\ w' = w)
    /\ (ending = Script.Flow.Exit 1
        \/ ending = Script.Flow.Finished
           /\ made w w' (burn_for env (Script.Flow.APTOS_RECIPIENT c))
           /\ made w w' (confirmation env)).
Proof.
  intros env c w.
  destruct (Script.Flow.validateConfig c) as [ending|] eqn:V.
  - assert (ending = Script.Flow.Exit 1).
    { unfold Script.Flow.validateConfig in V.
      destruct (0 <? _)%nat; [now injection V|discriminate V]. }
    subst ending.
    exists (Script.Flow.Exit 1), w. unfold Script.Flow.main. rewrite V.
    split; [reflexivity|]. split; [now intros _|now left].
  - assert (T : exists ending w', Script.Flow.main env c w = (Ret ending, w')).
    { unfold Script.Flow.main. rewrite V. unfold try_catch.
      match goal with
      | |- exists _ _, (let (_, _) := ?body in _) = _ =>
          destruct body as [[x|e] w1]
      end; do 2 eexists; reflexivity. }
    destruct T as (ending & w' & H). exists ending, w'.
    split; [exact H|]. split.
    + intros M. exfalso. unfold Script.Flow.validateConfig in V.
      destruct (0 <? List.length (Script.Flow.config_errors c))%nat eqn:L;
        [discriminate V|].
      apply Nat.ltb_ge in L. unfold Script.Flow.config_errors in L.
      destruct M as [M|[M|M]]; rewrite M in L; cbn [truthy negb] in L;
        rewrite ?length_app in L; cbn [List.length] in L; lia.
    + exact (main_steps env c w ending w' V H).
Qed.

Lemma main_ends_witness :
  Script.Flow.main Stubs.happy
    (Script.Flow.mkConfig "" "https://sepolia.base.org" "aptos-key"
       Stubs.recipient) Stubs.start
  = (Ret (Script.Flow.Exit 1), Stubs.start)
  /\ (fst (Script.Flow.main Stubs.script_ready Stubs.CONFIG Stubs.start)
      = Ret Script.Flow.Finished
      /\ made Stubs.start
           (snd (Script.Flow.main Stubs.script_ready Stubs.CONFIG Stubs.start))
           (confirmation Stubs.script_ready)).
Proof.
  split.
  - destruct (main_ends Stubs.happy
                (Script.Flow.mkConfig "" "https://sepolia.base.org" "aptos-key"
                   Stubs.recipient) Stubs.start)
      as (ending & w' & H & Hmiss & _).
    destruct Hmiss as [-> ->]; [left; reflexivity|]. exact H.
  - destruct (main_ends Stubs.script_ready Stubs.CONFIG Stubs.start)
      as (ending & w' & H & _ & Hend).
    assert (E : fst (Script.Flow.main Stubs.script_ready Stubs.CONFIG
                       Stubs.start) = Ret Script.Flow.Finished)
      by (vm_compute; reflexivity).
    split; [exact E|]. rewrite H in E |- *. cbn [fst snd] in E |- *.
    injection E as ->.
    destruct Hend as [Hend|(_ & _ & Hc)]; [discriminate Hend|exact Hc].
Defined.

(** ** What a success of the orchestrator stands for *)

Section Growth2.

Variable env : Env.

Lemma grows_receipt_loop : forall txHash n,
  grows (Mobile.Attestation.receipt_loop env txHash n).
Proof.
  intros txHash. unfold grows.
  induction n as [|n IH]; cbn [Mobile.Attestation.receipt_loop].
  - apply emits_ret.
  - apply emits_bind; [apply emits_call; exact I|intros [r|]].
    + apply emits_ret.
    + apply emits_bind; [apply emits_sleep; exact I|intros _; apply IH].
Qed.

Lemma grows_mobile_poll_loop : forall cfg messageHash startTime n retries,
  grows (Mobile.Attestation.poll_loop env cfg messageHash startTime n retries).
Proof.
  intros cfg messageHash startTime. unfold grows.
  induction n as [|n IH]; intros retries; cbn [Mobile.Attestation.poll_loop].
  - apply emits_throw.
  - apply emits_bind; [apply emits_Date_now|intros t].
    destruct (t - startTime >? maxWaitTime cfg); [apply emits_throw|].
    apply emits_bind.
    + apply emits_try_catch.
      * unfold Mobile.Attestation.poll_try. repeat grows_step.
      * intros e. unfold Mobile.Attestation.poll_catch. repeat grows_step.
    + intros [retries'|a]; [apply IH|apply emits_ret].
Qed.

Lemma grows_mobile_getAttestationFromTransaction : forall txHash,
  grows (Mobile.Attestation.getAttestationFromTransaction env txHash).
Proof.
  intros txHash. unfold grows, Mobile.Attestation.getAttestationFromTransaction.
  apply emits_bind.
  { unfold Mobile.Attestation.extractMessageHash.
    apply emits_bind; [apply grows_receipt_loop|intros r].
    repeat grows_step. }
  intros [messageHash messageBytes].
  apply emits_bind; [|intros a; repeat grows_step].
  unfold Mobile.Attestation.getAttestation,
    Mobile.Attestation.getAttestation_with.
  apply emits_bind; [apply emits_Date_now|intros t].
  apply grows_mobile_poll_loop.
Qed.

Lemma grows_mobile_checkUSDCBalance : forall address,
  grows (Mobile.Receiver.checkUSDCBalance env address).
Proof.
  intros address. unfold grows, Mobile.Receiver.checkUSDCBalance.
  repeat grows_step.
Qed.

Lemma grows_mobile_executeFullCrossChain : forall amount recipientAddress,
  grows (Mobile.Sender.executeFullCrossChain env amount recipientAddress).
Proof.
  intros amount recipientAddress.
  unfold grows, Mobile.Sender.executeFullCrossChain,
    Mobile.Sender.approveUSDC, Mobile.Sender.depositForBurn,
    Mobile.Sender.nonce_or_latest.
  repeat grows_step.
Qed.

Lemma grows_mobile_receiveCCTPUSDC :
  forall messageBytes attestation privateKey,
  grows (Mobile.Receiver.receiveCCTPUSDC env messageBytes attestation
           privateKey).
Proof.
  intros messageBytes attestation privateKey.
  unfold grows, Mobile.Receiver.receiveCCTPUSDC, Mobile.Receiver.receive_try.
  repeat first [apply grows_mobile_checkUSDCBalance | grows_step].
Qed.

End Growth2.

Section OnChain.

Import Mobile.Config Mobile.Orchestrator.

Variable env : Env.

(** A send of the mobile runtime that returns has sent the burn whose
    hash it returns, and saw it confirmed. *)
Lemma mobile_send_burned : forall amount recipientAddress w result w',
  Mobile.Sender.executeFullCrossChain env amount recipientAddress w
  = (Ret result, w') ->
  made w w' (mobile_burn_for env recipientAddress (txHash result)).
Proof.
  intros amount recipientAddress w result w' H.
  destruct (mobile_executeFullCrossChain_run env amount recipientAddress w w'
              result H)
    as (n & decimals & amountWei & mint & approveTx & tx & receipt
        & _ & _ & _ & _ & _ & Hm & Hb & Hw & Hh & Hc).
  exists [EvGetNonce (Some "latest"); EvDecimals;
          EvApprove tokenMessengerV2 MaxUint256 (Some n); EvDecimals],
    (EvDepositForBurn amountWei 9 mint usdc (Some (n + 1))), [].
  split; [exact Hc|].
  exists amountWei, mint, (n + 1), tx, receipt.
  split; [reflexivity|]. split; [exact Hm|]. split; [|now split].
  rewrite count_op_app.
  change (count_op OpDepositForBurn
            [EvGetNonce (Some "latest"); EvDecimals;
             EvApprove tokenMessengerV2 MaxUint256 (Some n); EvDecimals])
    with 0%nat.
  rewrite Nat.add_0_r. exact Hb.
Qed.

(** A receive of the mobile runtime that reports a success saw its
    transaction confirmed with a success. *)
Lemma mobile_receive_confirmed :
  forall messageBytes attestation privateKey w r w',
    Mobile.Receiver.receiveCCTPUSDC env messageBytes attestation privateKey w
    = (Ret r, w') ->
    recv_success r = true ->
    made w w' (confirmation_of env (recv_txHash r)).
Proof.
  intros mb att pk w r w' E S.
  destruct (mobile_receive_reports_delta env mb att pk w r w' E S)
    as (addr & bb & wa & bytecode & hash & wb & ba & before & after
        & _ & Hb & Hwb & Ha & _ & _ & -> & txn & At & St).
  destruct (grows_run _ _ _ _ (grows_mobile_checkUSDCBalance env addr) Hb)
    as (d1 & C1).
  destruct (grows_run _ _ _ _ (grows_mobile_checkUSDCBalance env addr) Ha)
    as (d2 & C2).
  subst wb. cbn [calls] in C2. cbn [recv_txHash].
  exists (d1 ++ [EvBuild addr bytecode [hexToBytes mb; hexToBytes att];
                 EvSignAndSubmit addr]),
    (EvWaitForTransaction hash), d2.
  split.
  - rewrite C2, C1. rewrite <- !app_assoc. reflexivity.
  - rewrite app_assoc, <- C1. exists txn. now repeat split.
Qed.

Lemma collaborator_inv : forall {A} (m : M World A) s o s',
  collaborator m s = (o, s') ->
  m (world s) = (o, world s') /\ emitted s' = emitted s.
Proof.
  intros A m s o s' H. unfold collaborator in H.
  destruct (m (world s)) as [o' w]. now injection H as <- <-.
Qed.

Lemma onProgress_inv : forall p s o s',
  onProgress p s = (o, s') -> world s' = world s.
Proof. intros p s o s' H. now injection H as _ <-. Qed.

End OnChain.

(** X25. The orchestrator of the mobile runtime reports a success only
    after a burn for the encoded [APTOS_RECIPIENT] was accepted by the
    bridge and confirmed, whose hash it returns as [baseTxHash], and
    after the wait for the receive transaction whose hash it returns as
    [aptosTxHash] was answered with a success by the destination chain.
    The amount of its result is the configured [USDC_AMOUNT], not the
    amount that the receive measured. *)
Theorem executeCrossChain_success_on_chain :
  forall (env : Env) (CREDENTIALS : Mobile.Config.Credentials)
         (s s' : Mobile.Orchestrator.Session)
         (r : Mobile.Orchestrator.CrossChainResult),
    Mobile.Orchestrator.executeCrossChain env CREDENTIALS s = (Ret r, s') ->
    Mobile.Orchestrator.result_success r = true ->
    Mobile.Orchestrator.result_usdcAmount r = Some Mobile.Config.USDC_AMOUNT
    /\ exists burnHash receiveHash : string,
         Mobile.Orchestrator.baseTxHash r = Some burnHash
         /\ Mobile.Orchestrator.aptosTxHash r = Some receiveHash
         /\ made (Mobile.Orchestrator.world s) (Mobile.Orchestrator.world s')
              (mobile_burn_for env (Mobile.Config.APTOS_RECIPIENT CREDENTIALS)
                 burnHash)
         /\ made (Mobile.Orchestrator.world s) (Mobile.Orchestrator.world s')
              (confirmation_of env receiveHash).
Proof.
  intros env cred s s' r H Hok.
  unfold Mobile.Orchestrator.executeCrossChain,
    Mobile.Orchestrator.executeCrossChain_steps, try_catch in H.
  match type of H with
  | (let (_, _) := ?body s in _) = _ => destruct (body s) as [[r0|e] s0] eqn:E
  end.
  2:{ apply bind_ret_inv in H as (u & s1 & _ & H). injection H as <- _.
      discriminate Hok. }
  injection H as <- <-. clear Hok.
  apply bind_ret_inv in E as (u0 & s1 & E0 & E).
  apply collaborator_inv in E0 as [E0 _].
  unfold Mobile.Orchestrator.initialize in E0.
  apply lift_outcome_inv in E0 as [_ W0].
  apply bind_ret_inv in E as (u1 & s2 & P1 & E).
  apply onProgress_inv in P1.
  apply bind_ret_inv in E as (sendResult & s3 & E1 & E).
  apply collaborator_inv in E1 as [E1 _].
  apply bind_ret_inv in E as (u2 & s4 & P2 & E). apply onProgress_inv in P2.
  apply bind_ret_inv in E as (u3 & s5 & P3 & E). apply onProgress_inv in P3.
  apply bind_ret_inv in E as (att & s6 & E2 & E).
  apply collaborator_inv in E2 as [E2 _].
  apply bind_ret_inv in E as (u4 & s7 & P4 & E). apply onProgress_inv in P4.
  apply bind_ret_inv in E as (u5 & s8 & P5 & E). apply onProgress_inv in P5.
  apply bind_ret_inv in E as (rr & s9 & E3 & E).
  apply collaborator_inv in E3 as [E3 _].
  destruct (recv_success rr) eqn:S; [|discriminate E]. cbn [negb] in E.
  apply bind_ret_inv in E as (u6 & s10 & P6 & E). apply onProgress_inv in P6.
  injection E as <- <-.
  cbn [Mobile.Orchestrator.result_usdcAmount Mobile.Orchestrator.aptosTxHash
       Mobile.Orchestrator.baseTxHash].
  split; [reflexivity|].
  rewrite P1, <- W0 in E1. rewrite P3, P2 in E2. rewrite P5, P4 in E3.
  rewrite P6.
  destruct (grows_run _ _ _ _
              (grows_mobile_executeFullCrossChain env _ _) E1) as (d1 & C1).
  destruct (grows_run _ _ _ _
              (grows_mobile_getAttestationFromTransaction env _) E2)
    as (d2 & C2).
  destruct (grows_run _ _ _ _
              (grows_mobile_receiveCCTPUSDC env _ _ _) E3) as (d3 & C3).
  exists (txHash sendResult), (recv_txHash rr).
  split; [reflexivity|]. split; [reflexivity|]. split.
  - apply (made_extend _ (Mobile.Orchestrator.world s)
             (Mobile.Orchestrator.world s) (Mobile.Orchestrator.world s3)
             (Mobile.Orchestrator.world s9) [] (d2 ++ d3)).
    + now rewrite app_nil_r.
    + rewrite C3, C2. now rewrite <- app_assoc.
    + exact (mobile_send_burned env _ _ _ _ _ E1).
  - apply (made_extend _ (Mobile.Orchestrator.world s)
             (Mobile.Orchestrator.world s6) (Mobile.Orchestrator.world s9)
             (Mobile.Orchestrator.world s9) (d1 ++ d2) []).
    + rewrite C2, C1. now rewrite <- app_assoc.
    + now rewrite app_nil_r.
    + exact (mobile_receive_confirmed env _ _ _ _ _ _ E3 S).
Qed.

Lemma executeCrossChain_success_on_chain_witness :
  made Stubs.start
    (Mobile.Orchestrator.world
       (snd (Mobile.Orchestrator.executeCrossChain Stubs.happy
               Stubs.CREDENTIALS Stubs.session0)))
    (mobile_burn_for Stubs.happy Stubs.recipient "0xburn")
  /\ made Stubs.start
       (Mobile.Orchestrator.world
          (snd (Mobile.Orchestrator.executeCrossChain Stubs.happy
                  Stubs.CREDENTIALS Stubs.session0)))
       (confirmation_of Stubs.happy "0xreceive").
Proof.
  destruct (executeCrossChain_success_on_chain Stubs.happy Stubs.CREDENTIALS
              Stubs.session0
              (snd (Mobile.Orchestrator.executeCrossChain Stubs.happy
                      Stubs.CREDENTIALS Stubs.session0))
              (Mobile.Orchestrator.mkResult true (Some "0xburn")
                 (Some "0xreceive") (Some "1.0") None))
    as (_ & burnHash & receiveHash & Hb & Hr & Hburn & Hconf).
  - vm_compute. reflexivity.
  - reflexivity.
  - injection Hb as <-. injection Hr as <-. split; [exact Hburn|exact Hconf].
Defined.

(** ** The screen after the transfer *)

Section ScreenFacts.

Import Mobile.Orchestrator PreviewModal.

(** X26. [handleBridgeConfirm] with the orchestrator of the mobile runtime
    never throws and always leaves the screen out of its bridging state,
    with no progress shown. It shows exactly one alert: the success,
    followed by one call of [onConfirm], when the result of the
    orchestrator is a success; otherwise "Cross-chain failed" with the
    error of the result, or "Unknown error" when that error is empty.
    The alert "Error" of its [catch] block is never shown, since the
    orchestrator never throws and [Alert.alert] and [onConfirm] return
    normally. *)
Theorem handleBridgeConfirm_outcome :
  forall (env : Env) (CREDENTIALS : Mobile.Config.Credentials) (sc : Screen),
  exists (r : CrossChainResult) (s' : Session),
    executeCrossChain env CREDENTIALS (session sc) = (Ret r, s')
    /\ handleBridgeConfirm (executeCrossChain env CREDENTIALS) sc
       = (Ret tt,
          mkScreen false None
            (alerts sc
             ++ [if result_success r
                 then ("Cross-chain successful!", success_text r)
                 else ("Cross-chain failed",
                       or_else (opt_string (error r)) "Unknown error")])
            (if result_success r then S (confirmations sc)
             else confirmations sc)
            s').
Proof.
  intros env cred sc.
  destruct (executeCrossChain_steps_failure
              (initialize env cred)
              (Mobile.Sender.executeFullCrossChain env)
              (Mobile.Attestation.getAttestationFromTransaction env)
              (Mobile.Receiver.receiveCCTPUSDC env) cred (session sc))
    as (r & s' & Hrun & _).
  exists r, s'. split; [exact Hrun|].
  unfold handleBridgeConfirm, bind, try_finally, try_catch, bridge,
    setIsBridging, setBridgeProgress, Alert_alert, onConfirm.
  cbn [session isBridging bridgeProgress alerts confirmations].
  unfold executeCrossChain. rewrite Hrun.
  now destruct (result_success r).
Qed.

End ScreenFacts.

(** ** The message of a burn, in the script runtime *)

Section MessageOfBurn.

Import Script.Attestation.

(** X27. [extractMessageFromTransaction] of the script runtime looks the
    receipt up exactly once and never waits, however it ends. Without a
    receipt it throws at once. The event that it returns carries the
    decoded bytes of the [MessageSent] log, which start with [0x], their
    [keccak256] hash, the sender of the transaction, the destination
    domain 9 and an empty recipient; its nonce is the second topic of
    the [DepositForBurn] log, and ["0"] when there is no such log or
    topic. *)
Theorem extractMessageFromTransaction_single_lookup :
  forall (env : Env) (txHash : string) (w : World),
    let answer :=
      provider_getTransactionReceipt env
        (count_op OpGetTransactionReceipt (calls w)) txHash in
    let run := extractMessageFromTransaction env txHash w in
    snd run = mkWorld (now w) (calls w ++ [EvGetTransactionReceipt txHash])
    /\ (answer = Ret None ->
        fst run = Threw (Error "Unable to get transaction receipt"))
    /\ (forall ev,
          fst run = Ret ev ->
          exists receipt messageSentLog messageBytes,
            answer = Ret (Some receipt)
            /\ find (topic0_is (ethers_id env messageSentSignature))
                 (logs receipt) = Some messageSentLog
            /\ abi_decode_bytes env (data messageSentLog) = Ret messageBytes
            /\ startsWith messageBytes "0x" = true
            /\ ethers_keccak256 env messageBytes = Ret (ev_messageHash ev)
            /\ ev_messageBytes ev = Some messageBytes
            /\ ev_sender ev = from receipt
            /\ ev_recipient ev = EmptyString
            /\ ev_destinationDomain ev = 9
            /\ ev_nonce ev
               = match find (topic0_is (ethers_id env depositForBurnSignature))
                         (logs receipt) with
                 | Some depositLog =>
                     match nth_error (topics depositLog) 1 with
                     | Some t => t
                     | None => "0"
                     end
                 | None => "0"
                 end).
Proof.
  intros env txHash w answer run.
  unfold run, extractMessageFromTransaction, bind, call, lift_outcome, throw, ret.
  cbn [op_of]. fold answer.
  destruct answer as [[receipt|]|e]; cbn [fst snd].
  2, 3: now repeat split.
  destruct (find (topic0_is (ethers_id env messageSentSignature))
              (logs receipt)) as [l|] eqn:F; [|now repeat split].
  destruct (abi_decode_bytes env (data l)) as [mb|e] eqn:D;
    [|now repeat split].
  destruct (startsWith mb "0x") eqn:S; cbn [negb]; [|now repeat split].
  destruct (ethers_keccak256 env mb) as [h|e] eqn:K; cbn [fst snd];
    [|now repeat split].
  split; [reflexivity|]. split; [intros H; discriminate H|].
  intros ev H. injection H as <-.
  exists receipt, l, mb. now repeat split.
Qed.

Lemma extractMessageFromTransaction_single_lookup_witness :
  fst (extractMessageFromTransaction Stubs.never_mined "0xburn" Stubs.start)
  = Threw (Error "Unable to get transaction receipt")
  /\ exists receipt,
       provider_getTransactionReceipt Stubs.happy 0 "0xburn" = Ret (Some receipt)
       /\ ev_nonce (mkMessageSent "keccak:0xmessage" (Some "0xmessage") "0x2a"
                      "0xsender" "" 9) = "0x2a".
Proof.
  destruct (extractMessageFromTransaction_single_lookup Stubs.never_mined "0xburn"
              Stubs.start) as (_ & H & _).
  destruct (extractMessageFromTransaction_single_lookup Stubs.happy "0xburn"
              Stubs.start) as (_ & _ & H').
  split; [exact (H eq_refl)|].
  destruct (H' (mkMessageSent "keccak:0xmessage" (Some "0xmessage") "0x2a"
                  "0xsender" "" 9))
    as (receipt & l & mb & Hr & _ & _ & _ & _ & _ & _ & _ & _ & Hn).
  - vm_compute. reflexivity.
  - exists receipt. split; [exact Hr|]. reflexivity.
Defined.

End MessageOfBurn.

(** ** Instances of the general facts *)

Section Instances.

Lemma base64ToBytes_unpadded_agree_witness :
  Base64.base64ToBytes true "QUJD" = Base64.base64ToBytes false "QUJD".
Proof.
  exact (base64ToBytes_unpadded_agree ["Q"; "U"; "J"; "D"]%char eq_refl eq_refl).
Defined.

Lemma base64ToBytes_padded_differ_witness :
  Base64.base64ToBytes true "QQ==" <> Base64.base64ToBytes false "QQ==".
Proof.
  refine (base64ToBytes_padded_differ ["Q"; "Q"]%char 2 eq_refl _ eq_refl).
  lia.
Defined.

End Instances.
